(** * jackal: client-to-server session manager, stanza router and
      in-band registration (XEP-0077)

    A shallow embedding of [stream/c2s] (the [Manager]) and of
    [module/xep0077] (the [XEPRegister] handler), with the statements of the
    specification that concern them.

    Conventions of the embedding:
    - Go maps are stdpp [gmap]s; an absent key reads as Go's nil slice.
    - Go slices are lists.
    - A method that mutates the receiver returns the new receiver.
    - Calls to the storage singleton and to [Stream.SendElement] are the
      observable effects; a function that performs them returns the list of
      [Event]s it produced, in order, together with the new storage state.
    - The manager's lock and the log output are left out: every function is
      modelled as one atomic call. *)

From stdpp Require Import base strings list gmap.
From Stdlib Require Import ZArith.

Local Open Scope Z_scope.
Local Open Scope string_scope.

(** ** Go [error] values *)

(** The four sentinels of package c2s are compared by identity in Go; every
    other error is identified by its message. *)
Inductive error : Type :=
  | ErrNotExistingAccount
  | ErrResourceNotFound
  | ErrNotAuthenticated
  | ErrBlockedJID
  | Errorf (msg : string).

#[global] Instance error_eq_dec : EqDecision error.
Proof. solve_decision. Defined.

(** ** Package xml: JIDs, presences, stanzas *)

Module xml.

(** Modelled from the spec: the JID type of package xml, which the sources
    of c2s and xep0077 import but do not contain.  A JID has a node, a
    domain and a resource; the four shapes are server (domain), bare
    (node@domain), full-with-user (node@domain/resource) and
    full-with-server (domain/resource). *)
Record JID : Type := NewJID {
  Node : string;
  Domain : string;
  Resource : string
}.

#[global] Instance JID_eq_dec : EqDecision JID.
Proof. solve_decision. Defined.

(** Modelled from the spec: the bitmask of components to compare, one bit
    for each of node, domain and resource. *)
Definition JIDMatchesNode : Z := 1.
(** Modelled from the spec: the domain bit of the mask. *)
Definition JIDMatchesDomain : Z := 2.
(** Modelled from the spec: the resource bit of the mask. *)
Definition JIDMatchesResource : Z := 4.

Definition isEmpty (s : string) : bool := bool_decide (s = "").

(** Modelled from the spec: [IsServer] of package xml, the spec's
    "server-addressed": a JID without node (the case in which
    [StreamsMatchingJID] goes through every user). *)
Definition IsServer (j : JID) : bool := isEmpty (Node j).
(** Modelled from the spec: [IsBare], the shape node@domain. *)
Definition IsBare (j : JID) : bool :=
  negb (isEmpty (Node j)) && isEmpty (Resource j).
(** Modelled from the spec: [IsFull], a JID with a resource. *)
Definition IsFull (j : JID) : bool := negb (isEmpty (Resource j)).
(** Modelled from the spec: [IsFullWithServer], the shape domain/resource. *)
Definition IsFullWithServer (j : JID) : bool :=
  isEmpty (Node j) && negb (isEmpty (Resource j)).
(** Modelled from the spec: [IsFullWithUser], the shape
    node@domain/resource. *)
Definition IsFullWithUser (j : JID) : bool :=
  negb (isEmpty (Node j)) && negb (isEmpty (Resource j)).

(** Modelled from the spec: [ToBareJID] of package xml; the bare form
    drops the resource. *)
Definition ToBareJID (j : JID) : JID := NewJID (Node j) (Domain j) "".

(** Modelled from the spec: [j.Matches(j2, options)] of package xml
    compares exactly the components selected by the mask. *)
Definition Matches (j j2 : JID) (options : Z) : bool :=
  if negb (Z.land options JIDMatchesNode =? 0)%Z
     && negb (bool_decide (Node j = Node j2)) then false
  else if negb (Z.land options JIDMatchesDomain =? 0)%Z
     && negb (bool_decide (Domain j = Domain j2)) then false
  else if negb (Z.land options JIDMatchesResource =? 0)%Z
     && negb (bool_decide (Resource j = Resource j2)) then false
  else true.

(** Modelled from the spec: the presence of package xml, as far as the
    router reads it: its priority, a signed 8-bit integer.  The router only
    compares priorities, so no arithmetic wraps around. *)
Record Presence : Type := { Priority : Z }.

#[global] Instance Presence_eq_dec : EqDecision Presence.
Proof. solve_decision. Defined.

(** Modelled from the spec: the XML element type of package xml: a name,
    a namespace, a text and child elements. *)
#[warnings="-register-all"]
Inductive Element : Type :=
  NewElement (name : string) (namespace : string) (text : string)
             (elements : list Element).

Definition Name (e : Element) : string :=
  match e with NewElement n _ _ _ => n end.
Definition Namespace (e : Element) : string :=
  match e with NewElement _ ns _ _ => ns end.
Definition Text (e : Element) : string :=
  match e with NewElement _ _ t _ => t end.
Definition Elements (e : Element) : list Element :=
  match e with NewElement _ _ _ c => c end.

Definition NewElementName (name : string) : Element :=
  NewElement name "" "" [].

(** Modelled from the spec: [Elements().Child(name)] of package xml, the
    first direct child with that name, nil if there is none. *)
Fixpoint Child (es : list Element) (name : string) : option Element :=
  match es with
  | [] => None
  | e :: es' => if bool_decide (Name e = name) then Some e else Child es' name
  end.

(** Modelled from the spec: [Elements().ChildNamespace(name, ns)] of package
    xml, the first direct child with that name in that namespace. *)
Fixpoint ChildNamespace (es : list Element) (name ns : string)
  : option Element :=
  match es with
  | [] => None
  | e :: es' =>
      if bool_decide (Name e = name) && bool_decide (Namespace e = ns)
      then Some e else ChildNamespace es' name ns
  end.

(** Modelled from the spec: stanzas are a sum of message, presence and IQ
    with shared from and to addresses. *)
Inductive StanzaKind : Type := Message | PresenceStanza | IQStanza.

(** A stanza as the router sees it: its dynamic type (the [elem.(type)]
    switch), its addresses, and the rest of its content. *)
Record Stanza : Type := {
  Kind : StanzaKind;
  FromJID : JID;
  ToJID : JID;
  Payload : list Element
}.

(** Modelled from the spec: an IQ stanza as the registration handler sees
    it, with its type attribute (get, set, result, error). *)
Record IQ : Type := {
  IQID : string;
  IQType : string;
  IQFrom : JID;
  IQTo : JID;
  IQElements : list Element
}.

(** Modelled from the spec: [IsGet] and [IsSet] of package xml read the
    type attribute. *)
Definition IsGet (iq : IQ) : bool := bool_decide (IQType iq = "get").
Definition IsSet (iq : IQ) : bool := bool_decide (IQType iq = "set").

(** Modelled from the spec: the stanza-error conditions an IQ can be
    answered with ([iq.BadRequestError()] and the like). *)
Inductive StanzaError : Type :=
  | BadRequest | NotAllowed | NotAcceptable | NotAuthorized
  | Conflict | Forbidden | InternalServerError.

(** Modelled from the spec: what is handed to [SendElement]: a routed
    stanza, the error reply to an IQ, or the result reply to an IQ
    ([iq.ResultIQ()]) with the children appended to it. *)
Inductive XElement : Type :=
  | StanzaElement (s : Stanza)
  | ErrorIQ (iq : IQ) (e : StanzaError)
  | ResultIQ (iq : IQ) (elements : list Element).

End xml.

(** ** Package storage: the interface the core consumes *)

Module storage.

Record User : Type := { Username : string; Password : string }.

Record BlockListItem : Type := { Owner : string; JID : string }.

(** The storage singleton is an interface; [St] is whatever state stands
    behind it.  Results are Go's pairs (value, error). *)
Class Storage (St : Type) : Type := {
  UserExists : string → St → (bool * option error) * St;
  InsertOrUpdateUser : User → St → option error * St;
  FetchUser : string → St → (option User * option error) * St;
  DeleteUser : string → St → option error * St;
  FetchBlockListItems :
    string → St → (list BlockListItem * option error) * St
}.

End storage.

(** ** Package stream: the context of a stream *)

Module stream.

Section Values.

(** [float64] values are stored and handed back, never computed with; the
    type is left open, with Go's zero value of it.  [Other] stands for the
    dynamic types of an [interface{}] that the typed accessors do not
    know. *)
Variable float64 : Type.
Variable zeroFloat : float64.
Variable Other : Type.

(** What an [interface{}] holds: nothing, or a value with its dynamic
    type. *)
Inductive Value : Type :=
  | Nil
  | StringValue (s : string)
  | IntValue (i : Z)
  | FloatValue (f : float64)
  | BoolValue (b : bool)
  | OtherValue (o : Other).

(** The context: the map of values, the set of handlers that ran, and
    whether [doneCh] has been closed. *)
Record Context : Type := {
  m : gmap string Value;
  onceHandlers : gset string;
  doneClosed : bool
}.

Definition NewContext : Context :=
  {| m := ∅; onceHandlers := ∅; doneClosed := false |}.

(** [Done] returns the channel; a receive on it returns once it is
    closed. *)
Definition Done (ctx : Context) : bool := doneClosed ctx.

(** [Terminate] closes the channel; closing a closed channel stops the
    program, which is [None]. *)
Definition Terminate (ctx : Context) : option Context :=
  if doneClosed ctx then None
  else Some {| m := m ctx; onceHandlers := onceHandlers ctx;
               doneClosed := true |}.

Definition store (ctx : Context) (value : Value) (key : string) : Context :=
  {| m := <[key := value]> (m ctx); onceHandlers := onceHandlers ctx;
     doneClosed := doneClosed ctx |}.

Definition SetObject (ctx : Context) (object : Value) (key : string)
  : Context := store ctx object key.

(** Reading a missing key of a Go map gives the nil interface. *)
Definition Object (ctx : Context) (key : string) : Value :=
  default Nil (m ctx !! key).

Definition SetString (ctx : Context) (s : string) (key : string) : Context :=
  store ctx (StringValue s) key.

Definition String (ctx : Context) (key : string) : string :=
  match m ctx !! key with
  | Some (StringValue v) => v
  | _ => ""
  end.

Definition SetInt (ctx : Context) (integer : Z) (key : string) : Context :=
  store ctx (IntValue integer) key.

Definition Int (ctx : Context) (key : string) : Z :=
  match m ctx !! key with
  | Some (IntValue v) => v
  | _ => 0%Z
  end.

Definition SetFloat (ctx : Context) (float : float64) (key : string)
  : Context := store ctx (FloatValue float) key.

Definition Float (ctx : Context) (key : string) : float64 :=
  match m ctx !! key with
  | Some (FloatValue v) => v
  | _ => zeroFloat
  end.

Definition SetBool (ctx : Context) (boolean : bool) (key : string)
  : Context := store ctx (BoolValue boolean) key.

Definition Bool (ctx : Context) (key : string) : bool :=
  match m ctx !! key with
  | Some (BoolValue v) => v
  | _ => false
  end.

(** [DoOnce]: [f] is a closure; it runs after the handler is recorded and
    the lock released, so it may use the context.  [W] is whatever else it
    acts on. *)
Definition DoOnce {W : Type} (ctx : Context) (handler : string)
    (f : Context → W → Context * W) (w : W) : Context * W :=
  if bool_decide (handler ∈ onceHandlers ctx) then (ctx, w)
  else f {| m := m ctx; onceHandlers := {[handler]} ∪ onceHandlers ctx;
            doneClosed := doneClosed ctx |} w.

(** The five setters, as data: a sequence of them stands for a piece of
    client code that only writes values. *)
Inductive Op : Type :=
  | OpSetObject (object : Value) (key : string)
  | OpSetString (s : string) (key : string)
  | OpSetInt (integer : Z) (key : string)
  | OpSetFloat (float : float64) (key : string)
  | OpSetBool (boolean : bool) (key : string).

(** The key a setter call writes. *)
Definition written (op : Op) : string :=
  match op with
  | OpSetObject _ key | OpSetString _ key | OpSetInt _ key
  | OpSetFloat _ key | OpSetBool _ key => key
  end.

Definition apply (ctx : Context) (op : Op) : Context :=
  match op with
  | OpSetObject object key => SetObject ctx object key
  | OpSetString s key => SetString ctx s key
  | OpSetInt integer key => SetInt ctx integer key
  | OpSetFloat float key => SetFloat ctx float key
  | OpSetBool boolean key => SetBool ctx boolean key
  end.

(** One closure among those [DoOnce] can be given: it makes the setter
    calls [ops] and counts its runs in [w]. *)
Definition script (ops : list Op) (ctx : Context) (w : nat)
  : Context * nat :=
  (foldl apply ctx ops, S w).

End Values.

Arguments Nil {float64 Other}.
Arguments StringValue {float64 Other} s.
Arguments IntValue {float64 Other} i.
Arguments FloatValue {float64 Other} f.
Arguments BoolValue {float64 Other} b.
Arguments OtherValue {float64 Other} o.
Arguments NewContext {float64 Other}.
Arguments OpSetObject {float64 Other} object key.
Arguments OpSetString {float64 Other} s key.
Arguments OpSetInt {float64 Other} integer key.
Arguments OpSetFloat {float64 Other} float key.
Arguments OpSetBool {float64 Other} boolean key.
Arguments Done {float64 Other} ctx.
Arguments Terminate {float64 Other} ctx.
Arguments SetObject {float64 Other} ctx object key.
Arguments Object {float64 Other} ctx key.
Arguments SetString {float64 Other} ctx s key.
Arguments String {float64 Other} ctx key.
Arguments SetInt {float64 Other} ctx integer key.
Arguments Int {float64 Other} ctx key.
Arguments SetFloat {float64 Other} ctx float key.
Arguments Float {float64} zeroFloat {Other} ctx key.
Arguments SetBool {float64 Other} ctx boolean key.
Arguments Bool {float64 Other} ctx key.
Arguments DoOnce {float64 Other W} ctx handler f w.
Arguments written {float64 Other} op.
Arguments apply {float64 Other} ctx op.
Arguments script {float64 Other} ops ctx w.
Arguments m {float64 Other} c.
Arguments onceHandlers {float64 Other} c.
Arguments doneClosed {float64 Other} c.

(** A context for the examples: floats stood for by integers, no other
    dynamic type. *)
Definition exampleContext : Context Z Empty_set :=
  SetBool (SetInt (SetString NewContext "alice" "username") 3 "retries")
    true "tls".

End stream.

(** ** Package c2s: the session manager *)

Module c2s.

(** A client stream, by the values its accessor methods return at the time
    of a call.  In Go a stream is one live object: its id never changes,
    while [Username()] and [Resource()] are empty until the client has
    authenticated and bound a resource, and [Presence()] is nil until the
    client sends one.  Two records with the same [ID] are therefore the same
    stream at two moments.  The manager never changes a stream; [Context]
    plays no part in the manager and [SendElement] is recorded as an
    event. *)
Record Stream : Type := {
  ID : string;
  Username : string;
  Domain : string;
  Resource : string;
  JID : xml.JID;
  IsSecured : bool;
  IsAuthenticated : bool;
  IsCompressed : bool;
  Presence : option xml.Presence
}.

#[global] Instance Stream_eq_dec : EqDecision Stream.
Proof. solve_decision. Defined.

Record Config : Type := { Domains : list string }.

(** The three maps of the manager.  The manager never stores a nil slice
    under a key, so a key of [authedStms] or [blockLists] is present with a
    list, possibly empty, or absent. *)
Record Manager : Type := {
  cfg : Config;
  stms : gmap string Stream;
  authedStms : gmap string (list Stream);
  blockLists : gmap string (list xml.JID)
}.

(** The manager [Initialize] builds. *)
Definition Initialize (c : Config) : Manager :=
  {| cfg := c; stms := ∅; authedStms := ∅; blockLists := ∅ |}.

Fixpoint inDomains (ds : list string) (domain : string) : bool :=
  match ds with
  | [] => false
  | localDomain :: ds' =>
      if bool_decide (localDomain = domain) then true
      else inDomains ds' domain
  end.

Definition IsLocalDomain (m : Manager) (domain : string) : bool :=
  inDomains (Domains (cfg m)) domain.

(** [cfg.Domains[0]]; with no domain configured the index is out of range
    and the program stops, which is [None]. *)
Definition DefaultLocalDomain (m : Manager) : option string :=
  Domains (cfg m) !! 0%nat.

Definition RegisterStream (m : Manager) (stm : Stream)
  : option error * Manager :=
  if negb (IsLocalDomain m (Domain stm)) then
    (Some (Errorf ("invalid domain: " +:+ Domain stm)), m)
  else
    match stms m !! ID stm with
    | Some _ => (Some (Errorf ("stream already registered: " +:+ ID stm)), m)
    | None =>
        (None, {| cfg := cfg m;
                  stms := <[ID stm := stm]> (stms m);
                  authedStms := authedStms m;
                  blockLists := blockLists m |})
    end.

(** The loop of [UnregisterStream]: cut out the first element whose
    resource is [res], and stop. *)
Fixpoint removeResource (res : string) (authedStms : list Stream)
  : list Stream :=
  match authedStms with
  | [] => []
  | s :: rest =>
      if bool_decide (res = Resource s) then rest
      else s :: removeResource res rest
  end.

Definition UnregisterStream (m : Manager) (stm : Stream)
  : option error * Manager :=
  match stms m !! ID stm with
  | None => (Some (Errorf ("stream not found: " +:+ ID stm)), m)
  | Some _ =>
      let authed' :=
        match authedStms m !! Username stm with
        | Some authed =>
            let authed := removeResource (Resource stm) authed in
            if (0 <? length authed)%nat
            then <[Username stm := authed]> (authedStms m)
            else delete (Username stm) (authedStms m)
        | None => authedStms m
        end in
      (None, {| cfg := cfg m;
                stms := delete (ID stm) (stms m);
                authedStms := authed';
                blockLists := blockLists m |})
  end.

Definition AuthenticateStream (m : Manager) (stm : Stream)
  : option error * Manager :=
  if (String.length (Resource stm) =? 0)%nat then
    (Some (Errorf ("resource not yet assigned: " +:+ ID stm)), m)
  else
    let authed' :=
      match authedStms m !! Username stm with
      | Some authed => <[Username stm := (authed ++ [stm])%list]> (authedStms m)
      | None => <[Username stm := [stm]]> (authedStms m)
      end in
    (None, {| cfg := cfg m;
              stms := stms m;
              authedStms := authed';
              blockLists := blockLists m |}).

Definition ReloadBlockList (m : Manager) (username : string) : Manager :=
  {| cfg := cfg m;
     stms := stms m;
     authedStms := authedStms m;
     blockLists := delete username (blockLists m) |}.

(** *** The singleton *)

(** The package variables [inst] and [initialized]. *)
Record Singleton : Type := {
  inst : option Manager;
  initialized : Z
}.

Definition NoSingleton : Singleton := {| inst := None; initialized := 0 |}.

(** The singleton's [Initialize]: the compare-and-swap of [initialized]
    from 0 to 1 guards the construction. *)
Definition InitializeSingleton (g : Singleton) (c : Config) : Singleton :=
  if (initialized g =? 0)%Z then
    {| inst := Some (Initialize c); initialized := 1 |}
  else g.

(** [Instance] stops the program ([log.Fatalf]) without an instance. *)
Definition Instance (g : Singleton) : option Manager := inst g.

Definition Shutdown (g : Singleton) : Singleton :=
  if (initialized g =? 1)%Z then {| inst := None; initialized := 0 |}
  else g.

Inductive SingletonCall : Type :=
  | CallInitialize (c : Config)
  | CallShutdown.

Definition singletonCall (g : Singleton) (c : SingletonCall) : Singleton :=
  match c with
  | CallInitialize c => InitializeSingleton g c
  | CallShutdown => Shutdown g
  end.

(** *** States the lifecycle calls can reach *)

Inductive Call : Type :=
  | CallRegister (s : Stream)
  | CallUnregister (s : Stream)
  | CallAuthenticate (s : Stream).

Definition call (m : Manager) (c : Call) : option error * Manager :=
  match c with
  | CallRegister s => RegisterStream m s
  | CallUnregister s => UnregisterStream m s
  | CallAuthenticate s => AuthenticateStream m s
  end.

(** Run a sequence of calls, whatever each one returns. *)
Definition run (m : Manager) (cs : list Call) : Manager :=
  foldl (λ m c, (call m c).2) m cs.

(** *** Effects: storage calls and [SendElement] *)

Inductive Event : Type :=
  | SendElement (stm : Stream) (element : xml.XElement)
  | CallUserExists (username : string)
  | CallInsertOrUpdateUser (user : storage.User)
  | CallFetchUser (username : string)
  | CallDeleteUser (username : string)
  | CallFetchBlockListItems (username : string).

(** A computation over the storage state [St] that yields a value, the new
    storage state and the events it produced, oldest first. *)
Definition Eff (St A : Type) : Type := St → (A * St) * list Event.

#[global] Instance Eff_ret {St} : MRet (Eff St) :=
  λ A a st, (a, st, []).

#[global] Instance Eff_bind {St} : MBind (Eff St) :=
  λ A B k c st,
    let '(a, st1, ev1) := c st in
    let '(b, st2, ev2) := k a st1 in
    (b, st2, (ev1 ++ ev2)%list).

(** The [SendElement] calls among some events, in order. *)
Fixpoint sends (evs : list Event) : list (Stream * xml.XElement) :=
  match evs with
  | [] => []
  | SendElement stm e :: evs' => (stm, e) :: sends evs'
  | _ :: evs' => sends evs'
  end.

(** The storage calls among some events, in order. *)
Fixpoint storageCalls (evs : list Event) : list Event :=
  match evs with
  | [] => []
  | SendElement _ _ :: evs' => storageCalls evs'
  | ev :: evs' => ev :: storageCalls evs'
  end.

Section Effects.

Context {St : Type} `{!storage.Storage St}.

Definition sendElement (stm : Stream) (element : xml.XElement)
  : Eff St unit :=
  λ st, (tt, st, [SendElement stm element]).

Definition userExists (username : string) : Eff St (bool * option error) :=
  λ st, let '(r, st') := storage.UserExists username st in
        (r, st', [CallUserExists username]).

Definition insertOrUpdateUser (user : storage.User)
  : Eff St (option error) :=
  λ st, let '(r, st') := storage.InsertOrUpdateUser user st in
        (r, st', [CallInsertOrUpdateUser user]).

Definition fetchUser (username : string)
  : Eff St (option storage.User * option error) :=
  λ st, let '(r, st') := storage.FetchUser username st in
        (r, st', [CallFetchUser username]).

Definition deleteUser (username : string) : Eff St (option error) :=
  λ st, let '(r, st') := storage.DeleteUser username st in
        (r, st', [CallDeleteUser username]).

Definition fetchBlockListItems (username : string)
  : Eff St (list storage.BlockListItem * option error) :=
  λ st, let '(r, st') := storage.FetchBlockListItems username st in
        (r, st', [CallFetchBlockListItems username]).

End Effects.

(** *** Block lists, recipient resolution and routing *)

Section Router.

Context {St : Type} `{!storage.Storage St}.

(** [xml.NewJIDString(s, true)] of package xml: the parse of a stored
    block-list item.  [getBlockList] discards its error result; the items
    are taken to parse, so that every entry of a block list is a JID. *)
Variable NewJIDString : string → xml.JID.

(** The order in which Go's [range] enumerates the keys of [authedStms];
    the language leaves it unspecified. *)
Variable rangeKeys : gmap string (list Stream) → list string.

Definition jidMatchesBlockedJID (jid blockedJID : xml.JID) : bool :=
  if xml.IsFullWithUser blockedJID then
    xml.Matches jid blockedJID
      (Z.lor (Z.lor xml.JIDMatchesNode xml.JIDMatchesDomain)
             xml.JIDMatchesResource)
  else if xml.IsFullWithServer blockedJID then
    xml.Matches jid blockedJID
      (Z.lor xml.JIDMatchesDomain xml.JIDMatchesResource)
  else if xml.IsBare blockedJID then
    xml.Matches jid blockedJID
      (Z.lor xml.JIDMatchesNode xml.JIDMatchesDomain)
  else xml.Matches jid blockedJID xml.JIDMatchesDomain.

(** Returns the list and the manager, whose cache the call may have filled. *)
Definition getBlockList (m : Manager) (username : string)
  : Eff St (list xml.JID * Manager) :=
  match blockLists m !! username with
  | Some bl => mret (bl, m)
  | None =>
      '(blItms, err) ← fetchBlockListItems username;
      match err with
      | Some _ => mret ([], m)
      | None =>
          let bl := map (λ blItm, NewJIDString (storage.JID blItm)) blItms in
          mret (bl, {| cfg := cfg m;
                       stms := stms m;
                       authedStms := authedStms m;
                       blockLists := <[username := bl]> (blockLists m) |})
      end
  end.

Fixpoint anyBlocked (jid : xml.JID) (bl : list xml.JID) : bool :=
  match bl with
  | [] => false
  | blkJID :: bl' =>
      if jidMatchesBlockedJID jid blkJID then true else anyBlocked jid bl'
  end.

Definition IsBlockedJID (m : Manager) (jid : xml.JID) (username : string)
  : Eff St (bool * Manager) :=
  '(bl, m') ← getBlockList m username;
  mret (anyBlocked jid bl, m').

(** The inner loop of [StreamsMatchingJID]: keep the streams whose JID
    matches. *)
Fixpoint matching (jid : xml.JID) (opts : Z) (stms : list Stream)
  : list Stream :=
  match stms with
  | [] => []
  | stm :: stms' =>
      if xml.Matches (JID stm) jid opts
      then stm :: matching jid opts stms'
      else matching jid opts stms'
  end.

Fixpoint matchingAll (authed : gmap string (list Stream))
    (jid : xml.JID) (opts : Z) (keys : list string) : list Stream :=
  match keys with
  | [] => []
  | k :: keys' =>
      (matching jid opts (default [] (authed !! k))
         ++ matchingAll authed jid opts keys')%list
  end.

Definition StreamsMatchingJID (m : Manager) (jid : xml.JID) : list Stream :=
  if negb (IsLocalDomain m (xml.Domain jid)) then []
  else
    let opts := xml.JIDMatchesDomain in
    let opts :=
      if xml.IsFull jid then Z.lor opts xml.JIDMatchesResource else opts in
    if (0 <? String.length (xml.Node jid))%nat then
      let opts := Z.lor opts xml.JIDMatchesNode in
      matching jid opts (default [] (authedStms m !! xml.Node jid))
    else
      matchingAll (authedStms m) jid opts (rangeKeys (authedStms m)).

(** The loop of the full-JID case: the first recipient with the resource. *)
Fixpoint sendToResource (elem : xml.Stanza) (res : string)
    (rcps : list Stream) : Eff St (option error) :=
  match rcps with
  | [] => mret (Some ErrResourceNotFound)
  | stm :: rcps' =>
      if bool_decide (Resource stm = res) then
        _ ← sendElement stm (xml.StanzaElement elem); mret None
      else sendToResource elem res rcps'
  end.

(** The loop of the message case, from index 1 on: [stm] and
    [highestPriority] are the loop variables. *)
Fixpoint highestPriorityStream (stm : Stream) (highestPriority : Z)
    (rcps : list Stream) : Stream :=
  match rcps with
  | [] => stm
  | rcp :: rcps' =>
      match Presence rcp with
      | Some p =>
          if (xml.Priority p >? highestPriority)%Z
          then highestPriorityStream rcp (xml.Priority p) rcps'
          else highestPriorityStream stm highestPriority rcps'
      | None => highestPriorityStream stm highestPriority rcps'
      end
  end.

Fixpoint broadcast (elem : xml.Stanza) (rcps : list Stream) : Eff St unit :=
  match rcps with
  | [] => mret tt
  | stm :: rcps' =>
      _ ← sendElement stm (xml.StanzaElement elem); broadcast elem rcps'
  end.

Definition route (m : Manager) (elem : xml.Stanza) (ignoreBlocking : bool)
  : Eff St (option error * Manager) :=
  let toJID := xml.ToJID elem in
  if negb (IsLocalDomain m (xml.Domain toJID)) then mret (None, m)
  else
    '(blocked, m) ←
      (if negb ignoreBlocking && negb (xml.IsServer toJID)
       then IsBlockedJID m (xml.FromJID elem) (xml.Node toJID)
       else mret (false, m));
    if blocked : bool then mret (Some ErrBlockedJID, m)
    else
      let rcps := StreamsMatchingJID m (xml.ToBareJID toJID) in
      match rcps with
      | [] =>
          '(exists_, err) ← userExists (xml.Node toJID);
          match err with
          | Some e => mret (Some e, m)
          | None =>
              if exists_ : bool then mret (Some ErrNotAuthenticated, m)
              else mret (Some ErrNotExistingAccount, m)
          end
      | rcp0 :: rcps' =>
          if xml.IsFullWithUser toJID then
            r ← sendToResource elem (xml.Resource toJID) rcps; mret (r, m)
          else
            match xml.Kind elem with
            | xml.Message =>
                let highestPriority :=
                  match Presence rcp0 with
                  | Some p => xml.Priority p
                  | None => 0%Z
                  end in
                let stm := highestPriorityStream rcp0 highestPriority rcps' in
                _ ← sendElement stm (xml.StanzaElement elem); mret (None, m)
            | _ =>
                _ ← broadcast elem rcps; mret (None, m)
            end
      end.

Definition Route (m : Manager) (elem : xml.Stanza)
  : Eff St (option error * Manager) := route m elem false.

Definition MustRoute (m : Manager) (elem : xml.Stanza)
  : Eff St (option error * Manager) := route m elem true.

End Router.

End c2s.

(** ** Package xep0077: in-band registration *)

Module xep0077.

Definition registerNamespace : string := "jabber:iq:register".

Record Config : Type := {
  AllowRegistration : bool;
  AllowChange : bool;
  AllowCancel : bool
}.

(** The handler.  [stm] holds what the accessors of the handler's stream
    return at the time of the call. *)
Record XEPRegister : Type := {
  cfg : Config;
  stm : c2s.Stream;
  registered : bool
}.

Definition New (config : Config) (stm : c2s.Stream) : XEPRegister :=
  {| cfg := config; stm := stm; registered := false |}.

Definition setRegistered (x : XEPRegister) : XEPRegister :=
  {| cfg := cfg x; stm := stm x; registered := true |}.

Definition MatchesIQ (iq : xml.IQ) : bool :=
  match xml.ChildNamespace (xml.IQElements iq) "query" registerNamespace with
  | Some _ => true
  | None => false
  end.

Definition isValidToJid (x : XEPRegister) (jid : xml.JID) : bool :=
  if c2s.IsAuthenticated (stm x) then xml.IsServer jid
  else xml.IsServer jid
       || (xml.IsBare jid
           && bool_decide (xml.Node jid = c2s.Username (stm x))).

Section Handler.

Context {St : Type} `{!storage.Storage St}.

Definition reply (x : XEPRegister) (element : xml.XElement)
  : c2s.Eff St unit :=
  c2s.sendElement (stm x) element.

Definition sendRegistrationFields (x : XEPRegister) (iq : xml.IQ)
    (query : xml.Element) : c2s.Eff St unit :=
  if (0 <? length (xml.Elements query))%nat then
    reply x (xml.ErrorIQ iq xml.BadRequest)
  else
    let q := xml.NewElement "query" registerNamespace ""
               [xml.NewElementName "username"; xml.NewElementName "password"] in
    reply x (xml.ResultIQ iq [q]).

Definition registerNewUser (x : XEPRegister) (iq : xml.IQ)
    (query : xml.Element) : c2s.Eff St XEPRegister :=
  let userEl := xml.Child (xml.Elements query) "username" in
  let passwordEl := xml.Child (xml.Elements query) "password" in
  match userEl, passwordEl with
  | Some userEl, Some passwordEl =>
      if (String.length (xml.Text userEl) =? 0)%nat
         || (String.length (xml.Text passwordEl) =? 0)%nat
      then _ ← reply x (xml.ErrorIQ iq xml.BadRequest); mret x
      else
        '(exists_, err) ← c2s.userExists (xml.Text userEl);
        match err with
        | Some _ => _ ← reply x (xml.ErrorIQ iq xml.InternalServerError); mret x
        | None =>
            if exists_ : bool then
              _ ← reply x (xml.ErrorIQ iq xml.Conflict); mret x
            else
              let user := {| storage.Username := xml.Text userEl;
                             storage.Password := xml.Text passwordEl |} in
              err ← c2s.insertOrUpdateUser user;
              match err with
              | Some _ =>
                  _ ← reply x (xml.ErrorIQ iq xml.InternalServerError); mret x
              | None =>
                  _ ← reply x (xml.ResultIQ iq []); mret (setRegistered x)
              end
        end
  | _, _ => _ ← reply x (xml.ErrorIQ iq xml.BadRequest); mret x
  end.

Definition cancelRegistration (x : XEPRegister) (iq : xml.IQ)
    (query : xml.Element) : c2s.Eff St unit :=
  if negb (AllowCancel (cfg x)) then reply x (xml.ErrorIQ iq xml.NotAllowed)
  else if (1 <? length (xml.Elements query))%nat then
    reply x (xml.ErrorIQ iq xml.BadRequest)
  else
    err ← c2s.deleteUser (c2s.Username (stm x));
    match err with
    | Some _ => reply x (xml.ErrorIQ iq xml.InternalServerError)
    | None => reply x (xml.ResultIQ iq [])
    end.

Definition changePassword (x : XEPRegister) (password username : string)
    (iq : xml.IQ) : c2s.Eff St unit :=
  if negb (AllowChange (cfg x)) then reply x (xml.ErrorIQ iq xml.NotAllowed)
  else if negb (bool_decide (username = c2s.Username (stm x))) then
    reply x (xml.ErrorIQ iq xml.NotAllowed)
  else if negb (c2s.IsSecured (stm x)) then
    reply x (xml.ErrorIQ iq xml.NotAuthorized)
  else
    '(user, err) ← c2s.fetchUser username;
    match err with
    | Some _ => reply x (xml.ErrorIQ iq xml.InternalServerError)
    | None =>
        match user with
        | None => reply x (xml.ResultIQ iq [])
        | Some user =>
            if negb (bool_decide (storage.Password user = password)) then
              let user := {| storage.Username := storage.Username user;
                             storage.Password := password |} in
              err ← c2s.insertOrUpdateUser user;
              match err with
              | Some _ => reply x (xml.ErrorIQ iq xml.InternalServerError)
              | None => reply x (xml.ResultIQ iq [])
              end
            else reply x (xml.ResultIQ iq [])
        end
    end.

(** [ProcessIQ] yields the handler after the call, or [None] when the call
    stops in a nil dereference: [q] is nil for an IQ that [MatchesIQ]
    rejects, and three branches call [q.Elements()] before anything else. *)
Definition ProcessIQ (x : XEPRegister) (iq : xml.IQ)
  : c2s.Eff St (option XEPRegister) :=
  if negb (isValidToJid x (xml.IQTo iq)) then
    _ ← reply x (xml.ErrorIQ iq xml.Forbidden); mret (Some x)
  else
    let q := xml.ChildNamespace (xml.IQElements iq) "query" registerNamespace in
    if negb (c2s.IsAuthenticated (stm x)) then
      if xml.IsGet iq then
        if negb (AllowRegistration (cfg x)) then
          _ ← reply x (xml.ErrorIQ iq xml.NotAllowed); mret (Some x)
        else
          match q with
          | None => mret None
          | Some q => _ ← sendRegistrationFields x iq q; mret (Some x)
          end
      else if xml.IsSet iq then
        if negb (registered x) then
          match q with
          | None => mret None
          | Some q => x' ← registerNewUser x iq q; mret (Some x')
          end
        else
          _ ← reply x (xml.ErrorIQ iq xml.NotAcceptable); mret (Some x)
      else
        _ ← reply x (xml.ErrorIQ iq xml.BadRequest); mret (Some x)
    else if xml.IsSet iq then
      match q with
      | None => mret None
      | Some q =>
          match xml.Child (xml.Elements q) "remove" with
          | Some _ => _ ← cancelRegistration x iq q; mret (Some x)
          | None =>
              match xml.Child (xml.Elements q) "username",
                    xml.Child (xml.Elements q) "password" with
              | Some user, Some password =>
                  _ ← changePassword x (xml.Text password) (xml.Text user) iq;
                  mret (Some x)
              | _, _ =>
                  _ ← reply x (xml.ErrorIQ iq xml.BadRequest); mret (Some x)
              end
          end
      end
    else
      _ ← reply x (xml.ErrorIQ iq xml.BadRequest); mret (Some x).

End Handler.

End xep0077.

(** * Statements about the session manager *)

Module c2s_spec.

Import c2s.

(** ** Vocabulary of the specification *)

(** Every element of [authed[u]] has username [u] and a non-empty resource. *)
Definition authedKeyed (m : Manager) : Prop :=
  ∀ u l s, authedStms m !! u = Some l → s ∈ l →
    Username s = u ∧ Resource s ≠ "".

(** Every element of an authed list still appears in the streams map.  A
    stream is the object of its id, whatever its accessors returned when it
    was registered, so it appears in the map when the map holds a stream
    under its id. *)
Definition authedInStreams (m : Manager) : Prop :=
  ∀ u l s, authedStms m !! u = Some l → s ∈ l → is_Some (stms m !! ID s).

(** No two elements of an authed list share a resource. *)
Definition resourcesUnique (m : Manager) : Prop :=
  ∀ u l, authedStms m !! u = Some l → NoDup (Resource <$> l).

(** The invariant of the session manager as the specification words it. *)
Definition invariant (m : Manager) : Prop :=
  authedKeyed m ∧ authedInStreams m.

(** [l'] is [l] without its first element of resource [res], if any. *)
Definition firstRemoved (res : string) (l l' : list Stream) : Prop :=
  ((∀ x, x ∈ l → Resource x ≠ res) ∧ l' = l)
  ∨ (∃ l1 x l2, l = (l1 ++ x :: l2)%list ∧ Resource x = res
       ∧ (∀ y, y ∈ l1 → Resource y ≠ res) ∧ l' = (l1 ++ l2)%list).

(** The way callers are meant to use the lifecycle calls.  A stream is
    authenticated while it is registered (the streams map holds its id; its
    username and resource may have been set since it was registered) and
    with a resource that no authenticated stream of the user holds.  A
    stream that is unregistered while authenticated still has the username
    and the resource it was authenticated with; its other values may have
    changed. *)
Definition disciplined (m : Manager) (c : Call) : Prop :=
  match c with
  | CallRegister _ => True
  | CallUnregister s =>
      ∀ u l x, authedStms m !! u = Some l → x ∈ l → ID x = ID s →
        Username x = Username s ∧ Resource x = Resource s
  | CallAuthenticate s =>
      Resource s = ""
      ∨ (is_Some (stms m !! ID s)
         ∧ ∀ l, authedStms m !! Username s = Some l →
             Resource s ∉ Resource <$> l)
  end.

Fixpoint disciplinedRun (m : Manager) (cs : list Call) : Prop :=
  match cs with
  | [] => True
  | c :: cs' => disciplined m c ∧ disciplinedRun (call m c).2 cs'
  end.

(** The priority a recipient counts with: that of its presence, 0 without. *)
Definition effectivePriority (s : Stream) : Z :=
  match Presence s with
  | Some p => xml.Priority p
  | None => 0%Z
  end.

(** The recipients the message branch considers: the first one, and those
    after it that have a presence. *)
Definition considered (i : nat) (s : Stream) : Prop :=
  i = 0%nat ∨ Presence s ≠ None.

(** The four shapes of a JID. *)
Inductive Shape : Type := FullWithUser | FullWithServer | Bare | Server.

Definition shape (j : xml.JID) : Shape :=
  match bool_decide (xml.Node j = ""), bool_decide (xml.Resource j = "") with
  | false, false => FullWithUser
  | true, false => FullWithServer
  | false, true => Bare
  | true, true => Server
  end.

(** The comparison the block-list table prescribes for an entry. *)
Definition entryMatches (entry j : xml.JID) : Prop :=
  match shape entry with
  | FullWithUser =>
      xml.Node j = xml.Node entry ∧ xml.Domain j = xml.Domain entry
      ∧ xml.Resource j = xml.Resource entry
  | FullWithServer =>
      xml.Domain j = xml.Domain entry ∧ xml.Resource j = xml.Resource entry
  | Bare => xml.Node j = xml.Node entry ∧ xml.Domain j = xml.Domain entry
  | Server => xml.Domain j = xml.Domain entry
  end.

(** ** Concrete data for the examples *)

Definition exampleConfig : Config := {| Domains := ["example.org"] |}.

Definition aliceStream (id res : string) (presence : option xml.Presence)
  : Stream :=
  {| ID := id; Username := "alice"; Domain := "example.org";
     Resource := res; JID := xml.NewJID "alice" "example.org" res;
     IsSecured := true; IsAuthenticated := true; IsCompressed := false;
     Presence := presence |}.

Definition phone : Stream :=
  aliceStream "stream-1" "phone" (Some {| xml.Priority := 1 |}).
Definition laptop : Stream :=
  aliceStream "stream-2" "laptop" (Some {| xml.Priority := 5 |}).
Definition away : Stream :=
  aliceStream "stream-3" "away" (Some {| xml.Priority := -5 |}).
Definition silent : Stream := aliceStream "stream-4" "silent" None.
Definition idle : Stream :=
  aliceStream "stream-5" "idle" (Some {| xml.Priority := 0 |}).

(** A stream as it is when it registers: open, with no user, resource or
    presence yet. *)
Definition unbound (id : string) : Stream :=
  {| ID := id; Username := ""; Domain := "example.org"; Resource := "";
     JID := xml.NewJID "" "example.org" "";
     IsSecured := false; IsAuthenticated := false; IsCompressed := false;
     Presence := None |}.

Definition foreign : Stream :=
  {| ID := "stream-9"; Username := "mallory"; Domain := "example.net";
     Resource := ""; JID := xml.NewJID "mallory" "example.net" "";
     IsSecured := false; IsAuthenticated := false; IsCompressed := false;
     Presence := None |}.

(** A storage that never fails: the users it knows and the block-list
    items of each user. *)
Record MemStorage : Type := {
  users : list storage.User;
  blockListItems : list storage.BlockListItem
}.

Definition memUserExists (username : string) (st : MemStorage) : bool :=
  bool_decide (username ∈ storage.Username <$> users st).

Definition memFetchUser (username : string) (st : MemStorage)
  : option storage.User :=
  list_find (λ u, storage.Username u = username) (users st) ≫= λ p, Some p.2.

Definition memInsert (user : storage.User) (st : MemStorage) : MemStorage :=
  {| users :=
       user :: filter (λ u, storage.Username u ≠ storage.Username user)
                 (users st);
     blockListItems := blockListItems st |}.

Definition memDelete (username : string) (st : MemStorage) : MemStorage :=
  {| users := filter (λ u, storage.Username u ≠ username) (users st);
     blockListItems := blockListItems st |}.

#[global] Instance MemStorage_Storage : storage.Storage MemStorage := {|
  storage.UserExists username st := ((memUserExists username st, None), st);
  storage.InsertOrUpdateUser user st := (None, memInsert user st);
  storage.FetchUser username st := ((memFetchUser username st, None), st);
  storage.DeleteUser username st := (None, memDelete username st);
  storage.FetchBlockListItems username st :=
    ((filter (λ it, storage.Owner it = username) (blockListItems st), None),
     st)
|}.

(** A storage whose every call fails. *)
Definition storageDown : error := Errorf "storage: connection lost".

Record DownStorage : Type := Down {}.

#[global] Instance DownStorage_Storage : storage.Storage DownStorage := {|
  storage.UserExists _ st := ((false, Some storageDown), st);
  storage.InsertOrUpdateUser _ st := (Some storageDown, st);
  storage.FetchUser _ st := ((None, Some storageDown), st);
  storage.DeleteUser _ st := (Some storageDown, st);
  storage.FetchBlockListItems _ st := (([], Some storageDown), st)
|}.

(** A parser for the stored items of the examples: node@domain only. *)
Definition parseBare (s : string) : xml.JID :=
  if bool_decide (s = "bob@example.org") then xml.NewJID "bob" "example.org" ""
  else xml.NewJID "" s "".

(** The order of the keys in the map's own enumeration. *)
Definition keysOf (authed : gmap string (list Stream)) : list string :=
  (map_to_list authed).*1.

Definition message (from to : xml.JID) : xml.Stanza :=
  {| xml.Kind := xml.Message; xml.FromJID := from; xml.ToJID := to;
     xml.Payload := [] |}.

Definition bob : xml.JID := xml.NewJID "bob" "example.org" "x".
Definition carol : xml.JID := xml.NewJID "carol" "example.org" "pc".
Definition aliceBare : xml.JID := xml.NewJID "alice" "example.org" "".

Definition aliceBlocksBob : MemStorage :=
  {| users := [{| storage.Username := "alice"; storage.Password := "pw" |}];
     blockListItems :=
       [{| storage.Owner := "alice"; storage.JID := "bob@example.org" |}] |}.

Definition aliceOnly : MemStorage :=
  {| users := [{| storage.Username := "alice"; storage.Password := "pw" |}];
     blockListItems := [] |}.

(** The manager after [phone] registered and was authenticated twice. *)
Definition authenticatedTwice : Manager :=
  run (Initialize exampleConfig)
      [CallRegister phone; CallAuthenticate phone; CallAuthenticate phone].

(** The manager after the given streams registered and authenticated. *)
Definition online (ss : list Stream) : Manager :=
  run (Initialize exampleConfig)
      ((CallRegister <$> ss) ++ (CallAuthenticate <$> ss))%list.


(** ** Vocabulary of the router *)

(** The block list of a user as routing sees it: the cached list when there
    is one, else the stored items, parsed; empty when storage fails. *)
Definition blockListOf {St : Type} `{!storage.Storage St}
    (NewJIDString : string → xml.JID) (m : Manager) (username : string)
    (st : St) : list xml.JID :=
  match blockLists m !! username with
  | Some bl => bl
  | None =>
      match storage.FetchBlockListItems username st with
      | ((blItms, None), _) =>
          (λ blItm, NewJIDString (storage.JID blItm)) <$> blItms
      | ((_, Some _), _) => []
      end
  end.

(** The sender of a stanza is on the block list of the user it is for. *)
Definition senderBlocked {St : Type} `{!storage.Storage St}
    (NewJIDString : string → xml.JID) (m : Manager) (elem : xml.Stanza)
    (st : St) : Prop :=
  ∃ entry,
    entry ∈ blockListOf NewJIDString m (xml.Node (xml.ToJID elem)) st
    ∧ entryMatches entry (xml.FromJID elem).

(** The storage state in which [route] goes on after its block-list step:
    the step calls storage only when it runs and the list is not cached. *)
Definition storageAfterBlockStep {St : Type} `{!storage.Storage St}
    (m : Manager) (elem : xml.Stanza) (ignoreBlocking : bool) (st : St)
  : St :=
  if negb ignoreBlocking && negb (xml.IsServer (xml.ToJID elem)) then
    match blockLists m !! xml.Node (xml.ToJID elem) with
    | Some _ => st
    | None => (storage.FetchBlockListItems (xml.Node (xml.ToJID elem)) st).2
    end
  else st.

(** The result [route] owes to a stanza without recipient, from what
    [UserExists] returned. *)
Definition noRecipientError (r : bool * option error) : error :=
  match r.2 with
  | Some err => err
  | None => if r.1 then ErrNotAuthenticated else ErrNotExistingAccount
  end.

(** Two managers that differ in their cached block lists only. *)
Definition sameButBlockLists (m1 m2 : Manager) : Prop :=
  cfg m1 = cfg m2 ∧ stms m1 = stms m2 ∧ authedStms m1 = authedStms m2.


(** What [route] does once its block-list step let the stanza through:
    the second half of the function, with the manager it reads. *)
Definition deliver {St : Type} `{!storage.Storage St}
    (rangeKeys : gmap string (list Stream) → list string)
    (m : Manager) (elem : xml.Stanza) : Eff St (option error) :=
  let toJID := xml.ToJID elem in
  match StreamsMatchingJID rangeKeys m (xml.ToBareJID toJID) with
  | [] =>
      r ← userExists (xml.Node toJID); mret (Some (noRecipientError r))
  | rcp0 :: rcps' =>
      if xml.IsFullWithUser toJID then
        sendToResource elem (xml.Resource toJID) (rcp0 :: rcps')
      else
        match xml.Kind elem with
        | xml.Message =>
            _ ← sendElement
                  (highestPriorityStream rcp0 (effectivePriority rcp0) rcps')
                  (xml.StanzaElement elem);
            mret None
        | _ => _ ← broadcast elem (rcp0 :: rcps'); mret None
        end
  end.

(** The block-list step of [route]: whether it rejects the stanza, and the
    manager, storage state and events it leaves. *)
Definition blockStep {St : Type} `{!storage.Storage St}
    (NewJIDString : string → xml.JID) (m : Manager) (elem : xml.Stanza)
    (ignoreBlocking : bool) : Eff St (bool * Manager) :=
  if negb ignoreBlocking && negb (xml.IsServer (xml.ToJID elem))
  then IsBlockedJID NewJIDString m (xml.FromJID elem)
         (xml.Node (xml.ToJID elem))
  else mret (false, m).


(** [stm], at index [i] of the recipients, is the one the message branch
    selects: the first, in order, to attain the highest priority among the
    recipients it considers. *)
Definition selected (rcps : list Stream) (stm : Stream) (i : nat) : Prop :=
  rcps !! i = Some stm
  ∧ considered i stm
  ∧ (∀ j r, rcps !! j = Some r → considered j r →
       (effectivePriority r ≤ effectivePriority stm)%Z)
  ∧ (∀ j r, (j < i)%nat → rcps !! j = Some r → considered j r →
       (effectivePriority r < effectivePriority stm)%Z).

(** [stm], at index [i], is the first recipient whose effective priority is
    the maximum over all recipients. *)
Definition highestOfAll (rcps : list Stream) (stm : Stream) (i : nat)
  : Prop :=
  rcps !! i = Some stm
  ∧ (∀ j r, rcps !! j = Some r →
       (effectivePriority r ≤ effectivePriority stm)%Z)
  ∧ (∀ j r, (j < i)%nat → rcps !! j = Some r →
       (effectivePriority r < effectivePriority stm)%Z).


(** ** More vocabulary of the manager *)

(** Every stream is filed under its own id and is of a local domain; a
    username is a key of [authed] only with a list that is not empty. *)
Definition filed (m : Manager) : Prop :=
  (∀ id s, stms m !! id = Some s →
     ID s = id ∧ IsLocalDomain m (Domain s) = true)
  ∧ (∀ u l, authedStms m !! u = Some l → l ≠ []).


(** ** More data for the examples *)

Definition stanza (kind : xml.StanzaKind) (from to : xml.JID) : xml.Stanza :=
  {| xml.Kind := kind; xml.FromJID := from; xml.ToJID := to;
     xml.Payload := [] |}.

Definition alicePhone : xml.JID := xml.NewJID "alice" "example.org" "phone".

Definition dave : xml.JID := xml.NewJID "dave" "example.net" "".

End c2s_spec.

(** * Statements about in-band registration *)

Module xep0077_spec.

Import xep0077.

(** ** Vocabulary of the specification *)

(** The text of a field of the query; empty when the child is missing. *)
Definition fieldText (query : xml.Element) (name : string) : string :=
  match xml.Child (xml.Elements query) name with
  | Some el => xml.Text el
  | None => ""
  end.

(** The replies among some events: what was handed to [SendElement]. *)
Definition replies (evs : list c2s.Event) : list xml.XElement :=
  (c2s.sends evs).*2.

(** What may happen to a handler between two moments: it processes an IQ,
    or its stream and the storage change under it (the stream
    authenticates, another connection creates a user).  The latch and the
    configuration change through [ProcessIQ] only. *)
Inductive later {St : Type} `{!storage.Storage St}
  : XEPRegister * St → XEPRegister * St → Prop :=
  | later_now (xs : XEPRegister * St) : later xs xs
  | later_iq (x x1 : XEPRegister) (st st1 : St) (iq : xml.IQ)
      (evs : list c2s.Event) (xs2 : XEPRegister * St) :
      ProcessIQ x iq st = (Some x1, st1, evs) →
      later (x1, st1) xs2 → later (x, st) xs2
  | later_env (x : XEPRegister) (st st1 : St) (stm1 : c2s.Stream)
      (xs2 : XEPRegister * St) :
      later ({| cfg := cfg x; stm := stm1; registered := registered x |},
             st1) xs2 →
      later (x, st) xs2.

(** ** Concrete data for the examples *)

Definition allAllowed : Config :=
  {| AllowRegistration := true; AllowChange := true; AllowCancel := true |}.

Definition serverJID : xml.JID := xml.NewJID "" "example.org" "".

(** A stream that has not authenticated yet. *)
Definition newcomer : c2s.Stream :=
  {| c2s.ID := "stream-7"; c2s.Username := ""; c2s.Domain := "example.org";
     c2s.Resource := ""; c2s.JID := serverJID;
     c2s.IsSecured := true; c2s.IsAuthenticated := false;
     c2s.IsCompressed := false; c2s.Presence := None |}.

(** An authenticated stream of alice over a channel that is not secured. *)
Definition insecure : c2s.Stream :=
  {| c2s.ID := "stream-8"; c2s.Username := "alice";
     c2s.Domain := "example.org"; c2s.Resource := "web";
     c2s.JID := xml.NewJID "alice" "example.org" "web";
     c2s.IsSecured := false; c2s.IsAuthenticated := true;
     c2s.IsCompressed := false; c2s.Presence := None |}.

Definition textElement (name text : string) : xml.Element :=
  xml.NewElement name "" text [].

Definition registerQuery (fields : list xml.Element) : xml.Element :=
  xml.NewElement "query" registerNamespace "" fields.

Definition setIQ (id : string) (to : xml.JID) (fields : list xml.Element)
  : xml.IQ :=
  {| xml.IQID := id; xml.IQType := "set"; xml.IQFrom := serverJID;
     xml.IQTo := to; xml.IQElements := [registerQuery fields] |}.

Definition credentials (username password : string) : list xml.Element :=
  [textElement "username" username; textElement "password" password].

Definition noUsers : c2s_spec.MemStorage :=
  {| c2s_spec.users := []; c2s_spec.blockListItems := [] |}.


(** ** More vocabulary of the handler *)

(** [element] is a reply to [iq]: its error or its result. *)
Definition replyTo (iq : xml.IQ) (element : xml.XElement) : Prop :=
  match element with
  | xml.ErrorIQ iq' _ => iq' = iq
  | xml.ResultIQ iq' _ => iq' = iq
  | xml.StanzaElement _ => False
  end.

(** The handler answered [iq] once, on its own stream. *)
Definition answered (x : XEPRegister) (iq : xml.IQ)
    (evs : list c2s.Event) : Prop :=
  ∃ element, c2s.sends evs = [(stm x, element)] ∧ replyTo iq element.

(** The fields the handler asks for in its reply to an IQ get. *)
Definition registrationFields : xml.Element :=
  xml.NewElement "query" registerNamespace ""
    [xml.NewElementName "username"; xml.NewElementName "password"].

(** ** More data for the examples *)

Definition getIQ (id : string) (to : xml.JID) (fields : list xml.Element)
  : xml.IQ :=
  {| xml.IQID := id; xml.IQType := "get"; xml.IQFrom := serverJID;
     xml.IQTo := to; xml.IQElements := [registerQuery fields] |}.

(** An IQ set without query in the registration namespace. *)
Definition strayIQ : xml.IQ :=
  {| xml.IQID := "x-1"; xml.IQType := "set"; xml.IQFrom := serverJID;
     xml.IQTo := serverJID; xml.IQElements := [] |}.

(** A handler on alice's secured, authenticated stream. *)
Definition aliceHandler : XEPRegister :=
  {| cfg := allAllowed; stm := c2s_spec.phone; registered := false |}.

End xep0077_spec.

(** * Proofs: lifecycle of the session manager *)

Module c2s_lifecycle.

Import c2s c2s_spec.

Lemma removeResource_firstRemoved (res : string) (l : list Stream) :
  firstRemoved res l (removeResource res l).
Proof.
  induction l as [|x l IH]; simpl.
  - left. split; [|done]. intros x Hx. by apply elem_of_nil in Hx.
  - case_bool_decide as Hres.
    + right. exists [], x, l. repeat split; try done.
      intros y Hy. by apply elem_of_nil in Hy.
    + destruct IH as [[Hnone ->]|(l1 & y & l2 & -> & Hy & Hl1 & ->)].
      * left. split; [|done]. intros z Hz.
        apply elem_of_cons in Hz as [->|Hz]; [congruence|by apply Hnone].
      * right. exists (x :: l1), y, l2. repeat split; try done.
        intros z Hz.
        apply elem_of_cons in Hz as [->|Hz]; [congruence|by apply Hl1].
Qed.

Lemma removeResource_elem (res : string) (l : list Stream) (x : Stream) :
  x ∈ removeResource res l → x ∈ l.
Proof.
  induction l as [|y l IH]; simpl; [done|].
  case_bool_decide.
  - intros Hx. by apply elem_of_cons; right.
  - intros Hx. apply elem_of_cons in Hx as [->|Hx].
    + by apply elem_of_cons; left.
    + apply elem_of_cons; right. by apply IH.
Qed.

Lemma removeResource_NoDup (res : string) (l : list Stream) :
  NoDup (Resource <$> l) → NoDup (Resource <$> removeResource res l).
Proof.
  induction l as [|y l IH]; simpl; [done|].
  intros Hnd. apply NoDup_cons in Hnd as [Hy Hnd].
  case_bool_decide; [done|].
  rewrite fmap_cons. apply NoDup_cons. split; [|by apply IH].
  intros Hin. apply Hy.
  apply list_elem_of_fmap in Hin as (z & -> & Hz).
  apply list_elem_of_fmap. exists z. split; [done|].
  by eapply removeResource_elem.
Qed.

Lemma removeResource_gone (res : string) (l : list Stream) (x : Stream) :
  NoDup (Resource <$> l) → x ∈ removeResource res l → Resource x ≠ res.
Proof.
  induction l as [|y l IH]; simpl.
  - intros _ Hx. by apply elem_of_nil in Hx.
  - intros Hnd. apply NoDup_cons in Hnd as [Hy Hnd].
    case_bool_decide as Hres.
    + intros Hx Heq. apply Hy. apply list_elem_of_fmap.
      exists x. split; [congruence|done].
    + intros Hx. apply elem_of_cons in Hx as [->|Hx]; [congruence|].
      by apply IH.
Qed.


(** ** Failed calls change nothing *)

(** C9: when [RegisterStream], [UnregisterStream] or [AuthenticateStream]
    returns an error, the manager it leaves is the manager it found: the
    streams, the authenticated streams and the block lists are unchanged.
    The error is one of: invalid domain, stream already registered, stream
    not found, resource not yet assigned. *)
Theorem failed_call_changes_nothing (m m' : Manager) (c : Call) (e : error) :
  call m c = (Some e, m') →
  m' = m
  ∧ stms m' = stms m ∧ authedStms m' = authedStms m
  ∧ blockLists m' = blockLists m
  ∧ match c with
    | CallRegister s =>
        e = Errorf ("invalid domain: " +:+ Domain s)
        ∨ e = Errorf ("stream already registered: " +:+ ID s)
    | CallUnregister s => e = Errorf ("stream not found: " +:+ ID s)
    | CallAuthenticate s => e = Errorf ("resource not yet assigned: " +:+ ID s)
    end.
Proof.
  destruct c as [s|s|s]; simpl.
  - unfold RegisterStream.
    destruct (IsLocalDomain m (Domain s)); simpl.
    + destruct (stms m !! ID s); intros [= <- <-]; auto 10.
    + intros [= <- <-]; auto 10.
  - unfold UnregisterStream.
    destruct (stms m !! ID s); intros [= <- <-]; auto 10.
  - unfold AuthenticateStream.
    destruct (String.length (Resource s) =? 0)%nat; intros [= <- <-]; auto 10.
Qed.

Lemma failed_call_changes_nothing_witness :
  call (online [phone]) (CallRegister foreign)
    = (Some (Errorf "invalid domain: example.net"), online [phone])
  ∧ stms (online [phone]) = stms (online [phone]).
Proof.
  assert (H : call (online [phone]) (CallRegister foreign)
              = (Some (Errorf "invalid domain: example.net"), online [phone]))
    by reflexivity.
  split; [exact H|].
  exact (proj1 (proj2
    (failed_call_changes_nothing _ _ _ _ H))).
Defined.


(** ** What each call does to the authenticated streams *)

Lemma UnregisterStream_authed (m : Manager) (s : Stream) (u : string)
    (l : list Stream) :
  authedStms (UnregisterStream m s).2 !! u = Some l →
  (stms m !! ID s = None ∧ authedStms m !! u = Some l)
  ∨ (u ≠ Username s ∧ authedStms m !! u = Some l)
  ∨ (u = Username s ∧ is_Some (stms m !! ID s)
     ∧ ∃ l0, authedStms m !! u = Some l0
             ∧ l = removeResource (Resource s) l0).
Proof.
  unfold UnregisterStream.
  destruct (stms m !! ID s) as [s0|] eqn:Hid; simpl; [|by left].
  intros Hl. right.
  destruct (decide (u = Username s)) as [->|Hne].
  - right. split; [done|]. split; [done|].
    destruct (authedStms m !! Username s) as [l0|] eqn:Hu.
    + destruct (0 <? length (removeResource (Resource s) l0))%nat.
      * rewrite lookup_insert_eq in Hl. injection Hl as <-. eauto.
      * by rewrite lookup_delete_eq in Hl.
    + rewrite Hu in Hl. done.
  - left. split; [done|].
    destruct (authedStms m !! Username s) as [l0|] eqn:Hu; [|done].
    destruct (0 <? length (removeResource (Resource s) l0))%nat.
    + by rewrite lookup_insert_ne in Hl.
    + by rewrite lookup_delete_ne in Hl.
Qed.

Lemma AuthenticateStream_authed (m : Manager) (s : Stream) (u : string)
    (l : list Stream) :
  authedStms (AuthenticateStream m s).2 !! u = Some l →
  authedStms m !! u = Some l
  ∨ (u = Username s ∧ Resource s ≠ ""
     ∧ l = (default [] (authedStms m !! u) ++ [s])%list).
Proof.
  unfold AuthenticateStream.
  destruct (String.length (Resource s) =? 0)%nat eqn:Hlen; simpl; [by left|].
  assert (Resource s ≠ "") as Hres.
  { intros Heq. rewrite Heq in Hlen. discriminate. }
  destruct (decide (u = Username s)) as [->|Hne].
  - destruct (authedStms m !! Username s) as [l0|] eqn:Hu;
      rewrite lookup_insert_eq; intros [= <-]; right; done.
  - destruct (authedStms m !! Username s) as [l0|] eqn:Hu;
      rewrite lookup_insert_ne by done; by left.
Qed.

Lemma call_keeps_authedKeyed (m : Manager) (c : Call) :
  authedKeyed m → authedKeyed (call m c).2.
Proof.
  intros Hk u l x Hl Hx. destruct c as [s|s|s]; simpl in Hl.
  - unfold RegisterStream in Hl.
    destruct (IsLocalDomain m (Domain s)); simpl in Hl; [|by eapply Hk].
    destruct (stms m !! ID s); simpl in Hl; by eapply Hk.
  - apply UnregisterStream_authed
      in Hl as [[_ Hl]|[[_ Hl]|(-> & _ & l0 & Hl0 & ->)]].
    + by eapply Hk.
    + by eapply Hk.
    + eapply Hk; [done|]. by eapply removeResource_elem.
  - apply AuthenticateStream_authed in Hl as [Hl|(-> & Hres & ->)].
    + by eapply Hk.
    + apply elem_of_app in Hx as [Hx|Hx].
      * destruct (authedStms m !! Username s) as [l0|] eqn:Hu; simpl in Hx.
        -- by eapply Hk.
        -- by apply elem_of_nil in Hx.
      * apply list_elem_of_singleton in Hx as ->. done.
Qed.

Lemma run_keeps_authedKeyed (m : Manager) (cs : list Call) :
  authedKeyed m → authedKeyed (run m cs).
Proof.
  revert m. induction cs as [|c cs IH]; intros m Hk; [done|].
  apply (IH (call m c).2). by apply call_keeps_authedKeyed.
Qed.

Lemma Initialize_authedKeyed (c : Config) : authedKeyed (Initialize c).
Proof. intros u l x Hl. simpl in Hl. by rewrite lookup_empty in Hl. Qed.


Lemma call_keeps_registered (m : Manager) (c : Call) :
  authedKeyed m → authedInStreams m → resourcesUnique m → disciplined m c →
  authedInStreams (call m c).2 ∧ resourcesUnique (call m c).2.
Proof.
  intros Hk Hr Hu Hd. destruct c as [s|s|s]; simpl in *.
  - unfold RegisterStream.
    destruct (IsLocalDomain m (Domain s)); simpl; [|done].
    destruct (stms m !! ID s) as [s0|] eqn:Hid; simpl; [done|].
    split; [|done]. intros u l x Hl Hx. simpl in *.
    destruct (decide (ID s = ID x)) as [Heq|Hne].
    + rewrite Heq, lookup_insert_eq. by eexists.
    + rewrite lookup_insert_ne by done. by eapply Hr.
  - split.
    + intros u l x Hl Hx.
      apply UnregisterStream_authed
        in Hl as [[Hid Hl]|[[Hne Hl]|(-> & [s0 Hid] & l0 & Hl0 & ->)]].
      * unfold UnregisterStream. rewrite Hid. simpl. by eapply Hr.
      * pose proof (Hr u l x Hl Hx) as Hreg.
        unfold UnregisterStream.
        destruct (stms m !! ID s) as [s0|] eqn:Hid; simpl; [|done].
        rewrite lookup_delete_ne; [done|]. intros Heq.
        destruct (Hd u l x Hl Hx (eq_sym Heq)) as [Huser _].
        apply Hne. rewrite <- Huser. symmetry. by eapply Hk.
      * pose proof (removeResource_elem _ _ _ Hx) as Hx0.
        pose proof (Hr _ _ _ Hl0 Hx0) as Hreg.
        unfold UnregisterStream. rewrite Hid. simpl.
        rewrite lookup_delete_ne; [done|]. intros Heq.
        destruct (Hd _ l0 x Hl0 Hx0 (eq_sym Heq)) as [_ Hres].
        by eapply (removeResource_gone (Resource s) l0 x); [eapply Hu|..].
    + intros u l Hl.
      apply UnregisterStream_authed
        in Hl as [[_ Hl]|[[_ Hl]|(-> & _ & l0 & Hl0 & ->)]].
      * by eapply Hu.
      * by eapply Hu.
      * apply removeResource_NoDup. by eapply Hu.
  - assert (stms (AuthenticateStream m s).2 = stms m) as Hst.
    { unfold AuthenticateStream.
      by destruct (String.length (Resource s) =? 0)%nat. }
    split.
    + intros u l x Hl Hx. rewrite Hst.
      apply AuthenticateStream_authed in Hl as [Hl|(-> & Hres & ->)].
      * by eapply Hr.
      * destruct Hd as [Hd|[Hreg Hfree]]; [done|].
        apply elem_of_app in Hx as [Hx|Hx].
        -- destruct (authedStms m !! Username s) as [l0|] eqn:Hl0;
             simpl in Hx; [by eapply Hr|by apply elem_of_nil in Hx].
        -- by apply list_elem_of_singleton in Hx as ->.
    + intros u l Hl.
      apply AuthenticateStream_authed in Hl as [Hl|(-> & Hres & ->)].
      * by eapply Hu.
      * destruct Hd as [Hd|[Hreg Hfree]]; [done|].
        rewrite fmap_app. apply NoDup_app. split; [|split].
        -- destruct (authedStms m !! Username s) as [l0|] eqn:Hl0; simpl;
             [by eapply Hu|apply NoDup_nil_2].
        -- intros r Hr1 Hr2. simpl in Hr2.
           apply list_elem_of_singleton in Hr2 as ->.
           destruct (authedStms m !! Username s) as [l0|] eqn:Hl0;
             simpl in Hr1; [by eapply Hfree|by apply elem_of_nil in Hr1].
        -- simpl. apply NoDup_singleton.
Qed.

Lemma run_keeps_registered (m : Manager) (cs : list Call) :
  authedKeyed m → authedInStreams m → resourcesUnique m →
  disciplinedRun m cs →
  authedInStreams (run m cs) ∧ resourcesUnique (run m cs).
Proof.
  revert m. induction cs as [|c cs IH]; intros m Hk Hr Hu Hd; [done|].
  destruct Hd as [Hc Hcs].
  destruct (call_keeps_registered m c Hk Hr Hu Hc) as [Hr' Hu'].
  apply (IH (call m c).2); auto using call_keeps_authedKeyed.
Qed.

Lemma Initialize_registered (c : Config) :
  authedInStreams (Initialize c) ∧ resourcesUnique (Initialize c).
Proof.
  split.
  - intros u l x Hl. simpl in Hl. by rewrite lookup_empty in Hl.
  - intros u l Hl. simpl in Hl. by rewrite lookup_empty in Hl.
Qed.


(** ** The invariant of the session manager *)

(** C8, as stated, fails: [AuthenticateStream] does not look at the streams
    map, so a stream that was never registered enters [authed] and the
    invariant's last clause is false in the state reached. *)
Lemma invariant_broken_by_unregistered_stream :
  ¬ invariant (run (Initialize exampleConfig) [CallAuthenticate phone]).
Proof.
  intros [_ Hin].
  destruct (Hin "alice" [phone] phone) as [s Hs].
  - reflexivity.
  - apply list_elem_of_singleton. reflexivity.
  - simpl in Hs. by rewrite lookup_empty in Hs.
Qed.

(** C8, amended: in every state that a sequence of [RegisterStream],
    [AuthenticateStream] and [UnregisterStream] calls reaches from the
    initial manager, every element of [authed[u]] has username [u] and a
    non-empty resource.  That it still appears in the streams map holds
    for the sequences in which callers authenticate a stream only while it
    is registered and with a resource no authenticated stream of the user
    holds, and unregister an authenticated stream with the username and
    resource it was authenticated with.  A stream may get its username and
    resource between [RegisterStream] and [AuthenticateStream]. *)
Theorem lifecycle_invariant (c : Config) (cs : list Call) :
  authedKeyed (run (Initialize c) cs)
  ∧ (disciplinedRun (Initialize c) cs → invariant (run (Initialize c) cs)).
Proof.
  pose proof (run_keeps_authedKeyed _ cs (Initialize_authedKeyed c)) as Hk.
  split; [done|]. intros Hd. split; [done|].
  destruct (Initialize_registered c) as [Hr Hu].
  by destruct (run_keeps_registered _ cs (Initialize_authedKeyed c) Hr Hu Hd).
Qed.

Lemma lifecycle_invariant_witness :
  invariant (run (Initialize exampleConfig)
               [CallRegister (unbound "stream-1"); CallAuthenticate phone;
                CallRegister (unbound "stream-2"); CallAuthenticate laptop;
                CallUnregister (aliceStream "stream-1" "phone" None)])
  ∧ authedStms (run (Initialize exampleConfig)
               [CallRegister (unbound "stream-1"); CallAuthenticate phone;
                CallRegister (unbound "stream-2"); CallAuthenticate laptop;
                CallUnregister (aliceStream "stream-1" "phone" None)])
    = {[ "alice" := [laptop] ]}.
Proof.
  split; [|reflexivity].
  apply (lifecycle_invariant exampleConfig
           [CallRegister (unbound "stream-1"); CallAuthenticate phone;
            CallRegister (unbound "stream-2"); CallAuthenticate laptop;
            CallUnregister (aliceStream "stream-1" "phone" None)]).
  simpl. split; [exact I|]. split; [|split; [exact I|split; [|split]]].
  - right. split; [eexists; reflexivity|].
    intros l Hl. vm_compute in Hl. discriminate.
  - right. split; [eexists; reflexivity|].
    intros l Hl. vm_compute in Hl. injection Hl as <-.
    vm_compute. intros Hin. apply list_elem_of_singleton in Hin.
    discriminate.
  - intros u l x Hl Hx Hid.
    match type of Hl with
    | ?authed !! _ = _ =>
        assert (authed = {[ "alice" := [phone; laptop] ]}) as Hauthed
          by reflexivity
    end.
    rewrite Hauthed in Hl. apply lookup_singleton_Some in Hl as [<- <-].
    apply elem_of_cons in Hx as [->|Hx]; [done|].
    apply list_elem_of_singleton in Hx as ->. discriminate.
  - exact I.
Defined.

(** ** UnregisterStream *)

(** C3, as stated, fails in its last clause: after a stream was
    authenticated twice, a successful [UnregisterStream] removes one of its
    two entries and the stream is still in [authed]. *)
Lemma unregistered_stream_still_authed :
  ∃ m', UnregisterStream authenticatedTwice phone = (None, m')
        ∧ stms m' !! ID phone = None
        ∧ ∃ u l, authedStms m' !! u = Some l ∧ phone ∈ l.
Proof.
  eexists. split; [reflexivity|]. split; [reflexivity|].
  exists "alice", [phone]. split; [reflexivity|].
  apply list_elem_of_singleton. reflexivity.
Qed.

(** C3, amended: [UnregisterStream s] fails with "stream not found" and
    changes nothing when [s.ID()] is not in streams.  Otherwise it succeeds;
    it removes from [authed[s.Username()]] the first element whose resource
    equals [s.Resource()] (if any), deletes that key when the list becomes
    empty, leaves the other keys alone, and deletes [streams[s.ID()]], so
    that [s.ID()] is absent from streams.  [s] is then absent from every
    authed list provided that, before the call, every element of
    [authed[u]] has username [u] and no two elements of an authed list
    share a resource. *)
Theorem UnregisterStream_spec (m : Manager) (s : Stream) :
  (stms m !! ID s = None →
     UnregisterStream m s
       = (Some (Errorf ("stream not found: " +:+ ID s)), m))
  ∧ (is_Some (stms m !! ID s) →
     ∃ m', UnregisterStream m s = (None, m')
       ∧ cfg m' = cfg m ∧ blockLists m' = blockLists m
       ∧ stms m' = delete (ID s) (stms m)
       ∧ stms m' !! ID s = None
       ∧ (∀ u, u ≠ Username s → authedStms m' !! u = authedStms m !! u)
       ∧ (authedStms m !! Username s = None →
            authedStms m' !! Username s = None)
       ∧ (∀ l, authedStms m !! Username s = Some l →
            ∃ l', firstRemoved (Resource s) l l'
              ∧ authedStms m' !! Username s
                = (if l' is [] then None else Some l'))
       ∧ (authedKeyed m → resourcesUnique m →
            ∀ u l, authedStms m' !! u = Some l → s ∉ l)).
Proof.
  split.
  - intros Hid. unfold UnregisterStream. by rewrite Hid.
  - intros [s0 Hid]. eexists. split.
    { unfold UnregisterStream. rewrite Hid. reflexivity. }
    simpl. repeat split.
    + apply lookup_delete_eq.
    + intros u Hne.
      destruct (authedStms m !! Username s) as [l0|] eqn:Hl0; [|done].
      destruct (0 <? length (removeResource (Resource s) l0))%nat.
      * by rewrite lookup_insert_ne.
      * by rewrite lookup_delete_ne.
    + intros Hnone. by rewrite Hnone.
    + intros l Hl. rewrite Hl. exists (removeResource (Resource s) l).
      split; [apply removeResource_firstRemoved|].
      destruct (removeResource (Resource s) l) as [|y l']; simpl.
      * apply lookup_delete_eq.
      * apply lookup_insert_eq.
    + intros Hk Hu u l Hl Hs.
      assert (authedStms (UnregisterStream m s).2 !! u = Some l) as Hl'.
      { unfold UnregisterStream. rewrite Hid. exact Hl. }
      apply UnregisterStream_authed
        in Hl' as [[Hnone _]|[[Hne Hl']|(-> & _ & l0 & Hl0 & ->)]].
      * congruence.
      * apply Hne. symmetry. by eapply Hk.
      * by eapply (removeResource_gone (Resource s) l0 s); [eapply Hu|..].
Qed.

Lemma UnregisterStream_spec_witness :
  ∃ m', UnregisterStream (online [phone; laptop]) phone = (None, m')
        ∧ ∀ u l, authedStms m' !! u = Some l → phone ∉ l.
Proof.
  assert (disciplinedRun (Initialize exampleConfig)
            [CallRegister phone; CallRegister laptop;
             CallAuthenticate phone; CallAuthenticate laptop]) as Hd.
  { simpl. split; [exact I|]. split; [exact I|]. split; [|split; [|exact I]].
    - right. split; [eexists; reflexivity|].
      intros l Hl. vm_compute in Hl. discriminate.
    - right. split; [eexists; reflexivity|].
      intros l Hl. vm_compute in Hl. injection Hl as <-.
      vm_compute. intros Hin. apply list_elem_of_singleton in Hin.
      discriminate. }
  destruct (Initialize_registered exampleConfig) as [Hr Hu].
  destruct (run_keeps_registered _ _
              (Initialize_authedKeyed exampleConfig) Hr Hu Hd) as [_ Huniq].
  pose proof (run_keeps_authedKeyed _
                [CallRegister phone; CallRegister laptop;
                 CallAuthenticate phone; CallAuthenticate laptop]
                (Initialize_authedKeyed exampleConfig)) as Hkeyed.
  destruct (proj2 (UnregisterStream_spec (online [phone; laptop]) phone))
    as (m' & Hm' & _ & _ & _ & _ & _ & _ & _ & Habsent).
  - eexists. reflexivity.
  - exists m'. split; [exact Hm'|]. exact (Habsent Hkeyed Huniq).
Defined.

End c2s_lifecycle.

(** * Proofs: block lists and routing *)

Module c2s_routing.

Import c2s c2s_spec.

(** ** Matching against a block-list entry *)

Lemma Matches_node_domain_resource (j e : xml.JID) :
  xml.Matches j e
    (Z.lor (Z.lor xml.JIDMatchesNode xml.JIDMatchesDomain)
           xml.JIDMatchesResource) = true
  ↔ xml.Node j = xml.Node e ∧ xml.Domain j = xml.Domain e
    ∧ xml.Resource j = xml.Resource e.
Proof.
  unfold xml.Matches. simpl.
  repeat case_bool_decide; simpl; intuition congruence.
Qed.

Lemma Matches_domain_resource (j e : xml.JID) :
  xml.Matches j e (Z.lor xml.JIDMatchesDomain xml.JIDMatchesResource) = true
  ↔ xml.Domain j = xml.Domain e ∧ xml.Resource j = xml.Resource e.
Proof.
  unfold xml.Matches. simpl.
  repeat case_bool_decide; simpl; intuition congruence.
Qed.

Lemma Matches_node_domain (j e : xml.JID) :
  xml.Matches j e (Z.lor xml.JIDMatchesNode xml.JIDMatchesDomain) = true
  ↔ xml.Node j = xml.Node e ∧ xml.Domain j = xml.Domain e.
Proof.
  unfold xml.Matches. simpl.
  repeat case_bool_decide; simpl; intuition congruence.
Qed.

Lemma Matches_domain (j e : xml.JID) :
  xml.Matches j e xml.JIDMatchesDomain = true ↔ xml.Domain j = xml.Domain e.
Proof.
  unfold xml.Matches. simpl.
  repeat case_bool_decide; simpl; intuition congruence.
Qed.

Lemma jidMatchesBlockedJID_entryMatches (jid blockedJID : xml.JID) :
  jidMatchesBlockedJID jid blockedJID = true ↔ entryMatches blockedJID jid.
Proof.
  unfold jidMatchesBlockedJID, entryMatches, shape.
  unfold xml.IsFullWithUser, xml.IsFullWithServer, xml.IsBare, xml.isEmpty.
  destruct (bool_decide (xml.Node blockedJID = ""));
    destruct (bool_decide (xml.Resource blockedJID = "")); simpl.
  - apply Matches_domain.
  - apply Matches_domain_resource.
  - apply Matches_node_domain.
  - apply Matches_node_domain_resource.
Qed.

Lemma anyBlocked_entryMatches (jid : xml.JID) (bl : list xml.JID) :
  anyBlocked jid bl = true ↔ ∃ entry, entry ∈ bl ∧ entryMatches entry jid.
Proof.
  induction bl as [|e bl IH]; simpl.
  - split; [done|]. intros (entry & Hin & _). by apply elem_of_nil in Hin.
  - destruct (jidMatchesBlockedJID jid e) eqn:He.
    + split; [|done]. intros _. exists e. split; [by left|].
      by apply jidMatchesBlockedJID_entryMatches.
    + rewrite IH. split.
      * intros (entry & Hin & Hm). exists entry. split; [by right|done].
      * intros (entry & Hin & Hm).
        apply elem_of_cons in Hin as [->|Hin]; [|by eauto].
        apply jidMatchesBlockedJID_entryMatches in Hm. congruence.
Qed.


(** ** The steps of [route] *)

Section Routing.

Context {St : Type} `{!storage.Storage St}.
Variable NewJIDString : string → xml.JID.
Variable rangeKeys : gmap string (list Stream) → list string.

Lemma getBlockList_blockListOf (m : Manager) (username : string) (st : St) :
  ∃ m' evs,
    getBlockList NewJIDString m username st
      = ((blockListOf NewJIDString m username st, m'),
         match blockLists m !! username with
         | Some _ => st
         | None => (storage.FetchBlockListItems username st).2
         end, evs)
    ∧ sameButBlockLists m m' ∧ sends evs = [].
Proof.
  unfold getBlockList, blockListOf.
  destruct (blockLists m !! username) as [bl|] eqn:Hbl.
  - exists m, []. done.
  - unfold mbind, Eff_bind, fetchBlockListItems.
    destruct (storage.FetchBlockListItems username st)
      as [[blItms [err|]] st'] eqn:Hfetch; simpl.
    + eexists _, _. done.
    + eexists _, _. done.
Qed.

Lemma blockStep_result (m : Manager) (elem : xml.Stanza)
    (ignoreBlocking : bool) (st : St) :
  ∃ m' evs,
    blockStep NewJIDString m elem ignoreBlocking st
      = ((negb ignoreBlocking && negb (xml.IsServer (xml.ToJID elem))
          && anyBlocked (xml.FromJID elem)
               (blockListOf NewJIDString m (xml.Node (xml.ToJID elem)) st),
          m'),
         storageAfterBlockStep m elem ignoreBlocking st, evs)
    ∧ sameButBlockLists m m' ∧ sends evs = []
    ∧ (negb ignoreBlocking && negb (xml.IsServer (xml.ToJID elem)) = false →
       m' = m ∧ evs = []).
Proof.
  unfold blockStep, storageAfterBlockStep.
  destruct (negb ignoreBlocking && negb (xml.IsServer (xml.ToJID elem)));
    simpl.
  - destruct (getBlockList_blockListOf m (xml.Node (xml.ToJID elem)) st)
      as (m' & evs & Hget & Hsame & Hsends).
    exists m', (evs ++ [])%list. unfold IsBlockedJID, mbind, Eff_bind.
    rewrite Hget. simpl. rewrite app_nil_r. done.
  - exists m, []. done.
Qed.

Lemma route_steps (m : Manager) (elem : xml.Stanza) (ignoreBlocking : bool)
    (st : St) :
  route NewJIDString rangeKeys m elem ignoreBlocking st
  = if negb (IsLocalDomain m (xml.Domain (xml.ToJID elem)))
    then ((None, m), st, [])
    else
      let '((blocked, m1), st1, evs1) :=
        blockStep NewJIDString m elem ignoreBlocking st in
      if blocked : bool then ((Some ErrBlockedJID, m1), st1, (evs1 ++ [])%list)
      else
        let '(r, st2, evs2) := deliver rangeKeys m1 elem st1 in
        ((r, m1), st2, (evs1 ++ evs2)%list).
Proof.
  unfold route, blockStep.
  destruct (negb (IsLocalDomain m (xml.Domain (xml.ToJID elem)))); [done|].
  unfold mbind at 1. unfold Eff_bind at 1.
  destruct ((if negb ignoreBlocking && negb (xml.IsServer (xml.ToJID elem))
             then IsBlockedJID NewJIDString m (xml.FromJID elem)
                    (xml.Node (xml.ToJID elem))
             else mret (false, m)) st) as [[[blocked m1] st1] evs1].
  destruct blocked; [done|].
  unfold deliver.
  destruct (StreamsMatchingJID rangeKeys m1 (xml.ToBareJID (xml.ToJID elem)))
    as [|rcp0 rcps'].
  - unfold mbind, Eff_bind, userExists.
    destruct (storage.UserExists (xml.Node (xml.ToJID elem)) st1)
      as [[exists_ [err|]] st2]; simpl; [done|].
    by destruct exists_.
  - destruct (xml.IsFullWithUser (xml.ToJID elem)).
    + unfold mbind, Eff_bind.
      destruct (sendToResource elem (xml.Resource (xml.ToJID elem))
                  (rcp0 :: rcps') st1) as [[r st2] evs2].
      simpl. by rewrite app_nil_r.
    + destruct (xml.Kind elem); unfold effectivePriority.
      * unfold mbind, Eff_bind, sendElement. simpl. done.
      * unfold mbind, Eff_bind.
        destruct (broadcast elem (rcp0 :: rcps') st1) as [[[] st2] evs2].
        simpl. by rewrite app_nil_r.
      * unfold mbind, Eff_bind.
        destruct (broadcast elem (rcp0 :: rcps') st1) as [[[] st2] evs2].
        simpl. by rewrite app_nil_r.
Qed.


(** ** Recipient resolution reads the configuration and [authed] only *)

Lemma StreamsMatchingJID_same (m1 m2 : Manager) (jid : xml.JID) :
  sameButBlockLists m1 m2 →
  StreamsMatchingJID rangeKeys m1 jid = StreamsMatchingJID rangeKeys m2 jid.
Proof.
  intros (Hcfg & _ & Hauthed).
  unfold StreamsMatchingJID, IsLocalDomain. by rewrite Hcfg, Hauthed.
Qed.

Lemma deliver_same (m1 m2 : Manager) (elem : xml.Stanza) (st : St) :
  sameButBlockLists m1 m2 →
  deliver rangeKeys m1 elem st = deliver rangeKeys m2 elem st.
Proof.
  intros Hsame. unfold deliver.
  by rewrite (StreamsMatchingJID_same m1 m2 _ Hsame).
Qed.

Lemma IsLocalDomain_same (m1 m2 : Manager) (domain : string) :
  sameButBlockLists m1 m2 → IsLocalDomain m1 domain = IsLocalDomain m2 domain.
Proof. intros (Hcfg & _). unfold IsLocalDomain. by rewrite Hcfg. Qed.

(** ** The cases of delivery *)

Lemma deliver_no_recipient (m : Manager) (elem : xml.Stanza) (st : St) :
  StreamsMatchingJID rangeKeys m (xml.ToBareJID (xml.ToJID elem)) = [] →
  deliver rangeKeys m elem st
  = (Some (noRecipientError
             (storage.UserExists (xml.Node (xml.ToJID elem)) st).1),
     (storage.UserExists (xml.Node (xml.ToJID elem)) st).2,
     [CallUserExists (xml.Node (xml.ToJID elem))]).
Proof.
  intros Hnone. unfold deliver. rewrite Hnone.
  unfold mbind, Eff_bind, userExists.
  by destruct (storage.UserExists (xml.Node (xml.ToJID elem)) st)
    as [r st'].
Qed.

Lemma deliver_message (m : Manager) (elem : xml.Stanza) (st : St)
    (rcp0 : Stream) (rcps' : list Stream) :
  StreamsMatchingJID rangeKeys m (xml.ToBareJID (xml.ToJID elem))
    = rcp0 :: rcps' →
  xml.IsFullWithUser (xml.ToJID elem) = false →
  xml.Kind elem = xml.Message →
  deliver rangeKeys m elem st
  = (None, st,
     [SendElement (highestPriorityStream rcp0 (effectivePriority rcp0) rcps')
        (xml.StanzaElement elem)]).
Proof.
  intros Hrcps Hfull Hkind. unfold deliver.
  by rewrite Hrcps, Hfull, Hkind.
Qed.

Lemma sendToResource_sends (elem : xml.Stanza) (res : string)
    (rcps : list Stream) (st : St) :
  ∃ r evs,
    sendToResource elem res rcps st = (r, st, evs)
    ∧ ((r = Some ErrResourceNotFound ∧ evs = []
        ∧ ∀ rcp, rcp ∈ rcps → Resource rcp ≠ res)
       ∨ (∃ rcp, r = None ∧ rcp ∈ rcps ∧ Resource rcp = res
            ∧ evs = [SendElement rcp (xml.StanzaElement elem)])).
Proof.
  induction rcps as [|stm rcps IH]; simpl.
  - eexists _, _. split; [done|]. left. repeat split.
    intros rcp Hin. by apply elem_of_nil in Hin.
  - case_bool_decide as Hres.
    + eexists _, _. split; [done|]. right. exists stm.
      repeat split; [by left|done].
    + destruct IH as (r & evs & -> & [(-> & -> & Hnone)|(rcp & -> & Hin & Hr & ->)]).
      * eexists _, _. split; [done|]. left. repeat split.
        intros rcp Hin.
        apply elem_of_cons in Hin as [->|Hin]; [done|by apply Hnone].
      * eexists _, _. split; [done|]. right. exists rcp.
        repeat split; [by right|done].
Qed.

Lemma broadcast_sends (elem : xml.Stanza) (rcps : list Stream) (st : St) :
  ∃ evs,
    broadcast elem rcps st = (tt, st, evs)
    ∧ sends evs = (λ stm, (stm, xml.StanzaElement elem)) <$> rcps
    ∧ storageCalls evs = [].
Proof.
  induction rcps as [|stm rcps IH]; simpl.
  - by exists [].
  - destruct IH as (evs & Hb & Hs & Hc).
    unfold mbind, Eff_bind, sendElement. rewrite Hb. simpl.
    eexists. split; [done|]. simpl. by rewrite Hs.
Qed.

Lemma highestPriorityStream_elem (stm : Stream) (hp : Z)
    (rcps : list Stream) :
  highestPriorityStream stm hp rcps ∈ stm :: rcps.
Proof.
  revert stm hp. induction rcps as [|rcp rcps IH]; intros stm hp; simpl.
  - by left.
  - destruct (Presence rcp) as [p|].
    + destruct (xml.Priority p >? hp)%Z.
      * right. apply IH.
      * specialize (IH stm hp).
        apply elem_of_cons in IH as [->|IH]; [by left|by right; right].
    + specialize (IH stm hp).
      apply elem_of_cons in IH as [->|IH]; [by left|by right; right].
Qed.

(** With a recipient, [deliver] leaves the storage alone and sends the
    stanza: to the recipient with the resource, to the selected recipient,
    or to all of them. *)
Lemma deliver_recipients (m : Manager) (elem : xml.Stanza) (st : St)
    (rcp0 : Stream) (rcps' : list Stream) :
  StreamsMatchingJID rangeKeys m (xml.ToBareJID (xml.ToJID elem))
    = rcp0 :: rcps' →
  ∃ r evs,
    deliver rangeKeys m elem st = (r, st, evs)
    ∧ storageCalls evs = []
    ∧ if xml.IsFullWithUser (xml.ToJID elem) then
        (r = Some ErrResourceNotFound ∧ evs = []
         ∧ ∀ rcp, rcp ∈ rcp0 :: rcps' →
             Resource rcp ≠ xml.Resource (xml.ToJID elem))
        ∨ (∃ rcp, r = None ∧ rcp ∈ rcp0 :: rcps'
             ∧ Resource rcp = xml.Resource (xml.ToJID elem)
             ∧ evs = [SendElement rcp (xml.StanzaElement elem)])
      else
        r = None
        ∧ sends evs
          = match xml.Kind elem with
            | xml.Message =>
                [(highestPriorityStream rcp0 (effectivePriority rcp0) rcps',
                  xml.StanzaElement elem)]
            | _ => (λ stm, (stm, xml.StanzaElement elem)) <$> rcp0 :: rcps'
            end.
Proof.
  intros Hrcps. unfold deliver. rewrite Hrcps.
  destruct (xml.IsFullWithUser (xml.ToJID elem)).
  - destruct (sendToResource_sends elem (xml.Resource (xml.ToJID elem))
                (rcp0 :: rcps') st)
      as (r & evs & -> & [(-> & -> & Hnone)|(rcp & -> & Hin & Hres & ->)]).
    + eexists _, _. split; [done|]. split; [done|]. by left.
    + eexists _, _. split; [done|]. split; [done|]. right. by exists rcp.
  - assert (∃ evs, (broadcast elem (rcp0 :: rcps')
                      ≫= λ _, mret (None : option error)) st
                   = (None, st, evs)
              ∧ storageCalls evs = []
              ∧ sends evs
                = (λ stm, (stm, xml.StanzaElement elem)) <$> rcp0 :: rcps')
      as (evsB & HB & HBc & HBs).
    { destruct (broadcast_sends elem (rcp0 :: rcps') st) as (evs & Hb & Hs & Hc).
      unfold mbind, Eff_bind. rewrite Hb. simpl.
      eexists. split; [done|]. by rewrite app_nil_r. }
    destruct (xml.Kind elem).
    + eexists _, _. split; [done|]. done.
    + eexists _, _. split; [exact HB|]. done.
    + eexists _, _. split; [exact HB|]. done.
Qed.



(** ** The selection of the message branch *)

Lemma selected_snoc_new (seen : list Stream) (stm rcp : Stream) (i : nat)
    (p : xml.Presence) :
  seen ≠ [] → selected seen stm i → Presence rcp = Some p →
  (effectivePriority stm < xml.Priority p)%Z →
  selected (seen ++ [rcp])%list rcp (length seen).
Proof.
  intros Hne (Hi & Hc & Hmax & Hfirst) Hp Hgt.
  assert (effectivePriority rcp = xml.Priority p) as Heff
    by (unfold effectivePriority; by rewrite Hp).
  repeat split.
  - apply lookup_snoc_Some. right. done.
  - right. by rewrite Hp.
  - intros j r Hj Hcj. apply lookup_snoc_Some in Hj as [[Hlt Hj]|[_ <-]].
    + specialize (Hmax j r Hj Hcj). lia.
    + lia.
  - intros j r Hlt Hj Hcj. apply lookup_snoc_Some in Hj as [[_ Hj]|[-> _]].
    + specialize (Hmax j r Hj Hcj). lia.
    + lia.
Qed.

Lemma selected_snoc_keep (seen : list Stream) (stm rcp : Stream) (i : nat) :
  seen ≠ [] → selected seen stm i →
  (Presence rcp = None
   ∨ (effectivePriority rcp ≤ effectivePriority stm)%Z) →
  selected (seen ++ [rcp])%list stm i.
Proof.
  intros Hne (Hi & Hc & Hmax & Hfirst) Hkeep.
  pose proof (lookup_lt_Some _ _ _ Hi) as Hlen.
  repeat split.
  - apply lookup_snoc_Some. left. done.
  - done.
  - intros j r Hj Hcj. apply lookup_snoc_Some in Hj as [[Hlt Hj]|[-> <-]].
    + by apply (Hmax j r).
    + destruct Hkeep as [Hnone|Hle]; [|done].
      destruct Hcj as [Hz|Hpres]; [|done].
      destruct seen; [done|]. simpl in Hz. lia.
  - intros j r Hlt Hj Hcj. apply lookup_snoc_Some in Hj as [[_ Hj]|[-> _]].
    + by apply (Hfirst j r).
    + lia.
Qed.

Lemma highestPriorityStream_selected (rcps seen : list Stream)
    (stm : Stream) (i : nat) :
  seen ≠ [] → selected seen stm i →
  ∃ i', selected (seen ++ rcps)%list
          (highestPriorityStream stm (effectivePriority stm) rcps) i'.
Proof.
  revert seen stm i.
  induction rcps as [|rcp rcps IH]; intros seen stm i Hne Hsel; simpl.
  - rewrite app_nil_r. by exists i.
  - assert ((seen ++ [rcp])%list ≠ []) as Hne' by (by destruct seen).
    rewrite (cons_middle rcp seen rcps), app_assoc.
    destruct (Presence rcp) as [p|] eqn:Hp.
    + destruct (Z.gtb_spec (xml.Priority p) (effectivePriority stm))
        as [Hgt|Hle].
      * assert (xml.Priority p = effectivePriority rcp) as Heq
          by (unfold effectivePriority; by rewrite Hp).
        rewrite Heq. apply (IH _ _ (length seen) Hne').
        eapply selected_snoc_new; [done..|lia].
      * apply (IH _ _ i Hne'). apply selected_snoc_keep; [done..|].
        right. unfold effectivePriority at 1. by rewrite Hp.
    + apply (IH _ _ i Hne'). apply selected_snoc_keep; [done..|]. by left.
Qed.

Lemma first_selected (rcp0 : Stream) : selected [rcp0] rcp0 0.
Proof.
  repeat split.
  - by left.
  - intros j r Hj _. apply list_lookup_singleton_Some in Hj as [_ <-]. lia.
  - intros j r Hlt. lia.
Qed.

(** The stream the message branch sends to. *)
Lemma message_recipient_selected (rcp0 : Stream) (rcps' : list Stream) :
  ∃ i, selected (rcp0 :: rcps')
         (highestPriorityStream rcp0 (effectivePriority rcp0) rcps') i.
Proof.
  apply (highestPriorityStream_selected rcps' [rcp0] rcp0 0); [done|].
  apply first_selected.
Qed.

(** When the first recipient counts with a priority of 0 or more, or every
    later recipient has a presence, the selected stream is the first of
    highest effective priority among all recipients. *)
Lemma selected_highestOfAll (rcp0 : Stream) (rcps' : list Stream)
    (stm : Stream) (i : nat) :
  selected (rcp0 :: rcps') stm i →
  (0 ≤ effectivePriority rcp0)%Z ∨ Forall (λ r, Presence r ≠ None) rcps' →
  highestOfAll (rcp0 :: rcps') stm i.
Proof.
  intros (Hi & Hc & Hmax & Hfirst) Hcond.
  assert (∀ j r, (rcp0 :: rcps') !! j = Some r → ¬ considered j r →
            (0 ≤ effectivePriority rcp0)%Z ∧ effectivePriority r = 0%Z
            ∧ j ≠ 0%nat) as Hrest.
  { intros j r Hj Hnc.
    assert (j ≠ 0%nat) as Hj0 by (intros ->; apply Hnc; by left).
    assert (Presence r = None) as Hnone.
    { destruct (Presence r) eqn:Hp; [|done]. exfalso. apply Hnc. right.
      by rewrite Hp. }
    destruct Hcond as [Hpos|Hall].
    - split; [done|]. split; [|done]. unfold effectivePriority.
      by rewrite Hnone.
    - exfalso. destruct j as [|j]; [done|]. simpl in Hj.
      rewrite Forall_lookup in Hall. by apply (Hall j r Hj). }
  assert (∀ j r, Decision (considered j r)) as Hdec.
  { intros j r. unfold considered. apply _. }
  split; [done|]. split.
  - intros j r Hj. destruct (Hdec j r) as [Hcj|Hncj]; [by apply (Hmax j r)|].
    destruct (Hrest j r Hj Hncj) as (Hpos & -> & _).
    specialize (Hmax 0%nat rcp0 eq_refl (or_introl eq_refl)). lia.
  - intros j r Hlt Hj.
    destruct (Hdec j r) as [Hcj|Hncj]; [by apply (Hfirst j r)|].
    destruct (Hrest j r Hj Hncj) as (Hpos & -> & Hj0).
    assert (0 < i)%nat as Hi0 by lia.
    specialize (Hfirst 0%nat rcp0 Hi0 eq_refl (or_introl eq_refl)). lia.
Qed.


(** ** The block list *)

Lemma IsBlockedJID_result (m : Manager) (jid : xml.JID) (username : string)
    (st : St) :
  (IsBlockedJID NewJIDString m jid username st).1.1.1
  = anyBlocked jid (blockListOf NewJIDString m username st).
Proof.
  destruct (getBlockList_blockListOf m username st)
    as (m' & evs & Hget & _ & _).
  unfold IsBlockedJID, mbind, Eff_bind. by rewrite Hget.
Qed.

(** C4: [IsBlockedJID j u] returns true exactly when some entry of [u]'s
    block list matches [j] on the components its shape prescribes: node,
    domain and resource for a full-with-user entry; domain and resource for
    a full-with-server entry; node and domain for a bare entry; the domain
    for a server entry.  The block list is the cached one, or else the
    stored one (empty when storage fails). *)
Theorem IsBlockedJID_iff_entry_matches (m : Manager) (jid : xml.JID)
    (username : string) (st : St) :
  (IsBlockedJID NewJIDString m jid username st).1.1.1 = true
  ↔ ∃ entry,
      entry ∈ blockListOf NewJIDString m username st
      ∧ match shape entry with
        | FullWithUser =>
            xml.Node jid = xml.Node entry ∧ xml.Domain jid = xml.Domain entry
            ∧ xml.Resource jid = xml.Resource entry
        | FullWithServer =>
            xml.Domain jid = xml.Domain entry
            ∧ xml.Resource jid = xml.Resource entry
        | Bare =>
            xml.Node jid = xml.Node entry ∧ xml.Domain jid = xml.Domain entry
        | Server => xml.Domain jid = xml.Domain entry
        end.
Proof.
  rewrite IsBlockedJID_result. apply anyBlocked_entryMatches.
Qed.

(** ** What the block-list step decides *)

Lemma blockStep_passes (m : Manager) (elem : xml.Stanza)
    (ignoreBlocking : bool) (st : St) :
  ignoreBlocking = true ∨ xml.IsServer (xml.ToJID elem) = true
  ∨ ¬ senderBlocked NewJIDString m elem st →
  ∃ m' evs,
    blockStep NewJIDString m elem ignoreBlocking st
      = ((false, m'), storageAfterBlockStep m elem ignoreBlocking st, evs)
    ∧ sameButBlockLists m m' ∧ sends evs = [].
Proof.
  intros Hpass.
  destruct (blockStep_result m elem ignoreBlocking st)
    as (m' & evs & Hstep & Hsame & Hsends & _).
  exists m', evs. split; [|done]. rewrite Hstep.
  destruct Hpass as [->|[->|Hnot]]; simpl; [done| |].
  - by rewrite andb_false_r.
  - destruct (anyBlocked (xml.FromJID elem)
                (blockListOf NewJIDString m (xml.Node (xml.ToJID elem)) st))
      eqn:Hany.
    + exfalso. apply Hnot. by apply anyBlocked_entryMatches.
    + by rewrite andb_false_r.
Qed.

Lemma blockStep_rejects (m : Manager) (elem : xml.Stanza) (st : St) :
  xml.IsServer (xml.ToJID elem) = false →
  senderBlocked NewJIDString m elem st →
  ∃ m' evs,
    blockStep NewJIDString m elem false st
      = ((true, m'), storageAfterBlockStep m elem false st, evs)
    ∧ sameButBlockLists m m' ∧ sends evs = [].
Proof.
  intros Hserver Hblocked.
  destruct (blockStep_result m elem false st)
    as (m' & evs & Hstep & Hsame & Hsends & _).
  exists m', evs. split; [|done]. rewrite Hstep, Hserver. simpl.
  apply anyBlocked_entryMatches in Hblocked. by rewrite Hblocked.
Qed.

Lemma StreamsMatchingJID_local (m : Manager) (jid : xml.JID) :
  StreamsMatchingJID rangeKeys m jid ≠ [] →
  IsLocalDomain m (xml.Domain jid) = true.
Proof.
  unfold StreamsMatchingJID.
  by destruct (IsLocalDomain m (xml.Domain jid)).
Qed.

(** ** Messages to a bare JID *)


(** ** Stanzas without recipient *)

(** C2, amended: for a stanza whose to-JID has a local domain, that the
    block-list check lets through ([MustRoute], or a server-addressed
    to-JID, or a sender that is not blocked) and for which
    [StreamsMatchingJID] of the bare to-JID yields no recipient, [route]
    calls [UserExists(to.Node())], makes no [SendElement] call, and returns
    the storage error if that call fails, [ErrNotAuthenticated] if the user
    exists and [ErrNotExistingAccount] if not. *)
Theorem route_no_recipient (m : Manager) (elem : xml.Stanza)
    (ignoreBlocking : bool) (st : St) :
  IsLocalDomain m (xml.Domain (xml.ToJID elem)) = true →
  StreamsMatchingJID rangeKeys m (xml.ToBareJID (xml.ToJID elem)) = [] →
  ignoreBlocking = true ∨ xml.IsServer (xml.ToJID elem) = true
  ∨ ¬ senderBlocked NewJIDString m elem st →
  let answer :=
    storage.UserExists (xml.Node (xml.ToJID elem))
      (storageAfterBlockStep m elem ignoreBlocking st) in
  ∃ r m' evs,
    route NewJIDString rangeKeys m elem ignoreBlocking st
      = ((r, m'), answer.2, evs)
    ∧ sends evs = []
    ∧ CallUserExists (xml.Node (xml.ToJID elem)) ∈ evs
    ∧ (∀ err, answer.1.2 = Some err → r = Some err)
    ∧ (answer.1 = (true, None) → r = Some ErrNotAuthenticated)
    ∧ (answer.1 = (false, None) → r = Some ErrNotExistingAccount).
Proof.
  intros Hlocal Hnone Hpass answer.
  destruct (blockStep_passes m elem ignoreBlocking st Hpass)
    as (m1 & evs1 & Hstep & Hsame & Hsends1).
  rewrite route_steps, Hlocal, Hstep. simpl.
  rewrite deliver_no_recipient
    by (by rewrite <- (StreamsMatchingJID_same m m1 _ Hsame)).
  fold answer. eexists _, _, _. split; [done|]. split; [|split].
  - clear -Hsends1. induction evs1 as [|[] evs1 IH]; simpl in *; try done;
      auto.
  - apply elem_of_app. right. by left.
  - unfold noRecipientError. repeat split.
    + by intros err ->.
    + by intros ->.
    + by intros ->.
Qed.

(** ** Route and MustRoute *)

(** C5, amended: for a stanza whose to-JID is local: when the to-JID is not
    server-addressed and the sender is on the recipient's block list,
    [Route] returns [ErrBlockedJID] without any [SendElement] call;
    [MustRoute] skips the block-list check, leaves the manager as it is and
    goes on with recipient resolution, so that it delivers when a recipient
    matches (for a full-with-user to-JID, one with that resource) and
    returns the error of the no-recipient or resource-not-found case
    otherwise; for a server-addressed to-JID [Route] does exactly what
    [MustRoute] does. *)
Theorem block_list_check (m : Manager) (elem : xml.Stanza) (st : St) :
  IsLocalDomain m (xml.Domain (xml.ToJID elem)) = true →
  (xml.IsServer (xml.ToJID elem) = false →
   senderBlocked NewJIDString m elem st →
   (Route NewJIDString rangeKeys m elem st).1.1.1 = Some ErrBlockedJID
   ∧ sends (Route NewJIDString rangeKeys m elem st).2 = [])
  ∧ MustRoute NewJIDString rangeKeys m elem st
    = (let '(r, st', evs) := deliver rangeKeys m elem st in ((r, m), st', evs))
  ∧ (∀ rcp0 rcps',
       StreamsMatchingJID rangeKeys m (xml.ToBareJID (xml.ToJID elem))
         = rcp0 :: rcps' →
       xml.IsFullWithUser (xml.ToJID elem) = false
       ∨ (∃ rcp, rcp ∈ rcp0 :: rcps'
                 ∧ Resource rcp = xml.Resource (xml.ToJID elem)) →
       (MustRoute NewJIDString rangeKeys m elem st).1.1.1 = None
       ∧ sends (MustRoute NewJIDString rangeKeys m elem st).2 ≠ [])
  ∧ (xml.IsServer (xml.ToJID elem) = true →
     Route NewJIDString rangeKeys m elem st
     = MustRoute NewJIDString rangeKeys m elem st).
Proof.
  intros Hlocal.
  assert (MustRoute NewJIDString rangeKeys m elem st
          = (let '(r, st', evs) := deliver rangeKeys m elem st in
             ((r, m), st', evs))) as Hmust.
  { unfold MustRoute. rewrite route_steps, Hlocal. simpl.
    by destruct (deliver rangeKeys m elem st) as [[r st'] evs]. }
  split; [|split; [exact Hmust|split]].
  - intros Hserver Hblocked.
    destruct (blockStep_rejects m elem st Hserver Hblocked)
      as (m1 & evs1 & Hstep & _ & Hsends1).
    unfold Route. rewrite route_steps, Hlocal, Hstep. simpl.
    by rewrite app_nil_r.
  - intros rcp0 rcps' Hrcps Hmatch. rewrite Hmust.
    destruct (deliver_recipients m elem st rcp0 rcps' Hrcps)
      as (r & evs & -> & _ & Hcase). simpl.
    destruct (xml.IsFullWithUser (xml.ToJID elem)).
    + destruct Hcase as [(_ & _ & Hnone)|(rcp & -> & _ & _ & ->)]; [|done].
      destruct Hmatch as [|(rcp & Hin & Hres)]; [done|].
      by destruct (Hnone rcp Hin).
    + destruct Hcase as [-> Hsends]. split; [done|]. rewrite Hsends.
      by destruct (xml.Kind elem).
  - intros Hserver. unfold Route, MustRoute.
    rewrite !route_steps, Hlocal. unfold blockStep. rewrite Hserver. done.
Qed.

End Routing.


(** ** Examples *)

(** Scenario 3 of the specification: with [phone] (priority 1) and
    [laptop] (priority 5) online, a message to the bare JID goes to
    [laptop] only. *)
Example message_goes_to_laptop :
  (Route parseBare keysOf (online [phone; laptop]) (message carol aliceBare)
     aliceOnly).1.1.1 = None
  ∧ sends (Route parseBare keysOf (online [phone; laptop])
             (message carol aliceBare) aliceOnly).2
    = [(laptop, xml.StanzaElement (message carol aliceBare))].
Proof. split; reflexivity. Qed.


Lemma carol_not_blocked (m : Manager) :
  blockLists m !! "alice" = None →
  ¬ senderBlocked parseBare m (message carol aliceBare) aliceBlocksBob.
Proof.
  intros Hcache (entry & Hin & Hmatch).
  unfold blockListOf in Hin. simpl in Hin. rewrite Hcache in Hin.
  vm_compute in Hin. apply list_elem_of_singleton in Hin as ->.
  vm_compute in Hmatch. destruct Hmatch as [Hnode _]. discriminate.
Qed.



Lemma bob_blocked (m : Manager) :
  blockLists m !! "alice" = None →
  senderBlocked parseBare m (message bob aliceBare) aliceBlocksBob.
Proof.
  intros Hcache. exists (xml.NewJID "bob" "example.org" ""). split.
  - unfold blockListOf. simpl. rewrite Hcache.
    apply list_elem_of_singleton. reflexivity.
  - split; reflexivity.
Qed.

(** C2, as stated, fails for a blocked sender: [alice] exists and has no
    stream, the to-JID is local, and [Route] returns [ErrBlockedJID], not
    [ErrNotAuthenticated]; no [UserExists] call is made. *)
Lemma blocked_before_recipient_lookup :
  IsLocalDomain (online []) (xml.Domain aliceBare) = true
  ∧ StreamsMatchingJID keysOf (online []) (xml.ToBareJID aliceBare) = []
  ∧ (storage.UserExists "alice" aliceBlocksBob).1 = (true, None)
  ∧ (route parseBare keysOf (online []) (message bob aliceBare) false
       aliceBlocksBob).1.1.1 = Some ErrBlockedJID
  ∧ (route parseBare keysOf (online []) (message bob aliceBare) false
       aliceBlocksBob).2 = [CallFetchBlockListItems "alice"].
Proof. repeat split; reflexivity. Qed.

Lemma route_no_recipient_witness :
  ∃ r m' evs,
    route parseBare keysOf (online []) (message carol aliceBare) false
      aliceBlocksBob = ((r, m'), aliceBlocksBob, evs)
    ∧ sends evs = []
    ∧ r = Some ErrNotAuthenticated.
Proof.
  destruct (route_no_recipient parseBare keysOf (online [])
              (message carol aliceBare) false aliceBlocksBob)
    as (r & m' & evs & Hroute & Hsends & _ & _ & Hexists & _).
  - reflexivity.
  - reflexivity.
  - right. right. apply carol_not_blocked. reflexivity.
  - exists r, m', evs. split; [exact Hroute|]. split; [exact Hsends|].
    apply Hexists. reflexivity.
Defined.

(** C5, as stated, fails in its middle clause: [MustRoute] skips the
    block-list check but delivers only if a recipient matches.  Here the
    sender is blocked, [alice] has no stream, and [MustRoute] returns
    [ErrNotAuthenticated] without any [SendElement] call. *)
Lemma MustRoute_without_recipient :
  IsLocalDomain (online []) (xml.Domain aliceBare) = true
  ∧ xml.IsServer aliceBare = false
  ∧ senderBlocked parseBare (online []) (message bob aliceBare)
      aliceBlocksBob
  ∧ MustRoute parseBare keysOf (online []) (message bob aliceBare)
      aliceBlocksBob
    = ((Some ErrNotAuthenticated, online []), aliceBlocksBob,
       [CallUserExists "alice"]).
Proof.
  split; [reflexivity|]. split; [reflexivity|]. split; [|reflexivity].
  apply bob_blocked. reflexivity.
Qed.

Lemma block_list_check_witness :
  ((Route parseBare keysOf (online [phone]) (message bob aliceBare)
      aliceBlocksBob).1.1.1 = Some ErrBlockedJID
   ∧ sends (Route parseBare keysOf (online [phone]) (message bob aliceBare)
              aliceBlocksBob).2 = [])
  ∧ ((MustRoute parseBare keysOf (online [phone]) (message bob aliceBare)
        aliceBlocksBob).1.1.1 = None
     ∧ sends (MustRoute parseBare keysOf (online [phone])
                (message bob aliceBare) aliceBlocksBob).2 ≠ []).
Proof.
  destruct (block_list_check parseBare keysOf (online [phone])
              (message bob aliceBare) aliceBlocksBob)
    as (Hroute & _ & Hmust & _).
  - reflexivity.
  - split.
    + apply Hroute; [reflexivity|]. apply bob_blocked. reflexivity.
    + apply (Hmust phone []); [reflexivity|]. left. reflexivity.
Defined.


(** Scenarios 1 and 2 of the specification. *)
Example route_to_unknown_user :
  (Route parseBare keysOf (online []) (message carol aliceBare)
     xep0077_spec.noUsers).1.1.1 = Some ErrNotExistingAccount
  ∧ (Route parseBare keysOf (online []) (message carol aliceBare)
       xep0077_spec.noUsers).2
    = [CallFetchBlockListItems "alice"; CallUserExists "alice"].
Proof. split; reflexivity. Qed.

Example route_to_offline_user :
  (Route parseBare keysOf (online []) (message carol aliceBare)
     aliceOnly).1.1.1 = Some ErrNotAuthenticated.
Proof. reflexivity. Qed.

(** A storage failure is handed back as it is. *)
Example route_storage_failure :
  MustRoute parseBare keysOf (online []) (message carol aliceBare) Down
  = ((Some storageDown, online []), Down, [CallUserExists "alice"]).
Proof. reflexivity. Qed.

(** Scenario 4 of the specification: full-JID addressing. *)
Example route_to_full_JID :
  sends (Route parseBare keysOf (online [phone; laptop])
           {| xml.Kind := xml.IQStanza; xml.FromJID := carol;
              xml.ToJID := xml.NewJID "alice" "example.org" "phone";
              xml.Payload := [] |} aliceOnly).2
  = [(phone,
      xml.StanzaElement
        {| xml.Kind := xml.IQStanza; xml.FromJID := carol;
           xml.ToJID := xml.NewJID "alice" "example.org" "phone";
           xml.Payload := [] |})]
  ∧ (Route parseBare keysOf (online [phone; laptop])
       {| xml.Kind := xml.IQStanza; xml.FromJID := carol;
          xml.ToJID := xml.NewJID "alice" "example.org" "tablet";
          xml.Payload := [] |} aliceOnly).1.1.1
    = Some ErrResourceNotFound.
Proof. split; reflexivity. Qed.

(** A presence to the bare JID goes to every recipient, in order. *)
Example route_broadcast :
  sends (Route parseBare keysOf (online [phone; laptop])
           {| xml.Kind := xml.PresenceStanza; xml.FromJID := carol;
              xml.ToJID := aliceBare; xml.Payload := [] |} aliceOnly).2
  = (λ stm,
       (stm,
        xml.StanzaElement
          {| xml.Kind := xml.PresenceStanza; xml.FromJID := carol;
             xml.ToJID := aliceBare; xml.Payload := [] |}))
    <$> [phone; laptop].
Proof. reflexivity. Qed.

(** Ties go to the recipient that comes first. *)
Example route_tie :
  sends (MustRoute parseBare keysOf (online [idle; silent])
           (message carol aliceBare) aliceOnly).2
  = [(idle, xml.StanzaElement (message carol aliceBare))]
  ∧ sends (MustRoute parseBare keysOf (online [silent; idle])
             (message carol aliceBare) aliceOnly).2
    = [(silent, xml.StanzaElement (message carol aliceBare))].
Proof. split; reflexivity. Qed.

(** Scenario 5 of the specification: the cached block list is used until
    [ReloadBlockList], whatever the storage holds by then. *)
Example route_block_list_reload :
  (Route parseBare keysOf
     (Route parseBare keysOf (online [phone]) (message bob aliceBare)
        aliceBlocksBob).1.1.2
     (message bob aliceBare) aliceOnly).1.1.1 = Some ErrBlockedJID
  ∧ sends (Route parseBare keysOf
             (ReloadBlockList
                (Route parseBare keysOf (online [phone])
                   (message bob aliceBare) aliceBlocksBob).1.1.2 "alice")
             (message bob aliceBare) aliceOnly).2
    = [(phone, xml.StanzaElement (message bob aliceBare))].
Proof. split; reflexivity. Qed.

End c2s_routing.

(** * Proofs: in-band registration *)

Module xep0077_handler.

Import xep0077 xep0077_spec.

Section Registration.

Context {St : Type} `{!storage.Storage St}.

Lemma length_zero_empty (s : string) :
  (String.length s =? 0)%nat = bool_decide (s = "").
Proof. by destruct s. Qed.

(** ** registerNewUser *)

Lemma registerNewUser_bad_request (x : XEPRegister) (iq : xml.IQ)
    (query : xml.Element) (st : St) :
  fieldText query "username" = "" ∨ fieldText query "password" = "" →
  registerNewUser x iq query st
  = (x, st, [c2s.SendElement (stm x) (xml.ErrorIQ iq xml.BadRequest)]).
Proof.
  unfold fieldText, registerNewUser.
  destruct (xml.Child (xml.Elements query) "username") as [userEl|];
    destruct (xml.Child (xml.Elements query) "password") as [passwordEl|];
    try done.
  rewrite !length_zero_empty.
  intros [->| ->]; simpl; [done|]. by rewrite orb_true_r.
Qed.

Lemma registerNewUser_checked (x : XEPRegister) (iq : xml.IQ)
    (query : xml.Element) (st : St) :
  fieldText query "username" ≠ "" → fieldText query "password" ≠ "" →
  let username := fieldText query "username" in
  let user := {| storage.Username := username;
                 storage.Password := fieldText query "password" |} in
  let answer := storage.UserExists username st in
  let insertion := storage.InsertOrUpdateUser user answer.2 in
  let error e := c2s.SendElement (stm x) (xml.ErrorIQ iq e) in
  registerNewUser x iq query st
  = match answer.1.2 with
    | Some _ =>
        (x, answer.2,
         [c2s.CallUserExists username; error xml.InternalServerError])
    | None =>
        if answer.1.1 then
          (x, answer.2, [c2s.CallUserExists username; error xml.Conflict])
        else
          match insertion.1 with
          | Some _ =>
              (x, insertion.2,
               [c2s.CallUserExists username; c2s.CallInsertOrUpdateUser user;
                error xml.InternalServerError])
          | None =>
              (setRegistered x, insertion.2,
               [c2s.CallUserExists username; c2s.CallInsertOrUpdateUser user;
                c2s.SendElement (stm x) (xml.ResultIQ iq [])])
          end
    end.
Proof.
  unfold fieldText, registerNewUser.
  destruct (xml.Child (xml.Elements query) "username") as [userEl|];
    [|done].
  destruct (xml.Child (xml.Elements query) "password") as [passwordEl|];
    [|done].
  intros Hu Hp. rewrite !length_zero_empty.
  rewrite !bool_decide_eq_false_2 by done. simpl.
  unfold mbind, c2s.Eff_bind, c2s.userExists, c2s.insertOrUpdateUser, reply,
    c2s.sendElement.
  destruct (storage.UserExists (xml.Text userEl) st)
    as [[exists_ [err|]] st1]; simpl; [done|].
  destruct exists_; simpl; [done|].
  destruct (storage.InsertOrUpdateUser
              {| storage.Username := xml.Text userEl;
                 storage.Password := xml.Text passwordEl |} st1)
    as [[err|] st2]; simpl; done.
Qed.

(** [registerNewUser] sends one reply; it is a result exactly when the
    latch gets set, and an error of one of three kinds otherwise. *)
Lemma registerNewUser_reply (x : XEPRegister) (iq : xml.IQ)
    (query : xml.Element) (st : St) :
  ∃ x' st' evs,
    registerNewUser x iq query st = (x', st', evs)
    ∧ ((x' = setRegistered x ∧ replies evs = [xml.ResultIQ iq []])
       ∨ (x' = x
          ∧ ∃ e, replies evs = [xml.ErrorIQ iq e]
                 ∧ (e = xml.BadRequest ∨ e = xml.Conflict
                    ∨ e = xml.InternalServerError))).
Proof.
  destruct (decide (fieldText query "username" = "")) as [Hu|Hu].
  { rewrite registerNewUser_bad_request by auto.
    eexists _, _, _. split; [done|]. right. split; [done|].
    exists xml.BadRequest. auto. }
  destruct (decide (fieldText query "password" = "")) as [Hp|Hp].
  { rewrite registerNewUser_bad_request by auto.
    eexists _, _, _. split; [done|]. right. split; [done|].
    exists xml.BadRequest. auto. }
  rewrite registerNewUser_checked by done.
  destruct (storage.UserExists (fieldText query "username") st)
    as [[exists_ [err|]] st1]; simpl.
  - eexists _, _, _. split; [done|]. right. split; [done|].
    exists xml.InternalServerError. auto.
  - destruct exists_.
    + eexists _, _, _. split; [done|]. right. split; [done|].
      exists xml.Conflict. auto.
    + destruct (storage.InsertOrUpdateUser _ st1) as [[err|] st2]; simpl.
      * eexists _, _, _. split; [done|]. right. split; [done|].
        exists xml.InternalServerError. auto.
      * eexists _, _, _. split; [done|]. by left.
Qed.


(** ** The branches of ProcessIQ on an unauthenticated stream *)

Lemma IsSet_not_IsGet (iq : xml.IQ) : xml.IsSet iq = true → xml.IsGet iq = false.
Proof.
  unfold xml.IsSet, xml.IsGet. intros Hset.
  apply bool_decide_eq_true in Hset. rewrite Hset. done.
Qed.

Lemma ProcessIQ_forbidden (x : XEPRegister) (iq : xml.IQ) (st : St) :
  isValidToJid x (xml.IQTo iq) = false →
  ProcessIQ x iq st
  = (Some x, st, [c2s.SendElement (stm x) (xml.ErrorIQ iq xml.Forbidden)]).
Proof. intros Hvalid. unfold ProcessIQ. by rewrite Hvalid. Qed.

Lemma ProcessIQ_register (x : XEPRegister) (iq : xml.IQ)
    (query : xml.Element) (st : St) :
  c2s.IsAuthenticated (stm x) = false →
  registered x = false →
  xml.IsSet iq = true →
  isValidToJid x (xml.IQTo iq) = true →
  xml.ChildNamespace (xml.IQElements iq) "query" registerNamespace
    = Some query →
  ProcessIQ x iq st
  = (let '(x', st', evs) := registerNewUser x iq query st in
     (Some x', st', evs)).
Proof.
  intros Hauth Hlatch Hset Hvalid Hquery. unfold ProcessIQ.
  rewrite Hvalid, Hauth, (IsSet_not_IsGet iq Hset), Hset, Hlatch, Hquery.
  simpl. unfold mbind, c2s.Eff_bind.
  destruct (registerNewUser x iq query st) as [[x' st'] evs]. simpl.
  by rewrite app_nil_r.
Qed.

Lemma ProcessIQ_not_acceptable (x : XEPRegister) (iq : xml.IQ) (st : St) :
  c2s.IsAuthenticated (stm x) = false →
  registered x = true →
  xml.IsSet iq = true →
  isValidToJid x (xml.IQTo iq) = true →
  ProcessIQ x iq st
  = (Some x, st,
     [c2s.SendElement (stm x) (xml.ErrorIQ iq xml.NotAcceptable)]).
Proof.
  intros Hauth Hlatch Hset Hvalid. unfold ProcessIQ.
  by rewrite Hvalid, Hauth, (IsSet_not_IsGet iq Hset), Hset, Hlatch.
Qed.

(** ** The latch is set once and for all *)

Lemma ProcessIQ_handler (x x' : XEPRegister) (iq : xml.IQ) (st st' : St)
    (evs : list c2s.Event) :
  ProcessIQ x iq st = (Some x', st', evs) →
  x' = x ∨ (x' = setRegistered x ∧ registered x = false).
Proof.
  unfold ProcessIQ.
  destruct (isValidToJid x (xml.IQTo iq)); simpl;
    [|intros [= <- _ _]; by left].
  destruct (xml.ChildNamespace (xml.IQElements iq) "query" registerNamespace)
    as [query|];
  destruct (c2s.IsAuthenticated (stm x)); simpl;
  destruct (xml.IsGet iq); destruct (xml.IsSet iq);
  destruct (AllowRegistration (cfg x)); simpl;
  destruct (registered x) eqn:Hlatch; simpl;
  try (intros [= <- _ _]; by left); try done;
  unfold mbind, c2s.Eff_bind;
  try (destruct (registerNewUser_reply x iq query st)
         as (x1 & st1 & evs1 & -> & [[-> _]|[-> _]]);
       simpl; intros [= <- _ _]; auto).
  all: try (destruct (sendRegistrationFields x iq query st) as [[[] ?] ?];
            simpl; intros [= <- _ _]; by left).
  all: destruct (xml.Child (xml.Elements query) "remove");
    [destruct (cancelRegistration x iq query st) as [[[] ?] ?];
       simpl; intros [= <- _ _]; by left|].
  all: destruct (xml.Child (xml.Elements query) "username") as [user|];
    destruct (xml.Child (xml.Elements query) "password") as [password|];
    try (simpl; intros [= <- _ _]; by left).
  all: destruct (changePassword x (xml.Text password) (xml.Text user) iq st)
         as [[[] ?] ?]; simpl; intros [= <- _ _]; by left.
Qed.

Lemma later_latch (xs xs2 : XEPRegister * St) :
  later xs xs2 → registered xs.1 = true → registered xs2.1 = true.
Proof.
  induction 1 as [xs|x x1 st st1 iq evs xs2 Hiq _ IH|x st st1 stm1 xs2 _ IH];
    simpl in *; [done| |done].
  intros Hlatch. apply IH.
  apply ProcessIQ_handler in Hiq as [->|[-> _]]; done.
Qed.


(** ** Registration of a new user *)

(** C6, amended: on an unauthenticated stream whose registered latch is
    unset, an IQ set in the jabber:iq:register namespace whose to-JID the
    handler accepts (the server, or the bare JID of the stream's username):
    replies bad-request if the username or the password child is missing or
    empty; else calls [UserExists] and replies internal-server-error if it
    fails, conflict if the user exists; else calls [InsertOrUpdateUser]
    with the submitted username and password and replies
    internal-server-error if it fails, and otherwise replies with a result
    IQ and sets the registered latch.  From then on, any IQ set with an
    accepted to-JID on that handler, while the stream is unauthenticated,
    is answered with not-acceptable. *)
Theorem register_new_user (x : XEPRegister) (iq : xml.IQ)
    (query : xml.Element) (st : St) :
  c2s.IsAuthenticated (stm x) = false →
  registered x = false →
  xml.IsSet iq = true →
  xml.ChildNamespace (xml.IQElements iq) "query" registerNamespace
    = Some query →
  isValidToJid x (xml.IQTo iq) = true →
  let username := fieldText query "username" in
  let password := fieldText query "password" in
  let user := {| storage.Username := username;
                 storage.Password := password |} in
  let answer := storage.UserExists username st in
  let insertion := storage.InsertOrUpdateUser user answer.2 in
  let error e := c2s.SendElement (stm x) (xml.ErrorIQ iq e) in
  (username = "" ∨ password = "" →
   ProcessIQ x iq st = (Some x, st, [error xml.BadRequest]))
  ∧ (username ≠ "" → password ≠ "" →
     (is_Some answer.1.2 →
      ProcessIQ x iq st
      = (Some x, answer.2,
         [c2s.CallUserExists username; error xml.InternalServerError]))
     ∧ (answer.1 = (true, None) →
        ProcessIQ x iq st
        = (Some x, answer.2,
           [c2s.CallUserExists username; error xml.Conflict]))
     ∧ (answer.1 = (false, None) →
        (is_Some insertion.1 →
         ProcessIQ x iq st
         = (Some x, insertion.2,
            [c2s.CallUserExists username; c2s.CallInsertOrUpdateUser user;
             error xml.InternalServerError]))
        ∧ (insertion.1 = None →
           ProcessIQ x iq st
           = (Some (setRegistered x), insertion.2,
              [c2s.CallUserExists username; c2s.CallInsertOrUpdateUser user;
               c2s.SendElement (stm x) (xml.ResultIQ iq [])]))))
  ∧ (∀ (st1 : St) (x2 : XEPRegister) (st2 : St) (iq2 : xml.IQ),
       later (setRegistered x, st1) (x2, st2) →
       c2s.IsAuthenticated (stm x2) = false →
       xml.IsSet iq2 = true →
       isValidToJid x2 (xml.IQTo iq2) = true →
       ProcessIQ x2 iq2 st2
       = (Some x2, st2,
          [c2s.SendElement (stm x2) (xml.ErrorIQ iq2 xml.NotAcceptable)])).
Proof.
  intros Hauth Hlatch Hset Hquery Hvalid username password user answer
    insertion error.
  pose proof (ProcessIQ_register x iq query st Hauth Hlatch Hset Hvalid Hquery)
    as Hprocess.
  split; [|split].
  - intros Hempty. rewrite Hprocess.
    by rewrite registerNewUser_bad_request.
  - intros Hu Hp. rewrite Hprocess.
    rewrite registerNewUser_checked by done.
    fold username password user answer insertion.
    split; [|split].
    + intros [err Herr]. by rewrite Herr.
    + intros Hanswer. by rewrite Hanswer.
    + intros Hanswer. rewrite Hanswer. simpl. split.
      * intros [err Herr]. by rewrite Herr.
      * intros Hins. by rewrite Hins.
  - intros st1 x2 st2 iq2 Hlater Hauth2 Hset2 Hvalid2.
    apply ProcessIQ_not_acceptable; try done.
    by apply (later_latch _ _ Hlater).
Qed.

(** ** Failed attempts *)

(** C10: on an unauthenticated stream, when an IQ set is answered with
    bad-request, conflict or internal-server-error, the attempt has left
    the handler as [New] makes it, the registered latch false.  A
    subsequent IQ set on the stream is then never answered with
    not-acceptable; with a to-JID the handler accepts it is a registration
    attempt like the first: it is handed to [registerNewUser]. *)
Theorem failed_registration_keeps_latch (x x' : XEPRegister) (iq : xml.IQ)
    (st st' : St) (evs : list c2s.Event) (e : xml.StanzaError) :
  c2s.IsAuthenticated (stm x) = false →
  xml.IsSet iq = true →
  ProcessIQ x iq st = (Some x', st', evs) →
  replies evs = [xml.ErrorIQ iq e] →
  e = xml.BadRequest ∨ e = xml.Conflict ∨ e = xml.InternalServerError →
  registered x' = false
  ∧ x' = New (cfg x) (stm x)
  ∧ (∀ (iq2 : xml.IQ) (st2 : St),
       xml.IsSet iq2 = true →
       xml.ErrorIQ iq2 xml.NotAcceptable
         ∉ replies (ProcessIQ x' iq2 st2).2)
  ∧ (∀ (iq2 : xml.IQ) (query2 : xml.Element) (st2 : St),
       xml.IsSet iq2 = true →
       isValidToJid x' (xml.IQTo iq2) = true →
       xml.ChildNamespace (xml.IQElements iq2) "query" registerNamespace
         = Some query2 →
       ProcessIQ x' iq2 st2
       = (let '(x'', st'', evs2) := registerNewUser x' iq2 query2 st2 in
          (Some x'', st'', evs2))).
Proof.
  intros Hauth Hset Hprocess Hreply He.
  assert (registered x = false ∧ x' = x) as [Hlatch ->].
  { destruct (isValidToJid x (xml.IQTo iq)) eqn:Hvalid.
    - destruct (registered x) eqn:Hlatch.
      + rewrite ProcessIQ_not_acceptable in Hprocess by done.
        injection Hprocess as <- <- <-.
        injection Hreply as <-. by destruct He as [|[|]].
      + destruct (xml.ChildNamespace (xml.IQElements iq) "query"
                    registerNamespace) as [query|] eqn:Hquery.
        * rewrite (ProcessIQ_register x iq query st) in Hprocess by done.
          destruct (registerNewUser_reply x iq query st)
            as (x1 & st1 & evs1 & Hreg & Hcase).
          rewrite Hreg in Hprocess. injection Hprocess as <- <- <-.
          destruct Hcase as [[_ Hres]|[-> _]]; [|done].
          rewrite Hres in Hreply. discriminate.
        * unfold ProcessIQ in Hprocess.
          rewrite Hvalid, Hauth, (IsSet_not_IsGet iq Hset), Hset, Hlatch,
            Hquery in Hprocess. discriminate.
    - rewrite ProcessIQ_forbidden in Hprocess by done.
      injection Hprocess as <- <- <-.
      injection Hreply as <-. by destruct He as [|[|]]. }
  split; [done|]. split; [|split].
  - destruct x as [c s r]. simpl in Hlatch. by rewrite Hlatch.
  - intros iq2 st2 Hset2.
    destruct (isValidToJid x (xml.IQTo iq2)) eqn:Hvalid.
    + destruct (xml.ChildNamespace (xml.IQElements iq2) "query"
                  registerNamespace) as [query2|] eqn:Hquery.
      * rewrite (ProcessIQ_register x iq2 query2 st2) by done.
        destruct (registerNewUser_reply x iq2 query2 st2)
          as (x1 & st1 & evs1 & -> & [[_ Hres]|[_ (e2 & Hres & He2)]]);
          simpl; rewrite Hres; intros Hin;
          apply list_elem_of_singleton in Hin; [done|].
        injection Hin as <-. by destruct He2 as [|[|]].
      * unfold ProcessIQ.
        rewrite Hvalid, Hauth, (IsSet_not_IsGet iq2 Hset2), Hset2, Hlatch,
          Hquery. simpl. intros Hin. by apply elem_of_nil in Hin.
    + rewrite ProcessIQ_forbidden by done. simpl. intros Hin.
      apply list_elem_of_singleton in Hin. done.
  - intros iq2 query2 st2 Hset2 Hvalid2 Hquery2.
    by apply ProcessIQ_register.
Qed.

(** ** Change of password *)


(** An IQ set on an authenticated stream, addressed to the server, whose
    query carries a username and a password and no [remove], is a password
    change. *)
Lemma ProcessIQ_changePassword (x : XEPRegister) (iq : xml.IQ)
    (query user password : xml.Element) (st : St) :
  c2s.IsAuthenticated (stm x) = true →
  xml.IsSet iq = true →
  xml.IsServer (xml.IQTo iq) = true →
  xml.ChildNamespace (xml.IQElements iq) "query" registerNamespace
    = Some query →
  xml.Child (xml.Elements query) "remove" = None →
  xml.Child (xml.Elements query) "username" = Some user →
  xml.Child (xml.Elements query) "password" = Some password →
  ProcessIQ x iq st
  = (let '(_, st', evs) :=
       changePassword x (xml.Text password) (xml.Text user) iq st in
     (Some x, st', evs)).
Proof.
  intros Hauth Hset Hserver Hquery Hremove Huser Hpassword.
  unfold ProcessIQ, isValidToJid.
  rewrite Hauth, Hserver, Hset, Hquery, Hremove, Huser, Hpassword. simpl.
  unfold mbind, c2s.Eff_bind.
  destruct (changePassword x (xml.Text password) (xml.Text user) iq st)
    as [[[] st'] evs]. simpl. by rewrite app_nil_r.
Qed.

End Registration.


(** ** Examples *)

(** C6, as stated, fails for an IQ the handler does not accept the to-JID
    of: on an unauthenticated stream with the latch unset, this IQ set in
    the jabber:iq:register namespace has neither username nor password, and
    the reply is forbidden, not bad-request. *)
Lemma registration_to_foreign_JID_forbidden :
  c2s.IsAuthenticated newcomer = false
  ∧ registered (New allAllowed newcomer) = false
  ∧ xml.IsSet (setIQ "reg-1" c2s_spec.bob []) = true
  ∧ MatchesIQ (setIQ "reg-1" c2s_spec.bob []) = true
  ∧ fieldText (registerQuery []) "username" = ""
  ∧ ProcessIQ (New allAllowed newcomer) (setIQ "reg-1" c2s_spec.bob [])
      noUsers
    = (Some (New allAllowed newcomer), noUsers,
       [c2s.SendElement newcomer
          (xml.ErrorIQ (setIQ "reg-1" c2s_spec.bob []) xml.Forbidden)]).
Proof. repeat split; reflexivity. Qed.

(** Scenario 6 of the specification: the registration goes through, and a
    second IQ set on the stream is answered with not-acceptable. *)
Lemma register_new_user_witness :
  ProcessIQ (New allAllowed newcomer)
    (setIQ "reg-1" serverJID (credentials "alice" "s3cret")) noUsers
  = (Some (setRegistered (New allAllowed newcomer)),
     c2s_spec.memInsert
       {| storage.Username := "alice"; storage.Password := "s3cret" |}
       noUsers,
     [c2s.CallUserExists "alice";
      c2s.CallInsertOrUpdateUser
        {| storage.Username := "alice"; storage.Password := "s3cret" |};
      c2s.SendElement newcomer
        (xml.ResultIQ
           (setIQ "reg-1" serverJID (credentials "alice" "s3cret")) [])])
  ∧ ∀ st : c2s_spec.MemStorage,
      ProcessIQ (setRegistered (New allAllowed newcomer))
        (setIQ "reg-2" serverJID (credentials "bob" "hunter2")) st
      = (Some (setRegistered (New allAllowed newcomer)), st,
         [c2s.SendElement newcomer
            (xml.ErrorIQ
               (setIQ "reg-2" serverJID (credentials "bob" "hunter2"))
               xml.NotAcceptable)]).
Proof.
  destruct (register_new_user (New allAllowed newcomer)
              (setIQ "reg-1" serverJID (credentials "alice" "s3cret"))
              (registerQuery (credentials "alice" "s3cret")) noUsers)
    as (_ & Hchecked & Hlater); try reflexivity.
  split.
  - assert (fieldText (registerQuery (credentials "alice" "s3cret"))
              "username" ≠ "") as Hu by discriminate.
    assert (fieldText (registerQuery (credentials "alice" "s3cret"))
              "password" ≠ "") as Hp by discriminate.
    apply (proj2 (proj2 (proj2 (Hchecked Hu Hp)) eq_refl)). reflexivity.
  - intros st.
    apply (Hlater st (setRegistered (New allAllowed newcomer)) st);
      try reflexivity.
    apply later_now.
Defined.

Lemma failed_registration_keeps_latch_witness :
  ProcessIQ (New allAllowed newcomer) (setIQ "reg-1" serverJID []) noUsers
  = (Some (New allAllowed newcomer), noUsers,
     [c2s.SendElement newcomer
        (xml.ErrorIQ (setIQ "reg-1" serverJID []) xml.BadRequest)])
  ∧ registered (New allAllowed newcomer) = false.
Proof.
  assert (ProcessIQ (New allAllowed newcomer) (setIQ "reg-1" serverJID [])
            noUsers
          = (Some (New allAllowed newcomer), noUsers,
             [c2s.SendElement newcomer
                (xml.ErrorIQ (setIQ "reg-1" serverJID []) xml.BadRequest)]))
    as Hprocess by reflexivity.
  split; [exact Hprocess|].
  exact (proj1 (failed_registration_keeps_latch
                  (New allAllowed newcomer) (New allAllowed newcomer)
                  (setIQ "reg-1" serverJID []) noUsers noUsers _
                  xml.BadRequest eq_refl eq_refl Hprocess eq_refl
                  (or_introl eq_refl))).
Defined.



(** A storage failure is answered with internal-server-error and leaves
    the latch unset. *)
Example registration_storage_failure :
  ProcessIQ (New allAllowed newcomer)
    (setIQ "reg-1" serverJID (credentials "alice" "s3cret")) c2s_spec.Down
  = (Some (New allAllowed newcomer), c2s_spec.Down,
     [c2s.CallUserExists "alice";
      c2s.SendElement newcomer
        (xml.ErrorIQ (setIQ "reg-1" serverJID (credentials "alice" "s3cret"))
           xml.InternalServerError)]).
Proof. reflexivity. Qed.

(** An existing user is answered with conflict. *)
Example registration_conflict :
  replies (ProcessIQ (New allAllowed newcomer)
             (setIQ "reg-1" serverJID (credentials "alice" "s3cret"))
             c2s_spec.aliceOnly).2
  = [xml.ErrorIQ (setIQ "reg-1" serverJID (credentials "alice" "s3cret"))
       xml.Conflict].
Proof. reflexivity. Qed.

End xep0077_handler.

(** * Proofs: the context of a stream *)

Module stream_context.

Import stream.

Section Context.

Variable float64 : Type.
Variable zeroFloat : float64.
Variable Other : Type.

Abbreviation Context := (Context float64 Other).
Abbreviation Value := (Value float64 Other).
Abbreviation Op := (Op float64 Other).

(** What is stored under a key is what [Object] hands back, and each typed
    accessor hands it back when it has the accessor's type, and the zero
    value of that type otherwise: a mismatch is no error. *)
Theorem read_after_write (ctx : Context) (object : Value) (key : string) :
  Object (SetObject ctx object key) key = object
  ∧ String (SetObject ctx object key) key
    = (if object is StringValue s then s else "")
  ∧ Int (SetObject ctx object key) key
    = (if object is IntValue i then i else 0%Z)
  ∧ Float zeroFloat (SetObject ctx object key) key
    = (if object is FloatValue f then f else zeroFloat)
  ∧ Bool (SetObject ctx object key) key
    = (if object is BoolValue b then b else false).
Proof.
  unfold Object, String, Int, Float, Bool, SetObject, store. simpl.
  rewrite lookup_insert_eq. by destruct object.
Qed.

(** The typed round trips, and what the other accessors see after a typed
    write: a string is read back by [String] and is 0, the zero float and
    false for the others; likewise for the three other types. *)
Theorem typed_round_trip (ctx : Context) (key : string) (s : string)
    (i : Z) (f : float64) (b : bool) :
  (String (SetString ctx s key) key = s
   ∧ Int (SetString ctx s key) key = 0%Z
   ∧ Float zeroFloat (SetString ctx s key) key = zeroFloat
   ∧ Bool (SetString ctx s key) key = false)
  ∧ (Int (SetInt ctx i key) key = i
     ∧ String (SetInt ctx i key) key = ""
     ∧ Float zeroFloat (SetInt ctx i key) key = zeroFloat
     ∧ Bool (SetInt ctx i key) key = false)
  ∧ (Float zeroFloat (SetFloat ctx f key) key = f
     ∧ String (SetFloat ctx f key) key = ""
     ∧ Int (SetFloat ctx f key) key = 0%Z
     ∧ Bool (SetFloat ctx f key) key = false)
  ∧ (Bool (SetBool ctx b key) key = b
     ∧ String (SetBool ctx b key) key = ""
     ∧ Int (SetBool ctx b key) key = 0%Z
     ∧ Float zeroFloat (SetBool ctx b key) key = zeroFloat).
Proof.
  unfold String, Int, Float, Bool, SetString, SetInt, SetFloat, SetBool,
    store. simpl. rewrite !lookup_insert_eq. done.
Qed.

(** A key that was never written reads as the nil interface and as the
    zero value of every type. *)
Theorem read_missing_key (ctx : Context) (key : string) :
  m ctx !! key = None →
  Object ctx key = Nil ∧ String ctx key = "" ∧ Int ctx key = 0%Z
  ∧ Float zeroFloat ctx key = zeroFloat ∧ Bool ctx key = false.
Proof.
  intros Hnone. unfold Object, String, Int, Float, Bool. by rewrite Hnone.
Qed.

Lemma apply_lookup_ne (ctx : Context) (op : Op) (key : string) :
  written op ≠ key → m (apply ctx op) !! key = m ctx !! key.
Proof.
  destruct op as [v k|s k|i k|f k|b k]; simpl; intros Hne;
    by rewrite lookup_insert_ne.
Qed.

Lemma DoOnce_lookup {W : Type} (ctx : Context) (handler : string)
    (f : Context → W → Context * W) (w : W) (key : string) :
  (∀ c w', m (f c w').1 !! key = m c !! key) →
  m (DoOnce ctx handler f w).1 !! key = m ctx !! key.
Proof.
  intros Hf. unfold DoOnce. case_bool_decide; [done|]. by rewrite Hf.
Qed.

(** A setter call on another key changes nothing of what the accessors
    read under a key.  [DoOnce] writes no key of its own: what is read
    under a key after it is what was read before, whenever its closure
    leaves that key alone (a closure that writes the key is seen through
    [DoOnce] the first time the handler is used). *)
Theorem write_leaves_other_keys (ctx : Context) (key : string) :
  (∀ op : Op, written op ≠ key →
     Object (apply ctx op) key = Object ctx key
     ∧ String (apply ctx op) key = String ctx key
     ∧ Int (apply ctx op) key = Int ctx key
     ∧ Float zeroFloat (apply ctx op) key = Float zeroFloat ctx key
     ∧ Bool (apply ctx op) key = Bool ctx key)
  ∧ (∀ (W : Type) (handler : string) (f : Context → W → Context * W)
       (w : W),
       (∀ c w', m (f c w').1 !! key = m c !! key) →
       Object (DoOnce ctx handler f w).1 key = Object ctx key
       ∧ String (DoOnce ctx handler f w).1 key = String ctx key
       ∧ Int (DoOnce ctx handler f w).1 key = Int ctx key
       ∧ Float zeroFloat (DoOnce ctx handler f w).1 key
         = Float zeroFloat ctx key
       ∧ Bool (DoOnce ctx handler f w).1 key = Bool ctx key)
  ∧ (∀ (W : Type) (handler : string) (f : Context → W → Context * W)
       (w : W),
       handler ∉ onceHandlers ctx →
       m (DoOnce ctx handler f w).1
       = m (f {| m := m ctx; onceHandlers := {[handler]} ∪ onceHandlers ctx;
                 doneClosed := doneClosed ctx |} w).1).
Proof.
  split; [|split].
  - intros op Hne. unfold Object, String, Int, Float, Bool.
    by rewrite (apply_lookup_ne ctx op key Hne).
  - intros W handler f w Hf. unfold Object, String, Int, Float, Bool.
    by rewrite (DoOnce_lookup ctx handler f w key Hf).
  - intros W handler f w Hfresh. unfold DoOnce.
    by rewrite bool_decide_eq_false_2.
Qed.

(** The last write to a key wins: writing twice leaves the context that
    the second write alone leaves. *)
Theorem last_write_wins (ctx : Context) (first second : Value)
    (key : string) :
  SetObject (SetObject ctx first key) second key = SetObject ctx second key.
Proof.
  unfold SetObject, store. simpl. by rewrite insert_insert_eq.
Qed.

(** ** DoOnce and Terminate *)

Lemma apply_keeps (ctx : Context) (op : Op) :
  onceHandlers ctx ⊆ onceHandlers (apply ctx op)
  ∧ doneClosed (apply ctx op) = doneClosed ctx.
Proof. by destruct op. Qed.

Lemma foldl_apply_keeps (ops : list Op) (ctx : Context) :
  onceHandlers ctx ⊆ onceHandlers (foldl apply ctx ops)
  ∧ doneClosed (foldl apply ctx ops) = doneClosed ctx.
Proof.
  revert ctx. induction ops as [|op ops IH]; intros ctx; simpl; [done|].
  destruct (IH (apply ctx op)) as [Hsub Hdone].
  destruct (apply_keeps ctx op) as [Hsub' Hdone'].
  split; [by transitivity (onceHandlers (apply ctx op))|congruence].
Qed.

Lemma script_keeps (ops : list Op) (ctx : Context) (w : nat) :
  onceHandlers ctx ⊆ onceHandlers (script ops ctx w).1
  ∧ doneClosed (script ops ctx w).1 = doneClosed ctx.
Proof. apply foldl_apply_keeps. Qed.

(** [DoOnce] runs a closure for a handler name at most once: the first call
    for a name runs it on the context with the name recorded; a later call
    for the name changes nothing and runs nothing, provided the first
    closure left the name recorded (as every closure made of context
    operations does). *)
Theorem DoOnce_at_most_once {W : Type} (ctx : Context) (handler : string)
    (f g : Context → W → Context * W) (w : W) :
  handler ∉ onceHandlers ctx →
  (∀ c w', onceHandlers c ⊆ onceHandlers (f c w').1) →
  DoOnce ctx handler f w
  = f {| m := m ctx; onceHandlers := {[handler]} ∪ onceHandlers ctx;
         doneClosed := doneClosed ctx |} w
  ∧ DoOnce (DoOnce ctx handler f w).1 handler g (DoOnce ctx handler f w).2
    = DoOnce ctx handler f w.
Proof.
  intros Hfresh Hkeeps.
  assert (DoOnce ctx handler f w
          = f {| m := m ctx; onceHandlers := {[handler]} ∪ onceHandlers ctx;
                 doneClosed := doneClosed ctx |} w) as Hfirst.
  { unfold DoOnce. by rewrite bool_decide_eq_false_2. }
  split; [done|]. rewrite Hfirst. unfold DoOnce at 1.
  rewrite bool_decide_eq_true_2; [by destruct (f _ w)|].
  apply Hkeeps. simpl. set_solver.
Qed.


End Context.


(** ** Examples *)

Lemma read_missing_key_witness :
  Object exampleContext "resource" = Nil
  ∧ String exampleContext "resource" = ""
  ∧ Int exampleContext "resource" = 0%Z
  ∧ Float 0%Z exampleContext "resource" = 0%Z
  ∧ Bool exampleContext "resource" = false.
Proof.
  apply (read_missing_key Z 0%Z Empty_set exampleContext "resource").
  reflexivity.
Defined.

Lemma script_lookup_ne (ops : list (Op Z Empty_set))
    (c : Context Z Empty_set) (w : nat) (key : string) :
  Forall (λ op, written op ≠ key) ops →
  m (script ops c w).1 !! key = m c !! key.
Proof.
  unfold script. simpl. intros Hops. revert c.
  induction Hops as [|op ops Hne _ IH]; intros c; simpl; [done|].
  rewrite IH. by apply apply_lookup_ne.
Qed.

Lemma write_leaves_other_keys_witness :
  String (apply exampleContext (OpSetInt 4 "retries")) "username" = "alice"
  ∧ String (DoOnce exampleContext "bind" (script [OpSetInt 0 "retries"])
              0%nat).1 "username" = "alice"
  ∧ Int (DoOnce exampleContext "bind" (script [OpSetInt 0 "retries"])
           0%nat).1 "retries" = 0%Z.
Proof.
  destruct (write_leaves_other_keys Z 0%Z Empty_set exampleContext
              "username") as (Hset & Honce & Hfirst).
  destruct (Hset (OpSetInt 4 "retries")) as (_ & Hstring & _);
    [simpl; discriminate|].
  destruct (Honce nat "bind" (script [OpSetInt 0 "retries"]) 0%nat)
    as (_ & Hstring' & _).
  { intros c w'. apply script_lookup_ne.
    constructor; [simpl; discriminate|constructor]. }
  split; [rewrite Hstring; reflexivity|].
  split; [rewrite Hstring'; reflexivity|].
  unfold Int.
  rewrite (Hfirst nat "bind" (script [OpSetInt 0 "retries"]) 0%nat);
    [reflexivity|vm_compute; discriminate].
Defined.

Lemma script_keeps_handlers (ops : list (Op Z Empty_set))
    (c : Context Z Empty_set) (w : nat) :
  onceHandlers c ⊆ onceHandlers (script ops c w).1.
Proof. apply script_keeps. Qed.

Lemma DoOnce_at_most_once_witness :
  (DoOnce exampleContext "bind" (script [OpSetInt 0 "retries"]) 0%nat).2
  = 1%nat
  ∧ DoOnce
      (DoOnce exampleContext "bind" (script [OpSetInt 0 "retries"]) 0%nat).1
      "bind" (script [OpSetInt 9 "retries"])
      (DoOnce exampleContext "bind" (script [OpSetInt 0 "retries"]) 0%nat).2
    = DoOnce exampleContext "bind" (script [OpSetInt 0 "retries"]) 0%nat.
Proof.
  destruct (DoOnce_at_most_once Z Empty_set exampleContext "bind"
              (script [OpSetInt 0 "retries"])
              (script [OpSetInt 9 "retries"]) 0%nat) as [Hfirst Hsecond].
  - vm_compute. discriminate.
  - intros c w'. apply script_keeps_handlers.
  - split; [rewrite Hfirst; reflexivity|exact Hsecond].
Defined.


End stream_context.

(** * Proofs: more on the session manager *)

Module c2s_manager.

Import c2s c2s_spec.

(** ** Local domains *)

Lemma inDomains_elem (ds : list string) (domain : string) :
  inDomains ds domain = true ↔ domain ∈ ds.
Proof.
  induction ds as [|d ds IH]; simpl.
  - split; [done|]. intros Hin. by apply elem_of_nil in Hin.
  - case_bool_decide as Hd.
    + split; [|done]. intros _. subst. by left.
    + rewrite IH. split.
      * intros Hin. by right.
      * intros Hin. apply elem_of_cons in Hin as [->|Hin]; done.
Qed.

(** [IsLocalDomain] holds exactly of the configured domains. *)
Theorem IsLocalDomain_configured (m : Manager) (domain : string) :
  IsLocalDomain m domain = true ↔ domain ∈ Domains (cfg m).
Proof. apply inDomains_elem. Qed.

(** [DefaultLocalDomain] is the first configured domain, and a local
    domain; it stops the program exactly when no domain is configured, and
    then no domain is local. *)
Theorem DefaultLocalDomain_local (m : Manager) :
  (∀ domain, DefaultLocalDomain m = Some domain →
     IsLocalDomain m domain = true ∧ head (Domains (cfg m)) = Some domain)
  ∧ (DefaultLocalDomain m = None ↔ Domains (cfg m) = [])
  ∧ (DefaultLocalDomain m = None → ∀ domain, IsLocalDomain m domain = false).
Proof.
  unfold DefaultLocalDomain, IsLocalDomain.
  destruct (Domains (cfg m)) as [|d ds]; simpl.
  - split; [done|]. done.
  - split; [|done]. intros domain [= ->].
    by rewrite bool_decide_eq_true_2.
Qed.

(** ** RegisterStream *)

(** A stream of a local domain with an id not yet in streams is registered:
    it is then the stream filed under its id, nothing else changes, and
    registering it again fails and changes nothing. *)
Theorem RegisterStream_registers (m : Manager) (s : Stream) :
  IsLocalDomain m (Domain s) = true →
  stms m !! ID s = None →
  ∃ m',
    RegisterStream m s = (None, m')
    ∧ stms m' !! ID s = Some s
    ∧ (∀ id, id ≠ ID s → stms m' !! id = stms m !! id)
    ∧ cfg m' = cfg m ∧ authedStms m' = authedStms m
    ∧ blockLists m' = blockLists m
    ∧ RegisterStream m' s
      = (Some (Errorf ("stream already registered: " +:+ ID s)), m').
Proof.
  intros Hlocal Hfresh. unfold RegisterStream at 1.
  rewrite Hlocal, Hfresh. simpl. eexists. split; [done|]. simpl.
  split; [apply lookup_insert_eq|].
  split; [intros id Hne; by rewrite lookup_insert_ne|].
  repeat split. unfold RegisterStream, IsLocalDomain in *. simpl.
  by rewrite Hlocal, lookup_insert_eq.
Qed.

(** A stream registered and unregistered at once leaves the manager as it
    was, when no authenticated stream of its username holds its resource
    (and the list of that username, if there is one, is not empty). *)
Theorem RegisterStream_UnregisterStream (m : Manager) (s : Stream) :
  IsLocalDomain m (Domain s) = true →
  stms m !! ID s = None →
  (∀ l, authedStms m !! Username s = Some l →
     l ≠ [] ∧ ∀ x, x ∈ l → Resource x ≠ Resource s) →
  ∃ m', RegisterStream m s = (None, m')
        ∧ UnregisterStream m' s = (None, m).
Proof.
  intros Hlocal Hfresh Hauthed. unfold RegisterStream.
  rewrite Hlocal, Hfresh. simpl. eexists. split; [done|].
  unfold UnregisterStream. simpl. rewrite lookup_insert_eq.
  rewrite delete_insert_id by done.
  destruct (authedStms m !! Username s) as [l|] eqn:Hl.
  - destruct (Hauthed l eq_refl) as [Hne Hres].
    assert (removeResource (Resource s) l = l) as ->.
    { clear -Hres. induction l as [|x l IH]; simpl; [done|].
      rewrite bool_decide_eq_false_2.
      - f_equal. apply IH. intros y Hy. apply Hres. by right.
      - intros Heq. apply (Hres x); [by left|done]. }
    destruct l as [|x l]; [done|]. simpl.
    rewrite insert_id by done. by destruct m.
  - by destruct m.
Qed.

(** ** AuthenticateStream *)

Lemma AuthenticateStream_result (m : Manager) (s : Stream) :
  Resource s ≠ "" →
  ∃ m',
    AuthenticateStream m s = (None, m')
    ∧ authedStms m' !! Username s
      = Some (default [] (authedStms m !! Username s) ++ [s])%list
    ∧ (∀ u, u ≠ Username s → authedStms m' !! u = authedStms m !! u)
    ∧ cfg m' = cfg m ∧ stms m' = stms m ∧ blockLists m' = blockLists m.
Proof.
  intros Hres. unfold AuthenticateStream.
  assert ((String.length (Resource s) =? 0)%nat = false) as ->.
  { destruct (Resource s); [done|]. done. }
  eexists. split; [done|]. simpl.
  destruct (authedStms m !! Username s) as [l|]; simpl.
  - split; [apply lookup_insert_eq|].
    split; [intros u Hne; by rewrite lookup_insert_ne|done].
  - split; [apply lookup_insert_eq|].
    split; [intros u Hne; by rewrite lookup_insert_ne|done].
Qed.

(** A stream with a resource is authenticated: it is appended to the list
    of its username, after the streams authenticated before it, and nothing
    else changes. *)
Theorem AuthenticateStream_appends (m : Manager) (s : Stream) :
  Resource s ≠ "" →
  ∃ m',
    AuthenticateStream m s = (None, m')
    ∧ authedStms m' !! Username s
      = Some (default [] (authedStms m !! Username s) ++ [s])%list
    ∧ (∀ u, u ≠ Username s → authedStms m' !! u = authedStms m !! u)
    ∧ cfg m' = cfg m ∧ stms m' = stms m ∧ blockLists m' = blockLists m.
Proof. apply AuthenticateStream_result. Qed.

(** ** What the lifecycle calls keep *)



Lemma call_keeps_cfg (m : Manager) (c : Call) : cfg (call m c).2 = cfg m.
Proof.
  destruct c as [s|s|s]; simpl.
  - unfold RegisterStream. destruct (IsLocalDomain m (Domain s)); [|done].
    by destruct (stms m !! ID s).
  - unfold UnregisterStream. by destruct (stms m !! ID s).
  - unfold AuthenticateStream.
    by destruct (String.length (Resource s) =? 0)%nat.
Qed.

Lemma call_keeps_filed (m : Manager) (c : Call) :
  filed m → filed (call m c).2.
Proof.
  intros [Hst Hau]. split.
  - intros id x. unfold IsLocalDomain. rewrite call_keeps_cfg.
    destruct c as [s|s|s]; simpl.
    + unfold RegisterStream.
      destruct (IsLocalDomain m (Domain s)) eqn:Hlocal; simpl; [|apply Hst].
      destruct (stms m !! ID s) eqn:Hid; simpl; [apply Hst|].
      destruct (decide (id = ID s)) as [->|Hne].
      * rewrite lookup_insert_eq. by intros [= <-].
      * rewrite lookup_insert_ne by done. apply Hst.
    + unfold UnregisterStream.
      destruct (stms m !! ID s) eqn:Hid; simpl; [|apply Hst].
      intros Hx. apply lookup_delete_Some in Hx as [_ Hx]. by apply Hst.
    + unfold AuthenticateStream.
      destruct (String.length (Resource s) =? 0)%nat; apply Hst.
  - intros u l Hl. destruct c as [s|s|s]; simpl in Hl.
    + unfold RegisterStream in Hl.
      destruct (IsLocalDomain m (Domain s)); simpl in Hl; [|by eapply Hau].
      destruct (stms m !! ID s); simpl in Hl; by eapply Hau.
    + unfold UnregisterStream in Hl.
      destruct (stms m !! ID s); simpl in Hl; [|by eapply Hau].
      destruct (authedStms m !! Username s) as [l0|]; [|by eapply Hau].
      destruct (removeResource (Resource s) l0) as [|y l1] eqn:Hrem;
        simpl in Hl.
      * apply lookup_delete_Some in Hl as [_ Hl]. by eapply Hau.
      * destruct (decide (u = Username s)) as [->|Hne].
        -- rewrite lookup_insert_eq in Hl. by injection Hl as <-.
        -- rewrite lookup_insert_ne in Hl by done. by eapply Hau.
    + unfold AuthenticateStream in Hl.
      destruct (String.length (Resource s) =? 0)%nat; simpl in Hl;
        [by eapply Hau|].
      destruct (decide (u = Username s)) as [->|Hne].
      * destruct (authedStms m !! Username s) as [l0|];
          rewrite lookup_insert_eq in Hl; injection Hl as <-;
          [by destruct l0|done].
      * destruct (authedStms m !! Username s) as [l0|];
          rewrite lookup_insert_ne in Hl by done; by eapply Hau.
Qed.

(** In every state that a sequence of lifecycle calls reaches from the
    initial manager, every stream in streams is filed under its own id and
    is of a local domain, and no key of [authed] holds an empty list: the
    key goes when its last stream goes. *)
Theorem lifecycle_keeps_filed (c : Config) (cs : list Call) :
  filed (run (Initialize c) cs).
Proof.
  assert (filed (Initialize c)) as Hinit.
  { split.
    - intros id s Hs. simpl in Hs. by rewrite lookup_empty in Hs.
    - intros u l Hl. simpl in Hl. by rewrite lookup_empty in Hl. }
  revert Hinit. generalize (Initialize c). clear c.
  induction cs as [|c cs IH]; intros m Hm; [done|].
  apply (IH (call m c).2). by apply call_keeps_filed.
Qed.

(** ** The singleton *)

Lemma singletonCall_consistent (g : Singleton) (c : SingletonCall) :
  (initialized g = 0%Z ∧ inst g = None)
  ∨ (initialized g = 1%Z ∧ is_Some (inst g)) →
  (initialized (singletonCall g c) = 0%Z ∧ inst (singletonCall g c) = None)
  ∨ (initialized (singletonCall g c) = 1%Z
     ∧ is_Some (inst (singletonCall g c))).
Proof.
  intros [[Hflag Hinst]|[Hflag Hinst]]; destruct c as [c|]; simpl;
    unfold InitializeSingleton, Shutdown; rewrite Hflag; simpl; eauto.
Qed.

(** Over any sequence of [Initialize] and [Shutdown] calls the flag and the
    instance agree: there is an instance exactly when the flag is 1.  An
    [Initialize] on an initialized singleton keeps the instance there is
    (the new configuration is dropped); [Shutdown] leaves none, so that
    [Instance] stops the program until the next [Initialize], which builds
    a manager with the given configuration and empty maps. *)
Theorem singleton_lifecycle (cs : list SingletonCall) (c : Config) :
  let g := foldl singletonCall NoSingleton cs in
  ((initialized g = 0%Z ∧ Instance g = None)
   ∨ (initialized g = 1%Z ∧ is_Some (Instance g)))
  ∧ (is_Some (Instance g) → InitializeSingleton g c = g)
  ∧ (Instance g = None →
     Instance (InitializeSingleton g c) = Some (Initialize c))
  ∧ Instance (Shutdown g) = None.
Proof.
  intros g.
  assert ((initialized g = 0%Z ∧ inst g = None)
          ∨ (initialized g = 1%Z ∧ is_Some (inst g))) as Hg.
  { unfold g. clear g.
    assert ((initialized NoSingleton = 0%Z ∧ inst NoSingleton = None)
            ∨ (initialized NoSingleton = 1%Z ∧ is_Some (inst NoSingleton)))
      as Hinit by (by left).
    revert Hinit. generalize NoSingleton.
    induction cs as [|c0 cs IH]; intros g Hg; [done|].
    apply (IH (singletonCall g c0)). by apply singletonCall_consistent. }
  split; [exact Hg|]. unfold Instance, InitializeSingleton, Shutdown.
  destruct Hg as [[Hflag Hinst]|[Hflag Hinst]]; rewrite Hflag; simpl.
  - rewrite Hinst. split; [by intros [? ?]|done].
  - split; [done|]. split; [|done]. intros Hnone. rewrite Hnone in Hinst.
    by destruct Hinst.
Qed.


(** ** Recipient resolution *)

Lemma matching_elem (jid : xml.JID) (opts : Z) (l : list Stream)
    (s : Stream) :
  s ∈ matching jid opts l ↔ s ∈ l ∧ xml.Matches (JID s) jid opts = true.
Proof.
  induction l as [|x l IH]; simpl.
  - split; [intros Hin; by apply elem_of_nil in Hin|].
    intros [Hin _]. by apply elem_of_nil in Hin.
  - destruct (xml.Matches (JID x) jid opts) eqn:Hx.
    + rewrite !elem_of_cons, IH. split.
      * intros [->|[Hin Hm]]; auto.
      * intros [[->|Hin] Hm]; auto.
    + rewrite IH, elem_of_cons. split.
      * intros [Hin Hm]; auto.
      * intros [[->|Hin] Hm]; [congruence|auto].
Qed.

Lemma matching_sublist (jid : xml.JID) (opts : Z) (l : list Stream) :
  matching jid opts l `sublist_of` l.
Proof.
  induction l as [|x l IH]; simpl; [done|].
  destruct (xml.Matches (JID x) jid opts).
  - by apply sublist_skip.
  - by apply sublist_cons.
Qed.

Lemma matchingAll_elem (authed : gmap string (list Stream)) (jid : xml.JID)
    (opts : Z) (keys : list string) (s : Stream) :
  s ∈ matchingAll authed jid opts keys
  ↔ ∃ k l, k ∈ keys ∧ authed !! k = Some l ∧ s ∈ l
           ∧ xml.Matches (JID s) jid opts = true.
Proof.
  induction keys as [|k keys IH]; simpl.
  - split; [intros Hin; by apply elem_of_nil in Hin|].
    intros (k & l & Hk & _). by apply elem_of_nil in Hk.
  - rewrite elem_of_app, matching_elem, IH. split.
    + intros [[Hin Hm]|(k' & l & Hk & Hl & Hin & Hm)].
      * destruct (authed !! k) as [l|] eqn:Hl; simpl in Hin;
          [|by apply elem_of_nil in Hin].
        exists k, l. split; [by left|done].
      * exists k', l. split; [by right|done].
    + intros (k' & l & Hk & Hl & Hin & Hm).
      apply elem_of_cons in Hk as [->|Hk].
      * left. by rewrite Hl.
      * right. by exists k', l.
Qed.

Lemma node_given (jid : xml.JID) :
  (0 <? String.length (xml.Node jid))%nat
  = negb (bool_decide (xml.Node jid = "")).
Proof. by destruct (xml.Node jid). Qed.

Lemma Matches_mask (j jid : xml.JID) :
  xml.Matches j jid
    (let opts := xml.JIDMatchesDomain in
     let opts :=
       if xml.IsFull jid then Z.lor opts xml.JIDMatchesResource else opts in
     if negb (bool_decide (xml.Node jid = ""))
     then Z.lor opts xml.JIDMatchesNode else opts) = true
  ↔ xml.Domain j = xml.Domain jid
    ∧ (xml.Node jid ≠ "" → xml.Node j = xml.Node jid)
    ∧ (xml.Resource jid ≠ "" → xml.Resource j = xml.Resource jid).
Proof.
  unfold xml.IsFull, xml.isEmpty, xml.Matches.
  destruct (bool_decide (xml.Resource jid = "")) eqn:Hres;
    destruct (bool_decide (xml.Node jid = "")) eqn:Hnode; simpl;
    [apply bool_decide_eq_true in Hres|apply bool_decide_eq_true in Hres
    |apply bool_decide_eq_false in Hres|apply bool_decide_eq_false in Hres];
    [apply bool_decide_eq_true in Hnode|apply bool_decide_eq_false in Hnode
    |apply bool_decide_eq_true in Hnode|apply bool_decide_eq_false in Hnode];
    repeat case_bool_decide; simpl; intuition congruence.
Qed.

Section Resolution.

Variable rangeKeys : gmap string (list Stream) → list string.

Lemma StreamsMatchingJID_elem (m : Manager) (jid : xml.JID) (s : Stream) :
  s ∈ StreamsMatchingJID rangeKeys m jid
  ↔ IsLocalDomain m (xml.Domain jid) = true
    ∧ (∃ k l, authedStms m !! k = Some l ∧ s ∈ l
              ∧ if bool_decide (xml.Node jid = "")
                then k ∈ rangeKeys (authedStms m)
                else k = xml.Node jid)
    ∧ xml.Domain (JID s) = xml.Domain jid
    ∧ (xml.Node jid ≠ "" → xml.Node (JID s) = xml.Node jid)
    ∧ (xml.Resource jid ≠ "" → xml.Resource (JID s) = xml.Resource jid).
Proof.
  unfold StreamsMatchingJID. rewrite node_given.
  destruct (IsLocalDomain m (xml.Domain jid)); simpl.
  - pose proof (Matches_mask (JID s) jid) as Hmask. simpl in Hmask.
    destruct (bool_decide (xml.Node jid = "")) eqn:Hnode; simpl in *.
    + rewrite matchingAll_elem. rewrite <- Hmask. split.
      * intros (k & l & Hk & Hl & Hin & Hm). split; [done|].
        split; [by exists k, l|done].
      * intros (_ & (k & l & Hl & Hin & Hk) & Hm). by exists k, l.
    + rewrite matching_elem. rewrite <- Hmask. split.
      * intros [Hin Hm]. split; [done|]. split; [|done].
        destruct (authedStms m !! xml.Node jid) as [l|] eqn:Hl;
          simpl in Hin; [|by apply elem_of_nil in Hin].
        by exists (xml.Node jid), l.
      * intros (_ & (k & l & Hl & Hin & ->) & Hm). by rewrite Hl.
  - split; [intros Hin; by apply elem_of_nil in Hin|]. by intros [? _].
Qed.

(** [StreamsMatchingJID] returns exactly the authenticated streams that
    agree with the JID: for a local domain only; among the streams of the
    JID's node when it has one, else among the streams of every user that
    the enumeration of [authed] yields; with the JID's domain, and with
    its resource when it has one.  With a node, the streams come in the
    order of that user's list. *)
Theorem StreamsMatchingJID_exactly (m : Manager) (jid : xml.JID) :
  (∀ s,
     s ∈ StreamsMatchingJID rangeKeys m jid
     ↔ IsLocalDomain m (xml.Domain jid) = true
       ∧ (∃ k l, authedStms m !! k = Some l ∧ s ∈ l
                 ∧ if bool_decide (xml.Node jid = "")
                   then k ∈ rangeKeys (authedStms m)
                   else k = xml.Node jid)
       ∧ xml.Domain (JID s) = xml.Domain jid
       ∧ (xml.Node jid ≠ "" → xml.Node (JID s) = xml.Node jid)
       ∧ (xml.Resource jid ≠ "" → xml.Resource (JID s) = xml.Resource jid))
  ∧ (xml.Node jid ≠ "" →
     StreamsMatchingJID rangeKeys m jid
       `sublist_of` default [] (authedStms m !! xml.Node jid)).
Proof.
  split; [apply StreamsMatchingJID_elem|].
  intros Hnode. unfold StreamsMatchingJID. rewrite node_given.
  rewrite bool_decide_eq_false_2 by done. simpl.
  destruct (IsLocalDomain m (xml.Domain jid)); simpl.
  - apply matching_sublist.
  - apply sublist_nil_l.
Qed.

(** A stream whose JID carries its username and a local domain is found
    once it is authenticated: by its full JID and by its bare JID. *)
Theorem authenticated_stream_found (m : Manager) (s : Stream) :
  Resource s ≠ "" →
  Username s ≠ "" →
  xml.Node (JID s) = Username s →
  IsLocalDomain m (xml.Domain (JID s)) = true →
  s ∈ StreamsMatchingJID rangeKeys (AuthenticateStream m s).2 (JID s)
  ∧ s ∈ StreamsMatchingJID rangeKeys (AuthenticateStream m s).2
          (xml.ToBareJID (JID s)).
Proof.
  intros Hres Huser Hnode Hlocal.
  destruct (AuthenticateStream_result m s Hres)
    as (m' & Hauth & Hlist & _ & Hcfg & _).
  rewrite Hauth. simpl.
  assert (IsLocalDomain m' (xml.Domain (JID s)) = true) as Hlocal'.
  { unfold IsLocalDomain in *. by rewrite Hcfg. }
  assert (s ∈ (default [] (authedStms m !! Username s) ++ [s])%list) as Hin.
  { apply elem_of_app. right. by left. }
  split.
  - apply StreamsMatchingJID_elem.
    split; [done|]. split; [|done].
    eexists _, _. split; [exact Hlist|]. split; [done|].
    rewrite bool_decide_eq_false_2 by congruence. done.
  - apply StreamsMatchingJID_elem.
    simpl. split; [done|]. split; [|done].
    eexists _, _. split; [exact Hlist|]. split; [done|].
    rewrite bool_decide_eq_false_2 by congruence. done.
Qed.

End Resolution.


(** ** The block-list cache *)

Section Cache.

Context {St : Type} `{!storage.Storage St}.
Variable NewJIDString : string → xml.JID.
Variable rangeKeys : gmap string (list Stream) → list string.

Lemma IsBlockedJID_cached (m : Manager) (jid : xml.JID) (username : string)
    (bl : list xml.JID) (st : St) :
  blockLists m !! username = Some bl →
  IsBlockedJID NewJIDString m jid username st
  = ((anyBlocked jid bl, m), st, []).
Proof.
  intros Hbl. unfold IsBlockedJID, getBlockList, mbind, Eff_bind.
  by rewrite Hbl.
Qed.

Lemma IsBlockedJID_loaded (m : Manager) (jid : xml.JID) (username : string)
    (st : St) :
  blockLists m !! username = None →
  IsBlockedJID NewJIDString m jid username st
  = match storage.FetchBlockListItems username st with
    | ((blItms, None), st') =>
        let bl := (λ blItm, NewJIDString (storage.JID blItm)) <$> blItms in
        ((anyBlocked jid bl,
          {| cfg := cfg m; stms := stms m; authedStms := authedStms m;
             blockLists := <[username := bl]> (blockLists m) |}),
         st', [CallFetchBlockListItems username])
    | ((_, Some _), st') =>
        ((false, m), st', [CallFetchBlockListItems username])
    end.
Proof.
  intros Hbl.
  unfold IsBlockedJID, getBlockList, mbind, Eff_bind, fetchBlockListItems.
  rewrite Hbl.
  by destruct (storage.FetchBlockListItems username st)
    as [[blItms [err|]] st'].
Qed.

(** The block list is loaded once: when a first [IsBlockedJID] for a user
    finds nothing cached and storage answers, the parsed list is cached
    under the user and nothing else changes; every later [IsBlockedJID]
    for that user, on that manager, calls no storage and judges by the
    cached list, whatever storage holds by then. *)
Theorem IsBlockedJID_loads_once (m : Manager) (jid : xml.JID)
    (username : string) (st st' : St)
    (blItms : list storage.BlockListItem) :
  blockLists m !! username = None →
  storage.FetchBlockListItems username st = ((blItms, None), st') →
  let bl := (λ blItm, NewJIDString (storage.JID blItm)) <$> blItms in
  ∃ m',
    IsBlockedJID NewJIDString m jid username st
    = ((anyBlocked jid bl, m'), st', [CallFetchBlockListItems username])
    ∧ blockLists m' !! username = Some bl
    ∧ (∀ u, u ≠ username → blockLists m' !! u = blockLists m !! u)
    ∧ sameButBlockLists m m'
    ∧ ∀ (jid2 : xml.JID) (st2 : St),
        IsBlockedJID NewJIDString m' jid2 username st2
        = ((anyBlocked jid2 bl, m'), st2, []).
Proof.
  intros Hnone Hfetch bl. rewrite IsBlockedJID_loaded, Hfetch by done.
  eexists. split; [done|]. simpl.
  split; [apply lookup_insert_eq|].
  split; [intros u Hne; by rewrite lookup_insert_ne|].
  split; [done|]. intros jid2 st2.
  apply IsBlockedJID_cached. simpl. apply lookup_insert_eq.
Qed.

(** When storage fails, nobody is blocked and nothing is cached: the next
    [IsBlockedJID] asks storage again. *)
Theorem IsBlockedJID_storage_failure (m : Manager) (jid : xml.JID)
    (username : string) (st st' : St)
    (blItms : list storage.BlockListItem) (err : error) :
  blockLists m !! username = None →
  storage.FetchBlockListItems username st = ((blItms, Some err), st') →
  IsBlockedJID NewJIDString m jid username st
  = ((false, m), st', [CallFetchBlockListItems username])
  ∧ ∀ (jid2 : xml.JID) (st2 : St),
      (IsBlockedJID NewJIDString m jid2 username st2).2
      = [CallFetchBlockListItems username].
Proof.
  intros Hnone Hfetch. rewrite IsBlockedJID_loaded, Hfetch by done.
  split; [done|]. intros jid2 st2. rewrite IsBlockedJID_loaded by done.
  by destruct (storage.FetchBlockListItems username st2)
    as [[blItms2 [err2|]] st2'].
Qed.

(** [ReloadBlockList] forgets the list of one user and nothing else; the
    next [IsBlockedJID] for that user asks storage and judges by the list
    stored then, and the cached lists of the other users are the ones used
    before. *)
Theorem ReloadBlockList_reloads (m : Manager) (username : string)
    (jid : xml.JID) (st : St) :
  sameButBlockLists m (ReloadBlockList m username)
  ∧ blockLists (ReloadBlockList m username) !! username = None
  ∧ (∀ u, u ≠ username →
       blockLists (ReloadBlockList m username) !! u = blockLists m !! u)
  ∧ (IsBlockedJID NewJIDString (ReloadBlockList m username) jid username
       st).2 = [CallFetchBlockListItems username]
  ∧ (IsBlockedJID NewJIDString (ReloadBlockList m username) jid username
       st).1.1.1
    = match (storage.FetchBlockListItems username st).1 with
      | (blItms, None) =>
          anyBlocked jid
            ((λ blItm, NewJIDString (storage.JID blItm)) <$> blItms)
      | (_, Some _) => false
      end
  ∧ (∀ u jid2 st2, u ≠ username →
       (IsBlockedJID NewJIDString (ReloadBlockList m username) jid2 u
          st2).1.1.1
       = (IsBlockedJID NewJIDString m jid2 u st2).1.1.1).
Proof.
  assert (blockLists (ReloadBlockList m username) !! username = None)
    as Hnone by apply lookup_delete_eq.
  assert (∀ u, u ≠ username →
            blockLists (ReloadBlockList m username) !! u = blockLists m !! u)
    as Hother by (intros u Hne; by apply lookup_delete_ne).
  split; [done|]. split; [done|]. split; [done|].
  split; [|split].
  - rewrite IsBlockedJID_loaded by done.
    by destruct (storage.FetchBlockListItems username st)
      as [[blItms [err|]] st'].
  - rewrite IsBlockedJID_loaded by done.
    by destruct (storage.FetchBlockListItems username st)
      as [[blItms [err|]] st'].
  - intros u jid2 st2 Hne. specialize (Hother u Hne).
    destruct (blockLists m !! u) as [bl|] eqn:Hbl.
    + rewrite (IsBlockedJID_cached (ReloadBlockList m username) jid2 u bl)
        by congruence.
      by rewrite (IsBlockedJID_cached m jid2 u bl).
    + rewrite !IsBlockedJID_loaded by congruence.
      by destruct (storage.FetchBlockListItems u st2)
        as [[blItms [err|]] st'].
Qed.

End Cache.


(** ** Routing *)

Lemma sends_app (evs1 evs2 : list Event) :
  sends (evs1 ++ evs2) = (sends evs1 ++ sends evs2)%list.
Proof.
  induction evs1 as [|[] evs1 IH]; simpl; try done. by rewrite IH.
Qed.

Lemma storageCalls_app (evs1 evs2 : list Event) :
  storageCalls (evs1 ++ evs2)
  = (storageCalls evs1 ++ storageCalls evs2)%list.
Proof.
  induction evs1 as [|[] evs1 IH]; simpl; try done; by rewrite IH.
Qed.

Section Routes.

Context {St : Type} `{!storage.Storage St}.
Variable NewJIDString : string → xml.JID.
Variable rangeKeys : gmap string (list Stream) → list string.

Lemma blockStep_footprint (m : Manager) (elem : xml.Stanza)
    (ignoreBlocking : bool) (st : St) :
  ∃ blocked m' st' evs,
    blockStep NewJIDString m elem ignoreBlocking st
      = ((blocked, m'), st', evs)
    ∧ sameButBlockLists m m'
    ∧ (∀ u, u ≠ xml.Node (xml.ToJID elem) →
         blockLists m' !! u = blockLists m !! u)
    ∧ (evs = [] ∨ evs = [CallFetchBlockListItems (xml.Node (xml.ToJID elem))])
    ∧ (ignoreBlocking = true → blocked = false ∧ m' = m ∧ evs = []).
Proof.
  unfold blockStep.
  destruct ignoreBlocking; simpl.
  { exists false, m, st, []. split; [done|]. split; [done|].
    split; [done|]. split; [by left|done]. }
  destruct (negb (xml.IsServer (xml.ToJID elem))).
  2: { exists false, m, st, []. split; [done|]. split; [done|].
       split; [done|]. split; [by left|done]. }
  destruct (blockLists m !! xml.Node (xml.ToJID elem)) as [bl|] eqn:Hbl.
  - rewrite (IsBlockedJID_cached _ _ _ _ bl) by done.
    eexists _, _, _, _. split; [done|]. split; [done|]. split; [done|].
    split; [by left|done].
  - rewrite IsBlockedJID_loaded by done.
    destruct (storage.FetchBlockListItems (xml.Node (xml.ToJID elem)) st)
      as [[blItms [err|]] st'].
    + eexists _, _, _, _. split; [done|]. split; [done|]. split; [done|].
      split; [by right|done].
    + eexists _, _, _, _. split; [done|]. split; [done|].
      split; [intros u Hne; simpl; by rewrite lookup_insert_ne|].
      split; [by right|done].
Qed.

Lemma deliver_calls (m : Manager) (elem : xml.Stanza) (st : St) :
  storageCalls (deliver rangeKeys m elem st).2 = []
  ∨ storageCalls (deliver rangeKeys m elem st).2
    = [CallUserExists (xml.Node (xml.ToJID elem))].
Proof.
  destruct (StreamsMatchingJID rangeKeys m (xml.ToBareJID (xml.ToJID elem)))
    as [|rcp0 rcps'] eqn:Hrcps.
  - rewrite c2s_routing.deliver_no_recipient by done. by right.
  - destruct (c2s_routing.deliver_recipients rangeKeys m elem st rcp0 rcps'
                Hrcps) as (r & evs & -> & Hcalls & _). by left.
Qed.

Lemma deliver_sends_within (m : Manager) (elem : xml.Stanza) (st : St)
    (stm : Stream) (element : xml.XElement) :
  (stm, element) ∈ sends (deliver rangeKeys m elem st).2 →
  stm ∈ StreamsMatchingJID rangeKeys m (xml.ToBareJID (xml.ToJID elem))
  ∧ element = xml.StanzaElement elem.
Proof.
  destruct (StreamsMatchingJID rangeKeys m (xml.ToBareJID (xml.ToJID elem)))
    as [|rcp0 rcps'] eqn:Hrcps.
  - rewrite c2s_routing.deliver_no_recipient by done. simpl.
    intros Hin. by apply elem_of_nil in Hin.
  - destruct (c2s_routing.deliver_recipients rangeKeys m elem st rcp0 rcps'
                Hrcps) as (r & evs & -> & Hcalls & Hcase). simpl.
    destruct (xml.IsFullWithUser (xml.ToJID elem)).
    + destruct Hcase as [(_ & -> & _)|(rcp & _ & Hin & _ & ->)]; simpl.
      * intros Hs. by apply elem_of_nil in Hs.
      * intros Hs. apply list_elem_of_singleton in Hs.
        by injection Hs as -> ->.
    + destruct Hcase as [_ ->]. destruct (xml.Kind elem).
      * intros Hs. apply list_elem_of_singleton in Hs.
        injection Hs as -> ->. split; [|done].
        apply c2s_routing.highestPriorityStream_elem.
      * intros Hs. by apply list_elem_of_fmap in Hs as (x & [= -> ->] & Hx).
      * intros Hs. by apply list_elem_of_fmap in Hs as (x & [= -> ->] & Hx).
Qed.

(** A stanza for a domain that is not local is none of the router's
    business: [route] returns nil, calls nothing and changes nothing. *)
Theorem route_foreign_domain (m : Manager) (elem : xml.Stanza)
    (ignoreBlocking : bool) (st : St) :
  IsLocalDomain m (xml.Domain (xml.ToJID elem)) = false →
  route NewJIDString rangeKeys m elem ignoreBlocking st = ((None, m), st, []).
Proof. intros Hlocal. unfold route. by rewrite Hlocal. Qed.

(** Whatever the stanza, [route] hands to [SendElement] the stanza itself
    and nothing else, and only on streams that [StreamsMatchingJID]
    returns for the bare to-JID. *)
Theorem route_sends_to_recipients_only (m : Manager) (elem : xml.Stanza)
    (ignoreBlocking : bool) (st : St) (stm : Stream)
    (element : xml.XElement) :
  (stm, element)
    ∈ sends (route NewJIDString rangeKeys m elem ignoreBlocking st).2 →
  stm ∈ StreamsMatchingJID rangeKeys m (xml.ToBareJID (xml.ToJID elem))
  ∧ element = xml.StanzaElement elem.
Proof.
  rewrite c2s_routing.route_steps.
  destruct (IsLocalDomain m (xml.Domain (xml.ToJID elem))); simpl;
    [|intros Hin; by apply elem_of_nil in Hin].
  destruct (c2s_routing.blockStep_result NewJIDString m elem ignoreBlocking
              st) as (m1 & evs1 & -> & Hsame & Hsends1 & _).
  destruct (_ && _).
  - simpl. rewrite app_nil_r, Hsends1. intros Hin.
    by apply elem_of_nil in Hin.
  - pose proof (deliver_sends_within m1 elem
                  (storageAfterBlockStep m elem ignoreBlocking st)
                  stm element) as Hdeliver.
    destruct (deliver rangeKeys m1 elem _) as [[r st2] evs2]. simpl in *.
    rewrite sends_app, Hsends1. simpl.
    by rewrite (c2s_routing.StreamsMatchingJID_same rangeKeys m m1).
Qed.

(** The footprint of [route]: of the manager it changes the cached block
    list of the addressee at most; of storage it calls
    [FetchBlockListItems] and [UserExists] for the addressee at most, each
    at most once and in this order; [MustRoute] changes nothing in the
    manager and never calls [FetchBlockListItems]. *)
Theorem route_footprint (m : Manager) (elem : xml.Stanza)
    (ignoreBlocking : bool) (st : St) :
  let result := route NewJIDString rangeKeys m elem ignoreBlocking st in
  sameButBlockLists m result.1.1.2
  ∧ (∀ u, u ≠ xml.Node (xml.ToJID elem) →
       blockLists result.1.1.2 !! u = blockLists m !! u)
  ∧ storageCalls result.2
      `sublist_of` [CallFetchBlockListItems (xml.Node (xml.ToJID elem));
                    CallUserExists (xml.Node (xml.ToJID elem))]
  ∧ (ignoreBlocking = true →
     result.1.1.2 = m
     ∧ storageCalls result.2
         `sublist_of` [CallUserExists (xml.Node (xml.ToJID elem))]).
Proof.
  simpl. rewrite c2s_routing.route_steps.
  destruct (IsLocalDomain m (xml.Domain (xml.ToJID elem))); simpl.
  - destruct (blockStep_footprint m elem ignoreBlocking st)
      as (blocked & m1 & st1 & evs1 & -> & Hsame & Hother & Hevs1 & Hmust).
    assert (∃ r st2 evs2,
      (if blocked
       then ((Some ErrBlockedJID, m1), st1, (evs1 ++ [])%list)
       else let '(r, st2, evs2) := deliver rangeKeys m1 elem st1 in
            ((r, m1), st2, (evs1 ++ evs2)%list))
      = ((r, m1), st2, (evs1 ++ evs2)%list)
      ∧ (storageCalls evs2 = []
         ∨ storageCalls evs2 = [CallUserExists (xml.Node (xml.ToJID elem))]))
      as (r & st2 & evs2 & -> & Hevs2).
    { destruct blocked.
      - eexists _, _, []. split; [done|]. by left.
      - pose proof (deliver_calls m1 elem st1) as Hc.
        destruct (deliver rangeKeys m1 elem st1) as [[r st2] evs2].
        by eexists _, _, _. }
    simpl. split; [done|]. split; [done|]. rewrite storageCalls_app.
    split.
    + destruct Hevs1 as [-> | ->]; destruct Hevs2 as [-> | ->]; simpl.
      * apply sublist_nil_l.
      * apply sublist_cons. done.
      * apply sublist_skip. apply sublist_nil_l.
      * done.
    + intros Hib. destruct (Hmust Hib) as (_ & -> & ->). split; [done|].
      simpl. destruct Hevs2 as [-> | ->]; [apply sublist_nil_l|done].
  - split; [done|]. split; [done|]. split; [apply sublist_nil_l|].
    intros _. split; [done|]. apply sublist_nil_l.
Qed.


Lemma sendToResource_first (elem : xml.Stanza) (res : string)
    (l1 l2 : list Stream) (rcp : Stream) (st : St) :
  Resource rcp = res → (∀ y, y ∈ l1 → Resource y ≠ res) →
  sendToResource elem res (l1 ++ rcp :: l2) st
  = (None, st, [SendElement rcp (xml.StanzaElement elem)]).
Proof.
  intros Hres Hl1. induction l1 as [|y l1 IH]; simpl.
  - by rewrite bool_decide_eq_true_2.
  - rewrite bool_decide_eq_false_2 by (apply Hl1; by left).
    apply IH. intros z Hz. apply Hl1. by right.
Qed.

Lemma sendToResource_none (elem : xml.Stanza) (res : string)
    (rcps : list Stream) (st : St) :
  (∀ y, y ∈ rcps → Resource y ≠ res) →
  sendToResource elem res rcps st = (Some ErrResourceNotFound, st, []).
Proof.
  intros Hnone. induction rcps as [|y rcps IH]; simpl; [done|].
  rewrite bool_decide_eq_false_2 by (apply Hnone; by left).
  apply IH. intros z Hz. apply Hnone. by right.
Qed.

(** A stanza to a full JID with a node, that the block-list check lets
    through, and for whose user there are recipients: it is sent once, to
    the first recipient that has the resource, and to nobody else; when no
    recipient has the resource, nothing is sent and the result is
    [ErrResourceNotFound].  The kind of the stanza plays no part. *)
Theorem route_full_JID_first_resource (m : Manager) (elem : xml.Stanza)
    (ignoreBlocking : bool) (st : St) (rcps : list Stream) :
  xml.IsFullWithUser (xml.ToJID elem) = true →
  StreamsMatchingJID rangeKeys m (xml.ToBareJID (xml.ToJID elem)) = rcps →
  rcps ≠ [] →
  ignoreBlocking = true ∨ ¬ senderBlocked NewJIDString m elem st →
  let result := route NewJIDString rangeKeys m elem ignoreBlocking st in
  (∀ l1 rcp l2,
     rcps = (l1 ++ rcp :: l2)%list →
     Resource rcp = xml.Resource (xml.ToJID elem) →
     (∀ y, y ∈ l1 → Resource y ≠ xml.Resource (xml.ToJID elem)) →
     result.1.1.1 = None
     ∧ sends result.2 = [(rcp, xml.StanzaElement elem)])
  ∧ ((∀ y, y ∈ rcps → Resource y ≠ xml.Resource (xml.ToJID elem)) →
     result.1.1.1 = Some ErrResourceNotFound ∧ sends result.2 = []).
Proof.
  intros Hfull Hrcps Hne Hpass. simpl.
  assert (IsLocalDomain m (xml.Domain (xml.ToJID elem)) = true) as Hlocal.
  { apply (c2s_routing.StreamsMatchingJID_local rangeKeys m
             (xml.ToBareJID (xml.ToJID elem))). by rewrite Hrcps. }
  destruct (c2s_routing.blockStep_passes NewJIDString m elem ignoreBlocking
              st) as (m1 & evs1 & Hstep & Hsame & Hsends1).
  { destruct Hpass; auto. }
  rewrite c2s_routing.route_steps, Hlocal, Hstep. simpl.
  assert (deliver rangeKeys m1 elem
            (storageAfterBlockStep m elem ignoreBlocking st)
          = sendToResource elem (xml.Resource (xml.ToJID elem)) rcps
              (storageAfterBlockStep m elem ignoreBlocking st)) as ->.
  { unfold deliver.
    rewrite <- (c2s_routing.StreamsMatchingJID_same rangeKeys m m1 _ Hsame).
    rewrite Hrcps, Hfull. by destruct rcps. }
  split.
  - intros l1 rcp l2 -> Hres Hl1.
    rewrite sendToResource_first by done. simpl.
    by rewrite sends_app, Hsends1.
  - intros Hnone. rewrite sendToResource_none by done. simpl.
    by rewrite sends_app, Hsends1.
Qed.

(** A stanza that is no message, to a bare or server-addressed JID, that
    the block-list check lets through, goes to every recipient once, in
    the order of [StreamsMatchingJID]. *)
Theorem route_broadcasts (m : Manager) (elem : xml.Stanza)
    (ignoreBlocking : bool) (st : St) (rcps : list Stream) :
  xml.Kind elem ≠ xml.Message →
  xml.IsFullWithUser (xml.ToJID elem) = false →
  StreamsMatchingJID rangeKeys m (xml.ToBareJID (xml.ToJID elem)) = rcps →
  rcps ≠ [] →
  ignoreBlocking = true ∨ xml.IsServer (xml.ToJID elem) = true
  ∨ ¬ senderBlocked NewJIDString m elem st →
  let result := route NewJIDString rangeKeys m elem ignoreBlocking st in
  result.1.1.1 = None
  ∧ sends result.2 = (λ stm, (stm, xml.StanzaElement elem)) <$> rcps
  ∧ result.1.2 = storageAfterBlockStep m elem ignoreBlocking st.
Proof.
  intros Hkind Hfull Hrcps Hne Hpass. simpl.
  assert (IsLocalDomain m (xml.Domain (xml.ToJID elem)) = true) as Hlocal.
  { apply (c2s_routing.StreamsMatchingJID_local rangeKeys m
             (xml.ToBareJID (xml.ToJID elem))). by rewrite Hrcps. }
  destruct (c2s_routing.blockStep_passes NewJIDString m elem ignoreBlocking
              st Hpass) as (m1 & evs1 & Hstep & Hsame & Hsends1).
  rewrite c2s_routing.route_steps, Hlocal, Hstep. simpl.
  destruct rcps as [|rcp0 rcps']; [done|].
  destruct (c2s_routing.deliver_recipients rangeKeys m1 elem
              (storageAfterBlockStep m elem ignoreBlocking st) rcp0 rcps')
    as (r & evs & -> & _ & Hcase).
  { by rewrite <- (c2s_routing.StreamsMatchingJID_same rangeKeys m m1 _
                     Hsame). }
  rewrite Hfull in Hcase. destruct Hcase as [-> Hsends]. simpl.
  rewrite sends_app, Hsends1, Hsends. simpl.
  by destruct (xml.Kind elem).
Qed.


(** [Route] is the block-list check followed by [MustRoute]: for a local
    to-JID and a sender that the check lets through, [Route] returns and
    sends what [MustRoute] does on the storage as the check left it, and
    leaves the storage that [MustRoute] leaves. *)
Theorem Route_is_check_then_MustRoute (m : Manager) (elem : xml.Stanza)
    (st : St) :
  IsLocalDomain m (xml.Domain (xml.ToJID elem)) = true →
  xml.IsServer (xml.ToJID elem) = true
  ∨ ¬ senderBlocked NewJIDString m elem st →
  let checked := storageAfterBlockStep m elem false st in
  (Route NewJIDString rangeKeys m elem st).1.1.1
  = (MustRoute NewJIDString rangeKeys m elem checked).1.1.1
  ∧ sends (Route NewJIDString rangeKeys m elem st).2
    = sends (MustRoute NewJIDString rangeKeys m elem checked).2
  ∧ (Route NewJIDString rangeKeys m elem st).1.2
    = (MustRoute NewJIDString rangeKeys m elem checked).1.2.
Proof.
  intros Hlocal Hpass. simpl.
  destruct (c2s_routing.blockStep_passes NewJIDString m elem false st)
    as (m1 & evs1 & Hstep & Hsame & Hsends1); [auto|].
  unfold Route, MustRoute.
  rewrite !c2s_routing.route_steps, Hlocal, Hstep. simpl.
  rewrite (c2s_routing.deliver_same rangeKeys m1 m)
    by (unfold sameButBlockLists in *; intuition congruence).
  destruct (deliver rangeKeys m elem _) as [[r st2] evs2]. simpl.
  by rewrite sends_app, Hsends1.
Qed.

End Routes.


(** ** Examples *)

Lemma DefaultLocalDomain_local_witness :
  IsLocalDomain (online [phone]) "example.org" = true.
Proof.
  apply (proj1 (DefaultLocalDomain_local (online [phone])) "example.org").
  reflexivity.
Defined.

Lemma RegisterStream_registers_witness :
  ∃ m', RegisterStream (Initialize exampleConfig) phone = (None, m')
        ∧ stms m' !! "stream-1" = Some phone.
Proof.
  destruct (RegisterStream_registers (Initialize exampleConfig) phone)
    as (m' & Hreg & Hlookup & _); [reflexivity|reflexivity|].
  exists m'. split; [exact Hreg|exact Hlookup].
Defined.

Lemma RegisterStream_UnregisterStream_witness :
  ∃ m', RegisterStream (online [laptop]) phone = (None, m')
        ∧ UnregisterStream m' phone = (None, online [laptop]).
Proof.
  apply (RegisterStream_UnregisterStream (online [laptop]) phone).
  - reflexivity.
  - reflexivity.
  - intros l Hl. vm_compute in Hl. injection Hl as <-. split; [done|].
    intros x Hx. apply list_elem_of_singleton in Hx as ->. discriminate.
Defined.

Lemma AuthenticateStream_appends_witness :
  ∃ m', AuthenticateStream (online [laptop]) phone = (None, m')
        ∧ authedStms m' !! "alice" = Some [laptop; phone].
Proof.
  destruct (AuthenticateStream_appends (online [laptop]) phone)
    as (m' & Hauth & Hlist & _); [discriminate|].
  exists m'. split; [exact Hauth|exact Hlist].
Defined.

Lemma singleton_lifecycle_witness :
  InitializeSingleton
    (foldl singletonCall NoSingleton [CallInitialize exampleConfig])
    {| Domains := ["example.net"] |}
  = foldl singletonCall NoSingleton [CallInitialize exampleConfig].
Proof.
  apply (proj1 (proj2 (singleton_lifecycle [CallInitialize exampleConfig]
                         {| Domains := ["example.net"] |}))).
  eexists. reflexivity.
Defined.

Lemma StreamsMatchingJID_exactly_witness :
  StreamsMatchingJID keysOf (online [phone; laptop]) alicePhone
    `sublist_of` [phone; laptop].
Proof.
  apply (proj2 (StreamsMatchingJID_exactly keysOf (online [phone; laptop])
                  alicePhone)).
  discriminate.
Defined.

Lemma authenticated_stream_found_witness :
  phone ∈ StreamsMatchingJID keysOf
            (AuthenticateStream (online [laptop]) phone).2 alicePhone
  ∧ phone ∈ StreamsMatchingJID keysOf
              (AuthenticateStream (online [laptop]) phone).2 aliceBare.
Proof.
  apply (authenticated_stream_found keysOf (online [laptop]) phone);
    [discriminate|discriminate|reflexivity|reflexivity].
Defined.

Lemma IsBlockedJID_loads_once_witness :
  ∃ m',
    IsBlockedJID parseBare (online [phone]) bob "alice" aliceBlocksBob
    = ((true, m'), aliceBlocksBob, [CallFetchBlockListItems "alice"])
    ∧ IsBlockedJID parseBare m' bob "alice" aliceOnly
      = ((true, m'), aliceOnly, []).
Proof.
  destruct (IsBlockedJID_loads_once parseBare (online [phone]) bob "alice"
              aliceBlocksBob aliceBlocksBob
              [{| storage.Owner := "alice";
                  storage.JID := "bob@example.org" |}])
    as (m' & Hfirst & _ & _ & _ & Hlater); [reflexivity|reflexivity|].
  exists m'. split; [exact Hfirst|]. exact (Hlater bob aliceOnly).
Defined.

Lemma IsBlockedJID_storage_failure_witness :
  IsBlockedJID parseBare (online [phone]) bob "alice" Down
  = ((false, online [phone]), Down, [CallFetchBlockListItems "alice"]).
Proof.
  apply (IsBlockedJID_storage_failure parseBare (online [phone]) bob
           "alice" Down Down [] storageDown); reflexivity.
Defined.

Lemma ReloadBlockList_reloads_witness :
  blockLists
    (ReloadBlockList
       (IsBlockedJID parseBare (online [phone]) bob "alice"
          aliceBlocksBob).1.1.2 "carol") !! "alice"
  = Some [xml.NewJID "bob" "example.org" ""].
Proof.
  destruct (ReloadBlockList_reloads parseBare
              (IsBlockedJID parseBare (online [phone]) bob "alice"
                 aliceBlocksBob).1.1.2 "carol" bob aliceBlocksBob)
    as (_ & _ & Hother & _).
  rewrite Hother by discriminate. reflexivity.
Defined.

Lemma route_foreign_domain_witness :
  route parseBare keysOf (online [phone]) (message bob dave) false
    aliceBlocksBob
  = ((None, online [phone]), aliceBlocksBob, []).
Proof.
  apply (route_foreign_domain parseBare keysOf (online [phone])
           (message bob dave) false aliceBlocksBob).
  reflexivity.
Defined.

Lemma route_sends_to_recipients_only_witness :
  laptop ∈ StreamsMatchingJID keysOf (online [phone; laptop])
             (xml.ToBareJID aliceBare).
Proof.
  apply (route_sends_to_recipients_only parseBare keysOf
           (online [phone; laptop]) (message carol aliceBare) false aliceOnly
           laptop (xml.StanzaElement (message carol aliceBare))).
  apply list_elem_of_singleton. reflexivity.
Defined.

Lemma route_footprint_witness :
  (route parseBare keysOf (online [phone]) (message bob aliceBare) true
     aliceBlocksBob).1.1.2 = online [phone].
Proof.
  apply (proj2 (proj2 (proj2
    (route_footprint parseBare keysOf (online [phone])
       (message bob aliceBare) true aliceBlocksBob)))).
  reflexivity.
Defined.

Lemma route_full_JID_first_resource_witness :
  (route parseBare keysOf (online [laptop; phone])
     (stanza xml.IQStanza carol alicePhone) true aliceOnly).1.1.1 = None
  ∧ sends (route parseBare keysOf (online [laptop; phone])
             (stanza xml.IQStanza carol alicePhone) true aliceOnly).2
    = [(phone, xml.StanzaElement (stanza xml.IQStanza carol alicePhone))].
Proof.
  apply (proj1 (route_full_JID_first_resource parseBare keysOf (online [laptop; phone])
                  (stanza xml.IQStanza carol alicePhone) true aliceOnly
                  [laptop; phone] eq_refl eq_refl ltac:(discriminate)
                  (or_introl eq_refl)) [laptop] phone []).
  - reflexivity.
  - reflexivity.
  - intros y Hy. apply list_elem_of_singleton in Hy as ->. discriminate.
Defined.

Lemma route_broadcasts_witness :
  sends (route parseBare keysOf (online [phone; laptop])
           (stanza xml.PresenceStanza carol aliceBare) true aliceOnly).2
  = [(phone, xml.StanzaElement (stanza xml.PresenceStanza carol aliceBare));
     (laptop, xml.StanzaElement (stanza xml.PresenceStanza carol aliceBare))].
Proof.
  apply (route_broadcasts parseBare keysOf (online [phone; laptop])
           (stanza xml.PresenceStanza carol aliceBare) true aliceOnly
           [phone; laptop]).
  - discriminate.
  - reflexivity.
  - reflexivity.
  - discriminate.
  - left. reflexivity.
Defined.


Lemma Route_is_check_then_MustRoute_witness :
  sends (Route parseBare keysOf (online [phone; laptop])
           (message carol aliceBare) aliceBlocksBob).2
  = sends (MustRoute parseBare keysOf (online [phone; laptop])
             (message carol aliceBare) aliceBlocksBob).2.
Proof.
  destruct (Route_is_check_then_MustRoute parseBare keysOf
              (online [phone; laptop]) (message carol aliceBare)
              aliceBlocksBob) as (_ & Hsends & _).
  - reflexivity.
  - right. apply c2s_routing.carol_not_blocked. reflexivity.
  - exact Hsends.
Defined.

End c2s_manager.

(** * Proofs: more on in-band registration *)

Module xep0077_replies.

Import xep0077 xep0077_spec.

Section Replies.

Context {St : Type} `{!storage.Storage St}.

(** ** Every function of the handler sends one reply *)

Lemma sendRegistrationFields_result (x : XEPRegister) (iq : xml.IQ)
    (query : xml.Element) (st : St) :
  sendRegistrationFields x iq query st
  = (tt, st,
     [c2s.SendElement (stm x)
        (if xml.Elements query is [] then xml.ResultIQ iq [registrationFields]
         else xml.ErrorIQ iq xml.BadRequest)]).
Proof.
  unfold sendRegistrationFields, reply, c2s.sendElement.
  by destruct (xml.Elements query).
Qed.

Lemma cancelRegistration_result (x : XEPRegister) (iq : xml.IQ)
    (query : xml.Element) (st : St) :
  cancelRegistration x iq query st
  = if negb (AllowCancel (cfg x)) then
      (tt, st, [c2s.SendElement (stm x) (xml.ErrorIQ iq xml.NotAllowed)])
    else if (1 <? length (xml.Elements query))%nat then
      (tt, st, [c2s.SendElement (stm x) (xml.ErrorIQ iq xml.BadRequest)])
    else
      let deletion := storage.DeleteUser (c2s.Username (stm x)) st in
      (tt, deletion.2,
       [c2s.CallDeleteUser (c2s.Username (stm x));
        c2s.SendElement (stm x)
          (if deletion.1 is Some _
           then xml.ErrorIQ iq xml.InternalServerError
           else xml.ResultIQ iq [])]).
Proof.
  unfold cancelRegistration, reply, c2s.sendElement, mbind, c2s.Eff_bind,
    c2s.deleteUser.
  destruct (AllowCancel (cfg x)); simpl; [|done].
  destruct (1 <? length (xml.Elements query))%nat; [done|].
  by destruct (storage.DeleteUser (c2s.Username (stm x)) st) as [[err|] st'].
Qed.

Lemma changePassword_secured (x : XEPRegister) (password username : string)
    (iq : xml.IQ) (st : St) :
  AllowChange (cfg x) = true → username = c2s.Username (stm x) →
  c2s.IsSecured (stm x) = true →
  let answer := storage.FetchUser username st in
  changePassword x password username iq st
  = match answer.1 with
    | (_, Some _) =>
        (tt, answer.2,
         [c2s.CallFetchUser username;
          c2s.SendElement (stm x) (xml.ErrorIQ iq xml.InternalServerError)])
    | (None, None) =>
        (tt, answer.2,
         [c2s.CallFetchUser username;
          c2s.SendElement (stm x) (xml.ResultIQ iq [])])
    | (Some user, None) =>
        if bool_decide (storage.Password user = password) then
          (tt, answer.2,
           [c2s.CallFetchUser username;
            c2s.SendElement (stm x) (xml.ResultIQ iq [])])
        else
          let changed := {| storage.Username := storage.Username user;
                            storage.Password := password |} in
          let insertion := storage.InsertOrUpdateUser changed answer.2 in
          (tt, insertion.2,
           [c2s.CallFetchUser username; c2s.CallInsertOrUpdateUser changed;
            c2s.SendElement (stm x)
              (if insertion.1 is Some _
               then xml.ErrorIQ iq xml.InternalServerError
               else xml.ResultIQ iq [])])
    end.
Proof.
  intros Hallow Huser Hsecured. simpl.
  unfold changePassword, reply, c2s.sendElement, mbind, c2s.Eff_bind,
    c2s.fetchUser, c2s.insertOrUpdateUser.
  rewrite Hallow, Hsecured, (bool_decide_eq_true_2 _ Huser). simpl.
  destruct (storage.FetchUser username st) as [[[user|] [err|]] st1];
    simpl; try done.
  destruct (bool_decide (storage.Password user = password)); simpl; [done|].
  by destruct (storage.InsertOrUpdateUser _ st1) as [[err|] st2].
Qed.


Ltac answer_with :=
  eexists; split; [reflexivity|simpl; reflexivity].

Lemma registerNewUser_answered (x : XEPRegister) (iq : xml.IQ)
    (query : xml.Element) (st : St) :
  answered x iq (registerNewUser x iq query st).2
  ∧ cfg (registerNewUser x iq query st).1.1 = cfg x
  ∧ stm (registerNewUser x iq query st).1.1 = stm x
  ∧ ∀ ev, ev ∈ c2s.storageCalls (registerNewUser x iq query st).2 →
      (∃ u, ev = c2s.CallUserExists u)
      ∨ (∃ user, ev = c2s.CallInsertOrUpdateUser user).
Proof.
  assert (∀ ev u user,
            ev ∈ [c2s.CallUserExists u; c2s.CallInsertOrUpdateUser user] →
            (∃ u, ev = c2s.CallUserExists u)
            ∨ (∃ user, ev = c2s.CallInsertOrUpdateUser user)) as Htwo.
  { intros ev u user Hev. apply elem_of_cons in Hev as [->|Hev]; [eauto|].
    apply list_elem_of_singleton in Hev as ->. eauto. }
  assert (∀ ev u,
            ev ∈ [c2s.CallUserExists u] →
            (∃ u, ev = c2s.CallUserExists u)
            ∨ (∃ user, ev = c2s.CallInsertOrUpdateUser user)) as Hone.
  { intros ev u Hev. apply list_elem_of_singleton in Hev as ->. eauto. }
  destruct (decide (fieldText query "username" = "")) as [Hu|Hu].
  { rewrite xep0077_handler.registerNewUser_bad_request by auto. simpl.
    split; [answer_with|]. split; [done|]. split; [done|].
    intros ev Hev. by apply elem_of_nil in Hev. }
  destruct (decide (fieldText query "password" = "")) as [Hp|Hp].
  { rewrite xep0077_handler.registerNewUser_bad_request by auto. simpl.
    split; [answer_with|]. split; [done|]. split; [done|].
    intros ev Hev. by apply elem_of_nil in Hev. }
  rewrite xep0077_handler.registerNewUser_checked by done.
  destruct (storage.UserExists (fieldText query "username") st)
    as [[exists_ [err|]] st1]; simpl.
  - split; [answer_with|]. split; [done|]. split; [done|]. eauto.
  - destruct exists_; simpl.
    + split; [answer_with|]. split; [done|]. split; [done|]. eauto.
    + destruct (storage.InsertOrUpdateUser _ st1) as [[err|] st2]; simpl.
      * split; [answer_with|]. split; [done|]. split; [done|]. eauto.
      * split; [answer_with|]. split; [done|]. split; [done|]. eauto.
Qed.

Lemma cancelRegistration_answered (x : XEPRegister) (iq : xml.IQ)
    (query : xml.Element) (st : St) :
  answered x iq (cancelRegistration x iq query st).2
  ∧ ∀ ev, ev ∈ c2s.storageCalls (cancelRegistration x iq query st).2 →
      ev = c2s.CallDeleteUser (c2s.Username (stm x)).
Proof.
  rewrite cancelRegistration_result.
  destruct (negb (AllowCancel (cfg x))); simpl.
  { split; [answer_with|]. intros ev Hev. by apply elem_of_nil in Hev. }
  destruct (1 <? length (xml.Elements query))%nat; simpl.
  { split; [answer_with|]. intros ev Hev. by apply elem_of_nil in Hev. }
  destruct (storage.DeleteUser (c2s.Username (stm x)) st) as [[err|] st'];
    simpl.
  - split; [answer_with|]. intros ev Hev.
    by apply list_elem_of_singleton in Hev.
  - split; [answer_with|]. intros ev Hev.
    by apply list_elem_of_singleton in Hev.
Qed.

Lemma changePassword_answered (x : XEPRegister) (password username : string)
    (iq : xml.IQ) (st : St) :
  answered x iq (changePassword x password username iq st).2
  ∧ ∀ ev, ev ∈ c2s.storageCalls (changePassword x password username iq st).2 →
      ev = c2s.CallFetchUser (c2s.Username (stm x))
      ∨ (∃ user, ev = c2s.CallInsertOrUpdateUser user
                 ∧ storage.Password user = password).
Proof.
  destruct (AllowChange (cfg x)) eqn:Hallow.
  2: { unfold changePassword, reply, c2s.sendElement. rewrite Hallow. simpl.
       split; [answer_with|]. intros ev Hev. by apply elem_of_nil in Hev. }
  destruct (decide (username = c2s.Username (stm x))) as [Huser|Huser].
  2: { unfold changePassword, reply, c2s.sendElement.
       rewrite Hallow, (bool_decide_eq_false_2 _ Huser). simpl.
       split; [answer_with|]. intros ev Hev. by apply elem_of_nil in Hev. }
  destruct (c2s.IsSecured (stm x)) eqn:Hsecured.
  2: { unfold changePassword, reply, c2s.sendElement.
       rewrite Hallow, (bool_decide_eq_true_2 _ Huser), Hsecured. simpl.
       split; [answer_with|]. intros ev Hev. by apply elem_of_nil in Hev. }
  rewrite changePassword_secured by done. subst username.
  destruct (storage.FetchUser (c2s.Username (stm x)) st)
    as [[[user|] [err|]] st1]; simpl.
  - split; [answer_with|]. intros ev Hev.
    apply list_elem_of_singleton in Hev. by left.
  - destruct (bool_decide (storage.Password user = password)); simpl.
    + split; [answer_with|]. intros ev Hev.
      apply list_elem_of_singleton in Hev. by left.
    + destruct (storage.InsertOrUpdateUser _ st1) as [[err|] st2]; simpl.
      * split; [answer_with|]. intros ev Hev.
        apply elem_of_cons in Hev as [->|Hev]; [by left|].
        apply list_elem_of_singleton in Hev as ->. right. eauto.
      * split; [answer_with|]. intros ev Hev.
        apply elem_of_cons in Hev as [->|Hev]; [by left|].
        apply list_elem_of_singleton in Hev as ->. right. eauto.
  - split; [answer_with|]. intros ev Hev.
    apply list_elem_of_singleton in Hev. by left.
  - split; [answer_with|]. intros ev Hev.
    apply list_elem_of_singleton in Hev. by left.
Qed.


(** ** ProcessIQ, branch by branch *)

Lemma ProcessIQ_branches (x : XEPRegister) (iq : xml.IQ) (st : St) :
  let error e := c2s.SendElement (stm x) (xml.ErrorIQ iq e) in
  let q := xml.ChildNamespace (xml.IQElements iq) "query" registerNamespace in
  ProcessIQ x iq st
  = if negb (isValidToJid x (xml.IQTo iq)) then
      (Some x, st, [error xml.Forbidden])
    else if negb (c2s.IsAuthenticated (stm x)) then
      if xml.IsGet iq then
        if negb (AllowRegistration (cfg x)) then
          (Some x, st, [error xml.NotAllowed])
        else
          match q with
          | None => (None, st, [])
          | Some q =>
              (Some x, st, (sendRegistrationFields x iq q st).2)
          end
      else if xml.IsSet iq then
        if negb (registered x) then
          match q with
          | None => (None, st, [])
          | Some q =>
              (Some (registerNewUser x iq q st).1.1,
               (registerNewUser x iq q st).1.2,
               (registerNewUser x iq q st).2)
          end
        else (Some x, st, [error xml.NotAcceptable])
      else (Some x, st, [error xml.BadRequest])
    else if xml.IsSet iq then
      match q with
      | None => (None, st, [])
      | Some q =>
          match xml.Child (xml.Elements q) "remove" with
          | Some _ =>
              (Some x, (cancelRegistration x iq q st).1.2,
               (cancelRegistration x iq q st).2)
          | None =>
              match xml.Child (xml.Elements q) "username",
                    xml.Child (xml.Elements q) "password" with
              | Some user, Some password =>
                  (Some x,
                   (changePassword x (xml.Text password) (xml.Text user) iq
                      st).1.2,
                   (changePassword x (xml.Text password) (xml.Text user) iq
                      st).2)
              | _, _ => (Some x, st, [error xml.BadRequest])
              end
          end
      end
    else (Some x, st, [error xml.BadRequest]).
Proof.
  simpl. unfold ProcessIQ.
  destruct (negb (isValidToJid x (xml.IQTo iq))); [done|].
  destruct (negb (c2s.IsAuthenticated (stm x))).
  - destruct (xml.IsGet iq).
    + destruct (negb (AllowRegistration (cfg x))); [done|].
      destruct (xml.ChildNamespace _ _ _) as [q|]; [|done].
      unfold mbind, c2s.Eff_bind. rewrite sendRegistrationFields_result.
      done.
    + destruct (xml.IsSet iq); [|done].
      destruct (negb (registered x)); [|done].
      destruct (xml.ChildNamespace _ _ _) as [q|]; [|done].
      unfold mbind, c2s.Eff_bind.
      destruct (registerNewUser x iq q st) as [[x' st'] evs]. simpl.
      by rewrite app_nil_r.
  - destruct (xml.IsSet iq); [|done].
    destruct (xml.ChildNamespace _ _ _) as [q|]; [|done].
    destruct (xml.Child (xml.Elements q) "remove").
    + unfold mbind, c2s.Eff_bind.
      destruct (cancelRegistration x iq q st) as [[[] st'] evs]. simpl.
      by rewrite app_nil_r.
    + destruct (xml.Child (xml.Elements q) "username") as [user|]; [|done].
      destruct (xml.Child (xml.Elements q) "password") as [password|];
        [|done].
      unfold mbind, c2s.Eff_bind.
      destruct (changePassword x (xml.Text password) (xml.Text user) iq st)
        as [[[] st'] evs]. simpl. by rewrite app_nil_r.
Qed.

(** An IQ that [MatchesIQ] accepts is always answered: [ProcessIQ] returns,
    having sent exactly one element, on the handler's own stream, and that
    element is the error or the result of this IQ.  The handler keeps its
    configuration and its stream. *)
Theorem ProcessIQ_answers_once (x : XEPRegister) (iq : xml.IQ) (st : St) :
  MatchesIQ iq = true →
  ∃ x' st' evs,
    ProcessIQ x iq st = (Some x', st', evs)
    ∧ answered x iq evs
    ∧ cfg x' = cfg x ∧ stm x' = stm x.
Proof.
  unfold MatchesIQ. intros Hmatch. rewrite ProcessIQ_branches. simpl.
  destruct (xml.ChildNamespace _ _ _) as [q|]; [|done].
  destruct (negb (isValidToJid x (xml.IQTo iq))).
  { eexists _, _, _. split; [done|]. split; [answer_with|done]. }
  destruct (negb (c2s.IsAuthenticated (stm x))).
  - destruct (xml.IsGet iq).
    + destruct (negb (AllowRegistration (cfg x))).
      { eexists _, _, _. split; [done|]. split; [answer_with|done]. }
      rewrite sendRegistrationFields_result. simpl.
      eexists _, _, _. split; [done|]. split; [|done].
      destruct (xml.Elements q); answer_with.
    + destruct (xml.IsSet iq).
      * destruct (negb (registered x)).
        -- destruct (registerNewUser_answered x iq q st)
             as (Hans & Hcfg & Hstm & _).
           eexists _, _, _. split; [done|]. done.
        -- eexists _, _, _. split; [done|]. split; [answer_with|done].
      * eexists _, _, _. split; [done|]. split; [answer_with|done].
  - destruct (xml.IsSet iq).
    + destruct (xml.Child (xml.Elements q) "remove").
      * destruct (cancelRegistration_answered x iq q st) as [Hans _].
        eexists _, _, _. split; [done|]. done.
      * destruct (xml.Child (xml.Elements q) "username") as [user|].
        -- destruct (xml.Child (xml.Elements q) "password") as [password|].
           ++ destruct (changePassword_answered x (xml.Text password)
                          (xml.Text user) iq st) as [Hans _].
              eexists _, _, _. split; [done|]. done.
           ++ eexists _, _, _. split; [done|]. split; [answer_with|done].
        -- eexists _, _, _. split; [done|]. split; [answer_with|done].
    + eexists _, _, _. split; [done|]. split; [answer_with|done].
Qed.

(** An IQ without query in the registration namespace, which [MatchesIQ]
    rejects, stops [ProcessIQ] in a nil dereference exactly when its to-JID
    is accepted and the branch taken reads the query: a get on an
    unauthenticated stream with registration allowed, a set on an
    unauthenticated stream with the latch unset, or a set on an
    authenticated stream.  Nothing is sent and nothing is called before the
    stop; in every other case the IQ is answered. *)
Theorem ProcessIQ_without_query (x : XEPRegister) (iq : xml.IQ) (st : St) :
  MatchesIQ iq = false →
  ((ProcessIQ x iq st).1.1 = None
   ↔ isValidToJid x (xml.IQTo iq) = true
     ∧ ((c2s.IsAuthenticated (stm x) = false ∧ xml.IsGet iq = true
         ∧ AllowRegistration (cfg x) = true)
        ∨ (c2s.IsAuthenticated (stm x) = false ∧ xml.IsSet iq = true
           ∧ registered x = false)
        ∨ (c2s.IsAuthenticated (stm x) = true ∧ xml.IsSet iq = true)))
  ∧ ((ProcessIQ x iq st).1.1 = None → ProcessIQ x iq st = (None, st, []))
  ∧ ((ProcessIQ x iq st).1.1 ≠ None →
     (ProcessIQ x iq st).1 = (Some x, st)
     ∧ answered x iq (ProcessIQ x iq st).2
     ∧ c2s.storageCalls (ProcessIQ x iq st).2 = []).
Proof.
  unfold MatchesIQ. intros Hmatch. rewrite ProcessIQ_branches. simpl.
  destruct (xml.ChildNamespace _ _ _) as [q|]; [done|].
  pose proof (xep0077_handler.IsSet_not_IsGet iq) as Hsetget.
  destruct (isValidToJid x (xml.IQTo iq)); simpl.
  2: { split; [split; [done|by intros [? _]]|]. split; [done|].
       intros _. split; [done|]. split; [answer_with|done]. }
  destruct (c2s.IsAuthenticated (stm x)); simpl.
  - destruct (xml.IsSet iq); simpl.
    + split; [split; [auto 10|done]|]. split; [done|]. done.
    + split; [split; [done|]|].
      { intros (_ & [(? & _)|[(? & _)|(_ & ?)]]); done. }
      split; [done|]. intros _. split; [done|]. split; [answer_with|done].
  - destruct (xml.IsGet iq) eqn:Hget; simpl.
    + destruct (AllowRegistration (cfg x)); simpl.
      * split; [split; [auto 10|done]|]. split; [done|]. done.
      * split; [split; [done|]|].
        { intros (_ & [(_ & _ & ?)|[(_ & Hset & _)|(? & _)]]); try done.
          specialize (Hsetget Hset). congruence. }
        split; [done|]. intros _. split; [done|].
        split; [answer_with|done].
    + destruct (xml.IsSet iq); simpl.
      * destruct (registered x); simpl.
        -- split; [split; [done|]|].
           { intros (_ & [(_ & ? & _)|[(_ & _ & ?)|(? & _)]]); done. }
           split; [done|]. intros _. split; [done|].
           split; [answer_with|done].
        -- split; [split; [auto 10|done]|]. split; [done|]. done.
      * split; [split; [done|]|].
        { intros (_ & [(_ & ? & _)|[(_ & ? & _)|(? & _)]]); done. }
        split; [done|]. intros _. split; [done|].
        split; [answer_with|done].
Qed.


(** ** The requests one by one *)

(** An IQ get on an unauthenticated stream, with an accepted to-JID: it is
    answered with not-allowed when registration is not allowed, with
    bad-request when the query has children, and else with a result that
    carries a query with an empty username and an empty password field.
    Storage is not called and the handler does not change. *)
Theorem registration_fields_request (x : XEPRegister) (iq : xml.IQ)
    (query : xml.Element) (st : St) :
  c2s.IsAuthenticated (stm x) = false →
  xml.IsGet iq = true →
  isValidToJid x (xml.IQTo iq) = true →
  xml.ChildNamespace (xml.IQElements iq) "query" registerNamespace
    = Some query →
  ProcessIQ x iq st
  = (Some x, st,
     [c2s.SendElement (stm x)
        (if negb (AllowRegistration (cfg x)) then
           xml.ErrorIQ iq xml.NotAllowed
         else if xml.Elements query is [] then
           xml.ResultIQ iq
             [xml.NewElement "query" "jabber:iq:register" ""
                [xml.NewElement "username" "" "" [];
                 xml.NewElement "password" "" "" []]]
         else xml.ErrorIQ iq xml.BadRequest)]).
Proof.
  intros Hauth Hget Hvalid Hquery. rewrite ProcessIQ_branches. simpl.
  rewrite Hvalid, Hauth, Hget, Hquery. simpl.
  destruct (AllowRegistration (cfg x)); simpl; [|done].
  by rewrite sendRegistrationFields_result.
Qed.

(** A cancellation (an IQ set with a [remove] child, addressed to the
    server) on an authenticated stream: not-allowed without a storage call
    when [AllowCancel] is false; bad-request without a storage call when
    the query has more than one child; else one [DeleteUser] call, for the
    username of the stream, answered with internal-server-error when it
    fails and with a result when it succeeds.  Whatever username the query
    may carry plays no part. *)
Theorem cancel_registration (x : XEPRegister) (iq : xml.IQ)
    (query remove : xml.Element) (st : St) :
  c2s.IsAuthenticated (stm x) = true →
  xml.IsSet iq = true →
  xml.IsServer (xml.IQTo iq) = true →
  xml.ChildNamespace (xml.IQElements iq) "query" registerNamespace
    = Some query →
  xml.Child (xml.Elements query) "remove" = Some remove →
  let deletion := storage.DeleteUser (c2s.Username (stm x)) st in
  let error e := c2s.SendElement (stm x) (xml.ErrorIQ iq e) in
  (AllowCancel (cfg x) = false →
   ProcessIQ x iq st = (Some x, st, [error xml.NotAllowed]))
  ∧ (AllowCancel (cfg x) = true →
     (1 < length (xml.Elements query))%nat →
     ProcessIQ x iq st = (Some x, st, [error xml.BadRequest]))
  ∧ (AllowCancel (cfg x) = true →
     (length (xml.Elements query) ≤ 1)%nat →
     (is_Some deletion.1 →
      ProcessIQ x iq st
      = (Some x, deletion.2,
         [c2s.CallDeleteUser (c2s.Username (stm x));
          error xml.InternalServerError]))
     ∧ (deletion.1 = None →
        ProcessIQ x iq st
        = (Some x, deletion.2,
           [c2s.CallDeleteUser (c2s.Username (stm x));
            c2s.SendElement (stm x) (xml.ResultIQ iq [])]))).
Proof.
  intros Hauth Hset Hserver Hquery Hremove deletion error.
  rewrite ProcessIQ_branches. simpl. unfold isValidToJid.
  rewrite Hauth, Hserver, Hset, Hquery, Hremove. simpl.
  rewrite cancelRegistration_result. split; [|split].
  - intros ->. simpl. reflexivity.
  - intros -> Hmany. simpl.
    by rewrite (proj2 (Nat.ltb_lt _ _) Hmany).
  - intros -> Hfew. simpl.
    rewrite (proj2 (Nat.ltb_ge _ _) Hfew). fold deletion. simpl. split.
    + intros [err Herr]. by rewrite Herr.
    + by intros ->.
Qed.

(** A password change that passes the three checks (change allowed, the
    stream's own username, a secured stream) fetches the user: a storage
    error is answered with internal-server-error; a user that is not there
    and a password that is already the stored one are answered with a
    result without any write; otherwise the stored user is written back
    with the new password and nothing else changed, and the answer is a
    result when the write succeeds and internal-server-error when it
    fails. *)
Theorem change_password (x : XEPRegister) (password username : string)
    (iq : xml.IQ) (st : St) :
  AllowChange (cfg x) = true →
  username = c2s.Username (stm x) →
  c2s.IsSecured (stm x) = true →
  let answer := storage.FetchUser username st in
  let error e := c2s.SendElement (stm x) (xml.ErrorIQ iq e) in
  let result := c2s.SendElement (stm x) (xml.ResultIQ iq []) in
  (is_Some answer.1.2 →
   changePassword x password username iq st
   = (tt, answer.2,
      [c2s.CallFetchUser username; error xml.InternalServerError]))
  ∧ (answer.1 = (None, None) →
     changePassword x password username iq st
     = (tt, answer.2, [c2s.CallFetchUser username; result]))
  ∧ (∀ user, answer.1 = (Some user, None) →
       let changed := {| storage.Username := storage.Username user;
                         storage.Password := password |} in
       let insertion := storage.InsertOrUpdateUser changed answer.2 in
       (storage.Password user = password →
        changePassword x password username iq st
        = (tt, answer.2, [c2s.CallFetchUser username; result]))
       ∧ (storage.Password user ≠ password →
          (is_Some insertion.1 →
           changePassword x password username iq st
           = (tt, insertion.2,
              [c2s.CallFetchUser username;
               c2s.CallInsertOrUpdateUser changed;
               error xml.InternalServerError]))
          ∧ (insertion.1 = None →
             changePassword x password username iq st
             = (tt, insertion.2,
                [c2s.CallFetchUser username;
                 c2s.CallInsertOrUpdateUser changed; result])))).
Proof.
  intros Hallow Huser Hsecured. simpl.
  rewrite changePassword_secured by done. simpl.
  destruct (storage.FetchUser username st) as [[user0 err0] st1]. simpl.
  split; [|split].
  - intros [err ->]. by destruct user0.
  - intros [= -> ->]. reflexivity.
  - intros user [= -> ->]. split.
    + intros Hsame. by rewrite bool_decide_eq_true_2.
    + intros Hdiff. rewrite bool_decide_eq_false_2 by done. split.
      * intros [err Herr]. by rewrite Herr.
      * by intros ->.
Qed.

(** ** What the handler asks of storage *)

(** The storage calls of [ProcessIQ], by the state of the stream.  A
    rejected to-JID, and every IQ that is no set, call nothing.  On an
    unauthenticated stream the only calls are [UserExists] and
    [InsertOrUpdateUser]: nothing is fetched or deleted.  On an
    authenticated stream the only calls are [DeleteUser] and [FetchUser]
    for the username of the stream, and [InsertOrUpdateUser] with the
    submitted password: [UserExists] is never called, and no other user is
    fetched or deleted. *)
Theorem ProcessIQ_storage_calls (x : XEPRegister) (iq : xml.IQ) (st : St) :
  let calls := c2s.storageCalls (ProcessIQ x iq st).2 in
  (isValidToJid x (xml.IQTo iq) = false → calls = [])
  ∧ (xml.IsSet iq = false → calls = [])
  ∧ (c2s.IsAuthenticated (stm x) = false →
     ∀ ev, ev ∈ calls →
       (∃ u, ev = c2s.CallUserExists u)
       ∨ (∃ user, ev = c2s.CallInsertOrUpdateUser user))
  ∧ (c2s.IsAuthenticated (stm x) = true →
     ∀ ev, ev ∈ calls →
       ev = c2s.CallDeleteUser (c2s.Username (stm x))
       ∨ ev = c2s.CallFetchUser (c2s.Username (stm x))
       ∨ (∃ user, ev = c2s.CallInsertOrUpdateUser user
                  ∧ storage.Password user
                    = fieldText
                        (default (xml.NewElementName "query")
                           (xml.ChildNamespace (xml.IQElements iq) "query"
                              registerNamespace)) "password")).
Proof.
  simpl. rewrite ProcessIQ_branches. simpl.
  pose proof (xep0077_handler.IsSet_not_IsGet iq) as Hsetget.
  destruct (isValidToJid x (xml.IQTo iq)); simpl.
  2: { split; [done|]. split; [done|].
       split; intros _ ev Hev; by apply elem_of_nil in Hev. }
  split; [done|].
  destruct (c2s.IsAuthenticated (stm x)); simpl.
  - destruct (xml.IsSet iq); simpl.
    2: { split; [done|]. split; [done|]. intros _ ev Hev.
         by apply elem_of_nil in Hev. }
    split; [done|]. split; [done|]. intros _.
    destruct (xml.ChildNamespace _ _ _) as [q|]; simpl;
      [|intros ev Hev; by apply elem_of_nil in Hev].
    destruct (xml.Child (xml.Elements q) "remove").
    + intros ev Hev. left.
      by apply (proj2 (cancelRegistration_answered x iq q st)).
    + unfold fieldText.
      destruct (xml.Child (xml.Elements q) "username") as [user|];
        [|intros ev Hev; by apply elem_of_nil in Hev].
      destruct (xml.Child (xml.Elements q) "password") as [password|];
        [|intros ev Hev; by apply elem_of_nil in Hev].
      intros ev Hev. right.
      by apply (proj2 (changePassword_answered x (xml.Text password)
                         (xml.Text user) iq st)).
  - destruct (xml.IsGet iq) eqn:Hget.
    + assert (xml.IsSet iq = false) as Hset.
      { destruct (xml.IsSet iq); [|done]. specialize (Hsetget eq_refl).
        congruence. }
      assert (c2s.storageCalls
                (if negb (AllowRegistration (cfg x))
                 then (Some x, st,
                       [c2s.SendElement (stm x)
                          (xml.ErrorIQ iq xml.NotAllowed)])
                 else match xml.ChildNamespace (xml.IQElements iq) "query"
                              registerNamespace with
                      | Some q =>
                          (Some x, st, (sendRegistrationFields x iq q st).2)
                      | None => (None, st, [])
                      end).2 = []) as ->.
      { destruct (negb (AllowRegistration (cfg x))); [done|].
        destruct (xml.ChildNamespace _ _ _) as [q|]; [|done].
        rewrite sendRegistrationFields_result. done. }
      split; [done|]. split; [|done]. intros _ ev Hev.
      by apply elem_of_nil in Hev.
    + destruct (xml.IsSet iq); simpl.
      2: { split; [done|]. split; [|done]. intros _ ev Hev.
           by apply elem_of_nil in Hev. }
      split; [done|]. split; [|done]. intros _.
      destruct (negb (registered x)); simpl;
        [|intros ev Hev; by apply elem_of_nil in Hev].
      destruct (xml.ChildNamespace _ _ _) as [q|]; simpl;
        [|intros ev Hev; by apply elem_of_nil in Hev].
      apply (registerNewUser_answered x iq q st).
Qed.

(** The latch tells the truth: when [ProcessIQ] sets it, the stream was
    unauthenticated, the IQ was a set with a username and a password that
    are not empty, [UserExists] had answered that there is no such user,
    [InsertOrUpdateUser] was called with exactly these credentials and
    succeeded, and the IQ was answered with a result.  And [ProcessIQ]
    never unsets the latch. *)
Theorem latch_set_by_creation (x x' : XEPRegister) (iq : xml.IQ)
    (st st' : St) (evs : list c2s.Event) :
  ProcessIQ x iq st = (Some x', st', evs) →
  (registered x = true → registered x' = true)
  ∧ (registered x = false → registered x' = true →
     ∃ query,
       xml.ChildNamespace (xml.IQElements iq) "query" registerNamespace
         = Some query
       ∧ let user := {| storage.Username := fieldText query "username";
                        storage.Password := fieldText query "password" |} in
         c2s.IsAuthenticated (stm x) = false
         ∧ xml.IsSet iq = true
         ∧ storage.Username user ≠ "" ∧ storage.Password user ≠ ""
         ∧ (storage.UserExists (storage.Username user) st).1 = (false, None)
         ∧ storage.InsertOrUpdateUser user
             (storage.UserExists (storage.Username user) st).2
           = (None, st')
         ∧ evs = [c2s.CallUserExists (storage.Username user);
                  c2s.CallInsertOrUpdateUser user;
                  c2s.SendElement (stm x) (xml.ResultIQ iq [])]).
Proof.
  intros Hprocess. split.
  { intros Hlatch.
    apply xep0077_handler.ProcessIQ_handler in Hprocess as [->|[-> _]]; done. }
  intros Hunset Hset'. rewrite ProcessIQ_branches in Hprocess.
  simpl in Hprocess.
  assert (∀ (st0 : St) evs0, (Some x, st0, evs0) = (Some x', st', evs) → False)
    as Hsame.
  { intros st0 evs0 [= <- _ _]. congruence. }
  destruct (negb (isValidToJid x (xml.IQTo iq))); [by destruct (Hsame _ _ Hprocess)|].
  destruct (c2s.IsAuthenticated (stm x)); simpl in Hprocess.
  { destruct (xml.IsSet iq); [|by destruct (Hsame _ _ Hprocess)].
    destruct (xml.ChildNamespace _ _ _) as [q|]; [|done].
    destruct (xml.Child (xml.Elements q) "remove");
      [by destruct (Hsame _ _ Hprocess)|].
    destruct (xml.Child (xml.Elements q) "username");
      [|by destruct (Hsame _ _ Hprocess)].
    destruct (xml.Child (xml.Elements q) "password");
      by destruct (Hsame _ _ Hprocess). }
  destruct (xml.IsGet iq).
  { destruct (negb (AllowRegistration (cfg x)));
      [by destruct (Hsame _ _ Hprocess)|].
    destruct (xml.ChildNamespace _ _ _) as [q|]; [|done].
    by destruct (Hsame _ _ Hprocess). }
  destruct (xml.IsSet iq); [|by destruct (Hsame _ _ Hprocess)].
  rewrite Hunset in Hprocess. simpl in Hprocess.
  destruct (xml.ChildNamespace _ _ _) as [q|]; [|done].
  exists q. split; [done|]. simpl.
  destruct (decide (fieldText q "username" = "")) as [Hu|Hu].
  { rewrite xep0077_handler.registerNewUser_bad_request in Hprocess by auto.
    by destruct (Hsame _ _ Hprocess). }
  destruct (decide (fieldText q "password" = "")) as [Hp|Hp].
  { rewrite xep0077_handler.registerNewUser_bad_request in Hprocess by auto.
    by destruct (Hsame _ _ Hprocess). }
  rewrite xep0077_handler.registerNewUser_checked in Hprocess by done.
  destruct (storage.UserExists (fieldText q "username") st)
    as [[exists_ [err|]] st1]; simpl in *;
    [by destruct (Hsame _ _ Hprocess)|].
  destruct exists_; [by destruct (Hsame _ _ Hprocess)|].
  destruct (storage.InsertOrUpdateUser _ st1) as [[err|] st2]; simpl in *;
    [by destruct (Hsame _ _ Hprocess)|].
  injection Hprocess as <- <- <-. done.
Qed.

End Replies.


(** ** Examples *)

Lemma ProcessIQ_answers_once_witness :
  ∃ x' st' evs,
    ProcessIQ (New allAllowed newcomer)
      (setIQ "reg-1" serverJID (credentials "alice" "s3cret")) noUsers
    = (Some x', st', evs)
    ∧ answered (New allAllowed newcomer)
        (setIQ "reg-1" serverJID (credentials "alice" "s3cret")) evs
    ∧ cfg x' = allAllowed ∧ stm x' = newcomer.
Proof.
  apply (ProcessIQ_answers_once (New allAllowed newcomer)
           (setIQ "reg-1" serverJID (credentials "alice" "s3cret")) noUsers).
  reflexivity.
Defined.

Lemma ProcessIQ_without_query_witness :
  ProcessIQ (New allAllowed newcomer) strayIQ noUsers = (None, noUsers, []).
Proof.
  destruct (ProcessIQ_without_query (New allAllowed newcomer) strayIQ
              noUsers) as (Hiff & Hstop & _); [reflexivity|].
  apply Hstop. apply Hiff. split; [reflexivity|].
  right. left. repeat split; reflexivity.
Defined.

Lemma registration_fields_request_witness :
  ProcessIQ (New allAllowed newcomer) (getIQ "get-1" serverJID []) noUsers
  = (Some (New allAllowed newcomer), noUsers,
     [c2s.SendElement newcomer
        (xml.ResultIQ (getIQ "get-1" serverJID []) [registrationFields])]).
Proof.
  apply (registration_fields_request (New allAllowed newcomer)
           (getIQ "get-1" serverJID []) (registerQuery []) noUsers);
    reflexivity.
Defined.

Lemma cancel_registration_witness :
  ProcessIQ aliceHandler (setIQ "rm-1" serverJID [xml.NewElementName "remove"])
    c2s_spec.aliceOnly
  = (Some aliceHandler, c2s_spec.memDelete "alice" c2s_spec.aliceOnly,
     [c2s.CallDeleteUser "alice";
      c2s.SendElement c2s_spec.phone
        (xml.ResultIQ
           (setIQ "rm-1" serverJID [xml.NewElementName "remove"]) [])]).
Proof.
  destruct (cancel_registration aliceHandler
              (setIQ "rm-1" serverJID [xml.NewElementName "remove"])
              (registerQuery [xml.NewElementName "remove"])
              (xml.NewElementName "remove") c2s_spec.aliceOnly
              eq_refl eq_refl eq_refl eq_refl eq_refl)
    as (_ & _ & Hdelete).
  apply Hdelete; [reflexivity|simpl; lia|reflexivity].
Defined.

Lemma change_password_witness :
  changePassword aliceHandler "n3w" "alice"
    (setIQ "pw-1" serverJID (credentials "alice" "n3w")) c2s_spec.aliceOnly
  = (tt,
     c2s_spec.memInsert
       {| storage.Username := "alice"; storage.Password := "n3w" |}
       c2s_spec.aliceOnly,
     [c2s.CallFetchUser "alice";
      c2s.CallInsertOrUpdateUser
        {| storage.Username := "alice"; storage.Password := "n3w" |};
      c2s.SendElement c2s_spec.phone
        (xml.ResultIQ (setIQ "pw-1" serverJID (credentials "alice" "n3w"))
           [])]).
Proof.
  destruct (change_password aliceHandler "n3w" "alice"
              (setIQ "pw-1" serverJID (credentials "alice" "n3w"))
              c2s_spec.aliceOnly eq_refl eq_refl eq_refl)
    as (_ & _ & Hfound).
  destruct (Hfound {| storage.Username := "alice";
                      storage.Password := "pw" |} eq_refl)
    as [_ Hchanged].
  apply Hchanged; [discriminate|reflexivity].
Defined.

Lemma ProcessIQ_storage_calls_witness :
  c2s.storageCalls
    (ProcessIQ (New allAllowed newcomer)
       (setIQ "reg-1" c2s_spec.bob (credentials "alice" "s3cret"))
       noUsers).2 = [].
Proof.
  apply (proj1 (ProcessIQ_storage_calls (New allAllowed newcomer)
                  (setIQ "reg-1" c2s_spec.bob (credentials "alice" "s3cret"))
                  noUsers)).
  reflexivity.
Defined.

Lemma latch_set_by_creation_witness :
  c2s.IsAuthenticated newcomer = false
  ∧ (storage.UserExists "alice" noUsers).1 = (false, None).
Proof.
  assert (ProcessIQ (New allAllowed newcomer)
            (setIQ "reg-1" serverJID (credentials "alice" "s3cret")) noUsers
          = (Some (setRegistered (New allAllowed newcomer)),
             c2s_spec.memInsert
               {| storage.Username := "alice";
                  storage.Password := "s3cret" |} noUsers,
             [c2s.CallUserExists "alice";
              c2s.CallInsertOrUpdateUser
                {| storage.Username := "alice";
                   storage.Password := "s3cret" |};
              c2s.SendElement newcomer
                (xml.ResultIQ
                   (setIQ "reg-1" serverJID (credentials "alice" "s3cret"))
                   [])])) as Hprocess by reflexivity.
  destruct (proj2 (latch_set_by_creation _ _ _ _ _ _ Hprocess)
              eq_refl eq_refl)
    as (query & Hquery & Hauth & _ & _ & _ & Hexists & _).
  injection Hquery as <-. split; [exact Hauth|exact Hexists].
Defined.

End xep0077_replies.
